(** * Settlement resolution engine of the oracle-kit prediction market

    A shallow embedding of the four API routes of the front end

    - [api/market/settle/route.ts]            (module [Settle])
    - [api/market/resolve-discrete/route.ts]  (module [Discrete])
    - [api/market/create/route.ts]            (module [Create])
    - the admin manual-settlement route       (module [Admin])

    together with [lib/oracle-types.ts] (module [OracleTypes]).

    Every route is an [async] handler that talks to the ledger, to the
    reasoning service and to the document store.  A handler is embedded as
    a computation in the monad [M] below: it threads the list of external
    calls it has issued and may end in a thrown JavaScript error.  What the
    outside world answers to each call is a field of a [World] record. *)

From Stdlib Require Import ZArith List Bool Ascii String DecimalString Lia Permutation.
From stdpp Require Import base option list gmap strings.
Import ListNotations.

Local Open Scope Z_scope.
Set Warnings "-register-all".

(** ** JavaScript values, errors and built-ins *)

Module Js.

(** A JavaScript number.  Integral values are kept exactly (the routes
    only add five of them and divide by five, far inside the range in
    which doubles are exact); the other numbers are only ever tested
    with [Number.isInteger]. *)
Inductive JsNumber :=
| Integer (z : Z)
| NonInteger (m : Z) (e : positive)   (* the dyadic m / 2^e, m odd *)
| Infinite (negative : bool)
| NaN.

(** What [JSON.parse] and property reads produce.  [JFunction] stands for
    the members a value inherits from its prototype. *)
Inductive JsValue :=
| JUndefined
| JNull
| JBool (b : bool)
| JNum (n : JsNumber)
| JStr (s : string)
| JArr (items : list JsValue)
| JObj (fields : list (string * JsValue))
| JFunction (name : string).

(** A thrown value, as far as the handlers look at it: its [message]. *)
Record JsError := mkError { message : option string }.

Definition TypeError (msg : string) : JsError := mkError (Some msg).

Inductive Exc (A : Type) :=
| Ok (a : A)
| Throw (e : JsError).
Arguments Ok {A} a.
Arguments Throw {A} e.

(** The built-ins of the platform that are taken as given. *)
Class JsRuntime := {
  (** [JSON.parse]; [Throw] is its [SyntaxError] *)
  JSON_parse : string -> Exc JsValue;
  (** [v[key]] when [v] has no own property [key]: the prototype chain *)
  inherited : JsValue -> string -> JsValue;
  (** the operators [>], [<], [>=], [<=], [==], [!=] on two values *)
  js_compare : string -> JsValue -> JsValue -> bool;
  (** [parseInt(v)] *)
  parseInt : JsValue -> JsNumber;
  (** the text of a value inside a template literal *)
  toText : JsValue -> string;
  encodeURIComponent : string -> string;
  (** [BigInt(v)]; [Throw] when [v] does not denote an integer *)
  BigInt : JsValue -> Exc Z;
  (** the conversion to number of strings, arrays, objects and functions *)
  coerceToNumber : JsValue -> JsNumber;
  (** [new URL(base)] with the given search parameters appended, printed
      with [toString()]; [Throw] when [base] is not a URL *)
  URL_href : string -> list (string * string) -> Exc string
}.

(** *** Strings

    Texts are sequences of ASCII characters. *)

Definition isWhitespace (c : ascii) : bool :=
  let n := nat_of_ascii c in
  ((9 <=? n)%nat && (n <=? 13)%nat) || (n =? 32)%nat.

Fixpoint trimStart (s : string) : string :=
  match s with
  | String c rest => if isWhitespace c then trimStart rest else s
  | EmptyString => EmptyString
  end.

Fixpoint trimEnd (s : string) : string :=
  match s with
  | String c rest =>
      match trimEnd rest with
      | EmptyString => if isWhitespace c then EmptyString else String c EmptyString
      | kept => String c kept
      end
  | EmptyString => EmptyString
  end.

(** [s.trim()] *)
Definition trim (s : string) : string := trimEnd (trimStart s).

(** [s.includes(needle)] *)
Fixpoint includes (needle s : string) : bool :=
  String.prefix needle s ||
  match s with
  | String _ rest => includes needle rest
  | EmptyString => false
  end.

(** [s.toLowerCase()] on ASCII letters *)
Definition lowerChar (c : ascii) : ascii :=
  let n := nat_of_ascii c in
  if ((65 <=? n)%nat && (n <=? 90)%nat) then ascii_of_nat (n + 32) else c.

Fixpoint toLowerCase (s : string) : string :=
  match s with
  | String c rest => String (lowerChar c) (toLowerCase rest)
  | EmptyString => EmptyString
  end.

(** [s.replace] of every code fence, with or without its [json] tag, by
    the empty text: [skip] counts the characters of a fence still to be
    dropped. *)
Fixpoint stripFencesFrom (skip : nat) (s : string) : string :=
  match s with
  | EmptyString => EmptyString
  | String c rest =>
      match skip with
      | S k => stripFencesFrom k rest
      | O =>
          if String.prefix "```json" s then stripFencesFrom 6 rest
          else if String.prefix "```" s then stripFencesFrom 2 rest
          else String c (stripFencesFrom 0 rest)
      end
  end.

Definition stripFences (s : string) : string := stripFencesFrom 0 s.

(** The text up to and including the last ["}"] of [s], if there is one. *)
Fixpoint upToLastBrace (s : string) : option string :=
  match s with
  | EmptyString => None
  | String c rest =>
      match upToLastBrace rest with
      | Some kept => Some (String c kept)
      | None => if Ascii.eqb c "}" then Some (String c EmptyString) else None
      end
  end.

(** [s.match(/\{[\s\S]*\}/)]: from the first ["{"] that has a ["}"] after
    it to the last ["}"]. *)
Fixpoint matchObject (s : string) : option string :=
  match s with
  | EmptyString => None
  | String c rest =>
      if Ascii.eqb c "{" then
        match upToLastBrace rest with
        | Some kept => Some (String c kept)
        | None => None
        end
      else matchObject rest
  end.

(** *** Property reads *)

Fixpoint assoc (key : string) (fields : list (string * JsValue)) : option JsValue :=
  match fields with
  | [] => None
  | (k, v) :: rest => if String.eqb k key then Some v else assoc key rest
  end.

Definition digitOf (c : ascii) : option nat :=
  let n := nat_of_ascii c in
  if ((48 <=? n)%nat && (n <=? 57)%nat) then Some (n - 48)%nat else None.

Fixpoint digitsValue (acc : nat) (s : string) : option nat :=
  match s with
  | EmptyString => Some acc
  | String c rest =>
      match digitOf c with
      | Some d => digitsValue (10 * acc + d)%nat rest
      | None => None
      end
  end.

(** A property key that is an array index: a decimal numeral without
    sign or leading zero. *)
Definition arrayIndex (key : string) : option nat :=
  match key with
  | EmptyString => None
  | String "0" EmptyString => Some 0%nat
  | String "0" _ => None
  | _ => digitsValue 0 key
  end.

Definition charAt (s : string) (i : nat) : option JsValue :=
  match String.get i s with
  | Some c => Some (JStr (String c EmptyString))
  | None => None
  end.

Definition ownProperty (v : JsValue) (key : string) : option JsValue :=
  match v with
  | JObj fields => assoc key fields
  | JArr items =>
      if String.eqb key "length" then Some (JNum (Integer (Z.of_nat (List.length items))))
      else match arrayIndex key with
           | Some i => nth_error items i
           | None => None
           end
  | JStr s =>
      if String.eqb key "length" then Some (JNum (Integer (Z.of_nat (String.length s))))
      else match arrayIndex key with
           | Some i => charAt s i
           | None => None
           end
  | _ => None
  end.

(** [v[key]] and [v.key]: a [TypeError] on [null] and [undefined], the
    own property or else the inherited one on everything else. *)
Definition getProp `{JsRuntime} (v : JsValue) (key : string) : Exc JsValue :=
  match v with
  | JUndefined | JNull => Throw (TypeError "Cannot read properties of null or undefined")
  | _ =>
      match ownProperty v key with
      | Some x => Ok x
      | None => Ok (inherited v key)
      end
  end.

(** [Number.isInteger(v)] *)
Definition Number_isInteger (v : JsValue) : bool :=
  match v with
  | JNum (Integer _) => true
  | _ => false
  end.

(** The conversion to boolean behind [!v], [v || d] and [if (v)]. *)
Definition truthy (v : JsValue) : bool :=
  match v with
  | JUndefined | JNull => false
  | JBool b => b
  | JNum (Integer z) => negb (z =? 0)
  | JNum NaN => false
  | JNum _ => true
  | JStr s => negb (String.eqb s EmptyString)
  | JArr _ | JObj _ | JFunction _ => true
  end.

(** [v?.key] *)
Definition optProp `{JsRuntime} (v : JsValue) (key : string) : Exc JsValue :=
  match v with
  | JUndefined | JNull => Ok JUndefined
  | _ => getProp v key
  end.

(** [a || b] *)
Definition orValue (a b : JsValue) : JsValue := if truthy a then a else b.

(** The own enumerable properties an object spread copies. *)
Fixpoint indexed (i : nat) (items : list JsValue) : list (string * JsValue) :=
  match items with
  | [] => []
  | v :: rest =>
      (NilZero.string_of_uint (Nat.to_uint i), v) :: indexed (S i) rest
  end.

Fixpoint chars (s : string) : list JsValue :=
  match s with
  | EmptyString => []
  | String c rest => JStr (String c EmptyString) :: chars rest
  end.

Definition spread (v : JsValue) : list (string * JsValue) :=
  match v with
  | JObj fields => fields
  | JArr items => indexed 0 items
  | JStr s => indexed 0 (chars s)
  | _ => []
  end.

(** Adding [key: v] to an object literal: a key already present keeps
    its place and takes the new value. *)
Fixpoint setField (key : string) (v : JsValue) (fields : list (string * JsValue))
  : list (string * JsValue) :=
  match fields with
  | [] => [(key, v)]
  | (k, old) :: rest =>
      if String.eqb k key then (k, v) :: rest else (k, old) :: setField key v rest
  end.

Definition setFields (new fields : list (string * JsValue)) : list (string * JsValue) :=
  fold_left (fun acc kv => setField (fst kv) (snd kv) acc) new fields.

(** The conversion to number behind [Math.max] and [Math.min]. *)
Definition toNumber `{JsRuntime} (v : JsValue) : JsNumber :=
  match v with
  | JNum n => n
  | JUndefined => NaN
  | JNull => Integer 0
  | JBool b => Integer (if b then 1 else 0)
  | _ => coerceToNumber v
  end.

(** A finite number as numerator and binary exponent of the denominator. *)
Definition finiteParts (n : JsNumber) : option (Z * Z) :=
  match n with
  | Integer z => Some (z, 0)
  | NonInteger m e => Some (m, Z.pos e)
  | _ => None
  end.

(** [a > b] on numbers *)
Definition numGt (a b : JsNumber) : bool :=
  match a, b with
  | NaN, _ | _, NaN => false
  | Infinite na, Infinite nb => negb na && nb
  | Infinite na, _ => negb na
  | _, Infinite nb => nb
  | _, _ =>
      match finiteParts a, finiteParts b with
      | Some (ma, ea), Some (mb, eb) => mb * 2 ^ ea <? ma * 2 ^ eb
      | _, _ => false
      end
  end.

(** [a === b] on numbers *)
Definition numEq (a b : JsNumber) : bool :=
  match a, b with
  | NaN, _ | _, NaN => false
  | Infinite na, Infinite nb => Bool.eqb na nb
  | Infinite _, _ | _, Infinite _ => false
  | _, _ =>
      match finiteParts a, finiteParts b with
      | Some (ma, ea), Some (mb, eb) => mb * 2 ^ ea =? ma * 2 ^ eb
      | _, _ => false
      end
  end.

Definition isNaN (n : JsNumber) : bool :=
  match n with
  | NaN => true
  | _ => false
  end.

(** [a >= b] on numbers *)
Definition numGe (a b : JsNumber) : bool := numGt a b || numEq a b.

(** [Math.max(a, b)] and [Math.min(a, b)] on numbers *)
Definition Math_max (a b : JsNumber) : JsNumber :=
  if isNaN a || isNaN b then NaN else if numGt b a then b else a.

Definition Math_min (a b : JsNumber) : JsNumber :=
  if isNaN a || isNaN b then NaN else if numGt a b then b else a.

(** [s.replace(pattern, replacement)] with a text pattern: the first
    occurrence only. *)
Fixpoint dropChars (n : nat) (s : string) : string :=
  match n, s with
  | S k, String _ rest => dropChars k rest
  | _, _ => s
  end.

Fixpoint replaceFirst (pattern replacement s : string) : string :=
  if String.prefix pattern s then replacement +:+ dropChars (String.length pattern) s
  else match s with
       | String c rest => String c (replaceFirst pattern replacement rest)
       | EmptyString => EmptyString
       end.

(** *** The handler monad: state, a trace of external calls, exceptions *)

(** A state in which external calls can be recorded. *)
Class Traced (E S : Type) := record : E -> S -> S.

Global Instance list_traced (E : Type) : Traced E (list E) :=
  fun ev t => t ++ [ev].

Section Monad.
Context {St : Type}.

Definition M (A : Type) : Type := St -> Exc A * St.

Definition ret {A} (a : A) : M A := fun s => (Ok a, s).

Definition bind {A B} (m : M A) (k : A -> M B) : M B :=
  fun s =>
    match m s with
    | (Ok a, s') => k a s'
    | (Throw e, s') => (Throw e, s')
    end.

Definition throw {A} (e : JsError) : M A := fun s => (Throw e, s).

Definition lift {A} (x : Exc A) : M A := fun s => (x, s).

Definition modify (f : St -> St) : M unit := fun s => (Ok tt, f s).

(** An external call: it is recorded, then the world's answer is used. *)
Definition call {E} `{Traced E St} {A} (ev : E) (answer : Exc A) : M A :=
  fun s => (answer, record ev s).

(** [try { m } catch (e) { h e }] *)
Definition try_catch {A} (m : M A) (h : JsError -> M A) : M A :=
  fun s =>
    match m s with
    | (Ok a, s') => (Ok a, s')
    | (Throw e, s') => h e s'
    end.

Fixpoint mapM {A B} (f : A -> M B) (l : list A) : M (list B) :=
  match l with
  | [] => ret []
  | a :: rest => bind (f a) (fun b => bind (mapM f rest) (fun bs => ret (b :: bs)))
  end.
End Monad.

Arguments M St A : clear implicits.

(** A handler that only keeps a trace, run from the empty trace. *)
Definition run {E A} (m : M (list E) A) : Exc A * list E := m [].

End Js.

Import Js.

Declare Scope js_scope.
Delimit Scope js_scope with js.
Notation "x <- c1 ;; c2" := (bind c1 (fun x => c2))
  (at level 100, c1 at next level, right associativity) : js_scope.
Notation "c1 ;;; c2" := (bind c1 (fun _ => c2))
  (at level 100, right associativity) : js_scope.

(** ** The three outcomes *)

Inductive Outcome := YES | NO | INCONCLUSIVE.

Definition Outcome_eqb (a b : Outcome) : bool :=
  match a, b with
  | YES, YES | NO, NO | INCONCLUSIVE, INCONCLUSIVE => true
  | _, _ => false
  end.


(** ** Oracle specs (lib/oracle-types.ts) *)

Module OracleTypes.

Inductive OracleCategory :=
| CRYPTO_PRICE
| FOREX_RATE
| WEATHER
| SPORTS_SCORE
| DATE_EVENT
| GENERAL_AI.

Global Instance OracleCategory_eq_dec : EqDecision OracleCategory.
Proof. solve_decision. Defined.

Record OracleSourceConfig := mkSource {
  name : string;
  endpoint : string;
  params : option (list (string * string));
  headers : option (list (string * string))
}.

(** [operator] is kept as the text the stored spec carries: the resolver
    switches on it with a default case. *)
Record Comparison := mkComparison {
  operator : string;
  target_value : JsValue
}.

Record DiscreteOracleSpec := mkDiscrete {
  category : OracleCategory;
  natural_language_summary : string;
  source : OracleSourceConfig;
  extraction_path : string;
  comparison : Comparison;
  resolution_timestamp : string
}.

Record ContiguousOracleSpec := mkContiguous {
  contiguous_summary : string
}.

Inductive OracleSpec :=
| DISCRETE (spec : DiscreteOracleSpec)
| CONTIGUOUS (spec : ContiguousOracleSpec).

End OracleTypes.

(** ** The discrete resolution engine (resolve-discrete/route.ts) *)

Module Discrete.
Import OracleTypes.

(** *** [extractValue] *)

(** [path.replace(/^\$\.?/, '')] *)
Definition stripRoot (path : string) : string :=
  match path with
  | String "$" (String "." rest) => rest
  | String "$" rest => rest
  | _ => path
  end.

Definition isQuote (c : ascii) : bool :=
  Ascii.eqb c (ascii_of_nat 39) || Ascii.eqb c (ascii_of_nat 34).

(** How many characters the separator [/\.|\[['"]?|['"]?\]/] matches at
    the start of [s]; [0] when it does not match there. *)
Definition separatorLength (s : string) : nat :=
  match s with
  | String "." _ => 1
  | String "[" (String q _) => if isQuote q then 2 else 1
  | String "[" EmptyString => 1
  | String "]" _ => 1
  | String q (String "]" _) => if isQuote q then 2 else 0
  | _ => 0
  end.

(** [s.split(separator)]: the head of the result is the segment that
    starts at [s]; [skip] counts the characters of a matched separator
    still to be consumed. *)
Fixpoint splitPathFrom (skip : nat) (s : string) : list string :=
  match s with
  | EmptyString => [EmptyString]
  | String c rest =>
      match skip with
      | S k => splitPathFrom k rest
      | O =>
          match separatorLength s with
          | S k => EmptyString :: splitPathFrom k rest
          | O =>
              match splitPathFrom 0 rest with
              | seg :: segs => String c seg :: segs
              | [] => [String c EmptyString]
              end
          end
      end
  end.

Definition nonEmpty (s : string) : bool := negb (String.eqb s EmptyString).

(** [cleanPath.split(...).filter(Boolean)] *)
Definition pathParts (cleanPath : string) : list string :=
  List.filter nonEmpty (splitPathFrom 0 cleanPath).

Definition isNullish (v : JsValue) : bool :=
  match v with
  | JNull | JUndefined => true
  | _ => false
  end.

Section Extraction.
Context `{JsRuntime}.

(** The [for (const part of parts)] loop: an early [return undefined] on
    a nullish [current], else [current = current[part]]. *)
Fixpoint walk (parts : list string) (current : JsValue) : Exc JsValue :=
  match parts with
  | [] => Ok current
  | part :: rest =>
      if isNullish current then Ok JUndefined
      else match getProp current part with
           | Ok next => walk rest next
           | Throw e => Throw e
           end
  end.

Definition extractValue (data : JsValue) (path : string) : Exc JsValue :=
  let cleanPath := stripRoot path in
  let parts := pathParts cleanPath in
  walk parts data.

End Extraction.

(** *** The handler *)

Inductive FallbackReason :=
| SPEC_NOT_FOUND
| CONTIGUOUS_TYPE
| SPORTS_TEAM_SEARCH_FAILED
| SPORTS_TEAM_NOT_FOUND
| NO_RECENT_GAMES
| API_ERROR
| EXTRACTION_ERROR
| NO_VALUE
| UNKNOWN_ERROR.

Record SportsTeamData := mkTeam {
  teamId : JsValue;
  teamName : JsValue;
  searchQuery : string
}.

Record SportsContext := mkSportsContext {
  event : JsValue;
  date : JsValue;
  homeTeam : JsValue;
  awayTeam : JsValue;
  homeScore : JsNumber;
  awayScore : JsNumber;
  ourTeam : JsValue;
  isHomeTeam : bool;
  teamScore : JsNumber;
  opponentScore : JsNumber;
  result : string
}.

(** The body of the one response that carries [success: true]. *)
Record Success := mkSuccess {
  outcome : Outcome;
  confidence : Z;
  extractedValue : JsValue;
  targetValue : JsValue;
  operator : string;
  sourceName : string;
  apiResponse : JsValue;
  oracleSpec : DiscreteOracleSpec;
  apiUrl : string;
  sportsContext : option SportsContext
}.

Inductive Body :=
| ErrorBody (error : string)
| FallbackBody (error : option string) (fallbackReason : FallbackReason)
| SuccessBody (s : Success).

Record Response := mkResponse {
  status : Z;
  body : Body
}.

Definition fallback (code : Z) (error : string) (reason : FallbackReason) : Response :=
  mkResponse code (FallbackBody (Some error) reason).

Record FetchResponse := mkFetchResponse {
  ok : bool;
  fetch_status : Z;
  json : Exc JsValue
}.

(** A stored document of the collection [oracle_specs]: [spec] is
    [JSON.parse(specData.spec)] read at its declared type [OracleSpec]. *)
Record SpecDoc := mkSpecDoc {
  spec : Exc OracleSpec
}.

Inductive Event :=
| EvGetDoc (marketId : JsValue)
| EvFetch (url : string).

Record World := mkWorld {
  request_json : Exc JsValue;
  getDoc : JsValue -> Exc (option SpecDoc);
  fetch : string -> list (string * string) -> Exc FetchResponse
}.

(** A handler step either ends the request with a response or goes on. *)
Inductive Step (A : Type) :=
| Return (r : Response)
| Continue (a : A).
Arguments Return {A} r.
Arguments Continue {A} a.

Fixpoint lookupParam (key : string) (ps : list (string * string)) : option string :=
  match ps with
  | [] => None
  | (k, v) :: rest => if String.eqb k key then Some v else lookupParam key rest
  end.

(** [source.params?.key] *)
Definition paramOf (d : DiscreteOracleSpec) (key : string) : option string :=
  match params (source d) with
  | Some ps => lookupParam key ps
  | None => None
  end.

(** [a || b] on texts that may be missing *)
Definition orElse (a b : option string) : option string :=
  match a with
  | Some s => if nonEmpty s then a else b
  | None => b
  end.

Definition orDefault (a : option string) (b : string) : string :=
  match a with
  | Some s => if nonEmpty s then s else b
  | None => b
  end.

(** [s.split('/').pop()] *)
Fixpoint lastSegment (s : string) : string :=
  match s with
  | EmptyString => EmptyString
  | String c rest =>
      if includes "/" rest then lastSegment rest
      else if Ascii.eqb c "/" then rest
      else s
  end.

(** [n || 0] on a number *)
Definition numOrZero (n : JsNumber) : JsNumber :=
  if truthy (JNum n) then n else Integer 0.

(** [v.toLowerCase()]: a [TypeError] unless [v] is a string *)
Definition callToLowerCase (v : JsValue) : Exc string :=
  match v with
  | JStr s => Ok (toLowerCase s)
  | _ => Throw (TypeError "toLowerCase is not a function")
  end.

Section WithRuntime.
Context `{JsRuntime}.

(** The [switch (operator)] with its six cases and [default: false]. *)
Definition applyComparison (op : string) (extracted target : JsValue) : bool :=
  if String.eqb op ">" then js_compare ">" extracted target
  else if String.eqb op "<" then js_compare "<" extracted target
  else if String.eqb op ">=" then js_compare ">=" extracted target
  else if String.eqb op "<=" then js_compare "<=" extracted target
  else if String.eqb op "==" then js_compare "==" extracted target
  else if String.eqb op "!=" then js_compare "!=" extracted target
  else false.

Local Open Scope js_scope.

(** Step 2: the URL to fetch; the sports category first looks the team up. *)
Definition buildUrl (w : World) (d : DiscreteOracleSpec)
  : M (list Event) (Step (string * option SportsTeamData)) :=
  match category d with
  | WEATHER =>
      let cityFromPath :=
        orDefault (orElse (paramOf d "city") (Some (lastSegment (endpoint (source d)))))
                  "NewYork" in
      url <- lift (URL_href ("https://wttr.in/" +:+ cityFromPath +:+ "?format=j1") []) ;;
      ret (Continue (url, None))
  | SPORTS_SCORE =>
      let teamName :=
        orDefault (orElse (paramOf d "team_search") (paramOf d "t")) "Lakers" in
      let searchUrl :=
        "https://www.thesportsdb.com/api/v1/json/3/searchteams.php?t="
          +:+ encodeURIComponent teamName in
      searchResponse <- call (EvFetch searchUrl) (fetch w searchUrl []) ;;
      if negb (ok searchResponse) then
        ret (Return (fallback 502
               ("Team search failed: " +:+ toText (JNum (Integer (fetch_status searchResponse))))
               SPORTS_TEAM_SEARCH_FAILED))
      else
        searchData <- lift (json searchResponse) ;;
        teams <- lift (getProp searchData "teams") ;;
        let notFound :=
          Return (fallback 404 ("Team not found: " +:+ teamName) SPORTS_TEAM_NOT_FOUND) in
        if negb (truthy teams) then ret notFound
        else
          len <- lift (getProp teams "length") ;;
          match len with
          | JNum (Integer 0) => ret notFound
          | _ =>
              team0 <- lift (getProp teams "0") ;;
              teamId <- lift (getProp team0 "idTeam") ;;
              teamFullName <- lift (getProp team0 "strTeam") ;;
              url <- lift (URL_href
                             ("https://www.thesportsdb.com/api/v1/json/3/eventslast.php?id="
                                +:+ toText teamId) []) ;;
              ret (Continue (url, Some (mkTeam teamId teamFullName teamName)))
          end
  | _ =>
      url <- lift (URL_href (endpoint (source d))
                     (match params (source d) with Some ps => ps | None => [] end)) ;;
      ret (Continue (url, None))
  end.

(** Step 4, sports: did the team win its last game? *)
Definition sportsExtract (data : JsValue) (team : SportsTeamData)
  : M (list Event) (Step (JsValue * option SportsContext)) :=
  results <- lift (getProp data "results") ;;
  lastEvent <- (if isNullish results then ret JUndefined
                else lift (getProp results "0")) ;;
  if negb (truthy lastEvent) then
    ret (Return (fallback 500 "No recent games found" NO_RECENT_GAMES))
  else
    homeTeam <- lift (getProp lastEvent "strHomeTeam") ;;
    awayTeam <- lift (getProp lastEvent "strAwayTeam") ;;
    intHomeScore <- lift (getProp lastEvent "intHomeScore") ;;
    intAwayScore <- lift (getProp lastEvent "intAwayScore") ;;
    let homeScore := numOrZero (parseInt intHomeScore) in
    let awayScore := numOrZero (parseInt intAwayScore) in
    let teamName := teamName team in
    homeLower <- lift (callToLowerCase homeTeam) ;;
    teamLower <- lift (callToLowerCase teamName) ;;
    let isHomeTeam := includes teamLower homeLower || includes homeLower teamLower in
    let teamScore := if isHomeTeam then homeScore else awayScore in
    let opponentScore := if isHomeTeam then awayScore else homeScore in
    let teamWon := numGt teamScore opponentScore in
    strEvent <- lift (getProp lastEvent "strEvent") ;;
    dateEvent <- lift (getProp lastEvent "dateEvent") ;;
    ret (Continue
           (JBool teamWon,
            Some (mkSportsContext strEvent dateEvent homeTeam awayTeam homeScore awayScore
                    teamName isHomeTeam teamScore opponentScore
                    (if teamWon then "WIN"
                     else if numEq teamScore opponentScore then "DRAW" else "LOSS")))).

(** Step 4: the value to compare. *)
Definition extractStep (d : DiscreteOracleSpec) (sportsTeamData : option SportsTeamData)
    (data : JsValue) : M (list Event) (Step (JsValue * option SportsContext)) :=
  match category d, sportsTeamData with
  | SPORTS_SCORE, Some team => sportsExtract data team
  | _, _ =>
      try_catch
        (extracted <- lift (extractValue data (extraction_path d)) ;;
         ret (Continue (extracted, None)))
        (fun extractError =>
           ret (Return (fallback 500 "Value extraction failed" EXTRACTION_ERROR)))
  end.

(** Step 5: the comparison and the successful response. *)
Definition compareStep (d : DiscreteOracleSpec) (url : string) (data extracted : JsValue)
    (context : option SportsContext) : Response :=
  let op := OracleTypes.operator (comparison d) in
  let target := target_value (comparison d) in
  let result :=
    match category d, extracted with
    | SPORTS_SCORE, JBool won => won
    | _, _ => applyComparison op extracted target
    end in
  let outcome := if result then YES else NO in
  let confidence := 10000 in
  mkResponse 200
    (SuccessBody (mkSuccess outcome confidence extracted target op (name (source d))
                    data d url context)).

(** Steps 4 and 5 on the fetched [data]. *)
Definition evaluate (d : DiscreteOracleSpec) (url : string)
    (sportsTeamData : option SportsTeamData) (data : JsValue) : M (list Event) Response :=
  extracted <- extractStep d sportsTeamData data ;;
  match extracted with
  | Return r => ret r
  | Continue (extractedValue, context) =>
      if isNullish extractedValue then
        ret (fallback 500 "No value at extraction path" NO_VALUE)
      else ret (compareStep d url data extractedValue context)
  end.

Definition resolve (w : World) (d : DiscreteOracleSpec) : M (list Event) Response :=
  built <- buildUrl w d ;;
  match built with
  | Return r => ret r
  | Continue (url, sportsTeamData) =>
      response <- call (EvFetch url)
                    (fetch w url (match headers (source d) with Some hs => hs | None => [] end)) ;;
      if negb (ok response) then
        ret (fallback 502
               ("API call failed: " +:+ toText (JNum (Integer (fetch_status response))))
               API_ERROR)
      else
        data <- lift (json response) ;;
        evaluate d url sportsTeamData data
  end.

Definition POST (w : World) : M (list Event) Response :=
  try_catch
    (requestBody <- lift (request_json w) ;;
     marketId <- lift (getProp requestBody "marketId") ;;
     if negb (truthy marketId) then ret (mkResponse 400 (ErrorBody "marketId required"))
     else
       specDoc <- call (EvGetDoc marketId) (getDoc w marketId) ;;
       match specDoc with
       | None => ret (fallback 404 "No Oracle Spec found for this market" SPEC_NOT_FOUND)
       | Some stored =>
           oracleSpec <- lift (spec stored) ;;
           match oracleSpec with
           | CONTIGUOUS _ => ret (fallback 400 "Market is not DISCRETE type" CONTIGUOUS_TYPE)
           | DISCRETE discreteSpec => resolve w discreteSpec
           end
       end)
    (fun error => ret (mkResponse 500 (FallbackBody (message error) UNKNOWN_ERROR))).

End WithRuntime.

End Discrete.

(** ** The settlement orchestrator and the consensus engine (settle/route.ts) *)

Module Settle.

(** The part of the ledger's [Market] tuple the handler reads; [status] is
    0 for Open, 1 for SettlementRequested, 2 for Settled, 3 for NeedsManual. *)
Record Market := mkMarket {
  question : string;
  status : Z
}.

(** [model.generateContent(prompt)]: the result, whose text may throw. *)
Record GeminiResult := mkGeminiResult {
  response_text : Exc string
}.

(** [rawResponse]: the response object of a judge, or [{}] after a failure. *)
Inductive RawResponse :=
| RawEmpty
| RawOf (r : GeminiResult).

(** What one judge call returns. *)
Record Vote := mkVote {
  result : Outcome;
  confidence : Z;
  rawResponse : RawResponse
}.

Record Consortium := mkConsortium {
  judges : Z;
  tally : list (Outcome * Z);
  details : list (Outcome * Z)
}.

(** The resolved result [parsed]. *)
Record Parsed := mkParsed {
  parsed_result : Outcome;
  parsed_confidence : JsValue;
  discrete : option Discrete.Success;
  consortium : option Consortium
}.

Inductive ResolutionMethod := DISCRETE | CONTIGUOUS | MOCK.

Inductive Body :=
| ErrorBody (error : string)
| SuccessBody (txHash : string) (parsed : Parsed).

Record Response := mkResponse {
  code : Z;
  body : Body
}.

(** The record written to the collection [demo]. *)
Record AuditDoc := mkAuditDoc {
  audit_question : string;
  geminiResponse : Parsed;
  fullGenericResponse : RawResponse;
  audit_responseId : string;
  audit_txHash : string;
  createdAt : Z;
  consortiumMode : bool;
  resolutionMethod : ResolutionMethod;
  audit_isFallback : bool
}.

(** The external calls of the handler.  [EvRequestSettlement] and
    [EvOnReport] are the two ledger transactions. *)
Inductive Event :=
| EvGetMarket (marketId : Z)
| EvRequestSettlement (marketId : JsValue)
| EvResolveDiscrete (marketId : JsValue)
| EvGenerateContent (index : Z) (prompt : string)
| EvGetNetwork
| EvOnReport (marketId : Z) (outcomeEnum : Z) (validConfidence : JsNumber) (responseId : string)
| EvSignIn
| EvSetDoc (responseId : string) (record : AuditDoc).

(** The stores and feeds behind the discrete engine's route. *)
Record DiscreteBackend := mkBackend {
  getDoc : JsValue -> Exc (option Discrete.SpecDoc);
  fetch : string -> list (string * string) -> Exc Discrete.FetchResponse
}.

Record World := mkWorld {
  request_json : Exc JsValue;
  RPC_URL : option string;
  CRE_ETH_PRIVATE_KEY : option string;
  NEXT_PUBLIC_MARKET_ADDRESS : option string;
  GEMINI_API_KEY : option string;
  (** building provider, wallet and contract from the configuration *)
  connect : Exc unit;
  (** [contract.getMarket], at the first and at the second read *)
  getMarket : nat -> Exc Market;
  (** [contract.requestSettlement] and [tx.wait()] *)
  requestSettlement : Exc string;
  (** the HTTP call to the discrete engine; [Throw] when it cannot be reached *)
  discreteService : Exc DiscreteBackend;
  generateContent : Z -> Exc GeminiResult;
  (** whether [Math.floor(Math.random() * mockOutcomes.length)] is 1 *)
  randomIndex : bool;
  getNetwork : Exc Z;
  (** [Date.now()], at the first and at the second reading *)
  now : nat -> Z;
  (** [walletClient.writeContract] for [onReport] *)
  writeContract : Exc string;
  signInAnonymously : Exc unit;
  setDoc : Exc unit
}.

(** [!v] on a configuration variable *)
Definition unset (v : option string) : bool :=
  match v with
  | Some s => String.eqb s EmptyString
  | None => true
  end.

Definition isUndefined (v : JsValue) : bool :=
  match v with
  | JUndefined => true
  | _ => false
  end.

(** [mapOutcomeToUint] *)
Definition mapOutcomeToUint (r : Outcome) : Z :=
  match r with
  | NO => 1
  | YES => 2
  | INCONCLUSIVE => 3
  end.

(** [let outcomeEnum = 3; if (result === "NO") ...; if (result === "YES") ...] *)
Definition outcomeEnum (r : Outcome) : Z :=
  let outcomeEnum := 3 in
  let outcomeEnum := if Outcome_eqb r NO then 1 else outcomeEnum in
  let outcomeEnum := if Outcome_eqb r YES then 2 else outcomeEnum in
  outcomeEnum.

(** *** Tally and winner *)

Definition judgeCount : Z := 5.

Definition emptyTally : list (Outcome * Z) := [(YES, 0); (NO, 0); (INCONCLUSIVE, 0)].

(** [tally[key]] *)
Fixpoint tallyGet (t : list (Outcome * Z)) (key : Outcome) : option Z :=
  match t with
  | [] => None
  | (k, n) :: rest => if Outcome_eqb k key then Some n else tallyGet rest key
  end.

(** [tally[key] = n]: an existing key keeps its place, a new one goes last. *)
Fixpoint tallySet (t : list (Outcome * Z)) (key : Outcome) (n : Z) : list (Outcome * Z) :=
  match t with
  | [] => [(key, n)]
  | (k, m) :: rest => if Outcome_eqb k key then (k, n) :: rest else (k, m) :: tallySet rest key n
  end.

(** [tally[r.result] = (tally[r.result] || 0) + 1] *)
Definition castVote (t : list (Outcome * Z)) (r : Vote) : list (Outcome * Z) :=
  let current :=
    match tallyGet t (result r) with
    | Some n => if n =? 0 then 0 else n
    | None => 0
    end in
  tallySet t (result r) (current + 1).

Definition tallyVotes (results : list Vote) : list (Outcome * Z) :=
  fold_left castVote results emptyTally.

Definition totalConfidence (results : list Vote) : Z :=
  fold_left (fun total r => total + confidence r) results 0.

(** One turn of [Object.entries(tally).forEach] on [(winner, maxVotes)]. *)
Definition winnerStep (state : Outcome * Z) (entry : Outcome * Z) : Outcome * Z :=
  let '(winner, maxVotes) := state in
  let '(res, count) := entry in
  if count >? maxVotes then (res, count)
  else if count =? maxVotes then (INCONCLUSIVE, maxVotes)
  else (winner, maxVotes).

Definition determineWinner (entries : list (Outcome * Z)) : Outcome :=
  fst (fold_left winnerStep entries (INCONCLUSIVE, 0)).

(** [Math.floor(totalConfidence / judgeCount)] *)
Definition avgConfidence (results : list Vote) : Z :=
  totalConfidence results / judgeCount.

(** [Math.min(Math.max(confidence || 0, 0), 10000)] *)
Definition validConfidence `{JsRuntime} (confidence : JsValue) : JsNumber :=
  let orZero := if truthy confidence then confidence else JNum (Integer 0) in
  Math_min (Math_max (toNumber orZero) (Integer 0)) (Integer 10000).

Section WithRuntime.
Context `{JsRuntime}.

Local Open Scope js_scope.

(** *** One judge *)

(** [["YES", "NO", "INCONCLUSIVE"].includes(v) ? v : "INCONCLUSIVE"] *)
Definition judgeResult (v : JsValue) : Outcome :=
  match v with
  | JStr s =>
      if String.eqb s "YES" then YES
      else if String.eqb s "NO" then NO
      else INCONCLUSIVE
  | _ => INCONCLUSIVE
  end.

(** [Number.isInteger(v) ? v : 0] *)
Definition judgeConfidence (v : JsValue) : Z :=
  if Number_isInteger v then
    match v with
    | JNum (Integer z) => z
    | _ => 0
    end
  else 0.

(** The text handed to [JSON.parse]. *)
Definition cleanJson (responseText : string) : string :=
  let cleanJson := trim (stripFences responseText) in
  match matchObject cleanJson with
  | Some jsonMatch => jsonMatch
  | None => cleanJson
  end.

Definition askGemini (w : World) (prompt : string) (index : Z) : M (list Event) Vote :=
  try_catch
    (result <- call (EvGenerateContent index prompt) (generateContent w index) ;;
     responseText <- lift (response_text result) ;;
     p <- lift (JSON_parse (cleanJson responseText)) ;;
     p_result <- lift (getProp p "result") ;;
     p_confidence <- lift (getProp p "confidence") ;;
     ret (mkVote (judgeResult p_result) (judgeConfidence p_confidence) (RawOf result)))
    (fun e => ret (mkVote INCONCLUSIVE 0 RawEmpty)).

(** *** The consensus round *)

(** [Array.from({ length: judgeCount }, (_, i) => askGemini(i + 1))] joined
    by [Promise.all]; no judge call rejects, so the join is the list of
    the five votes in the order of the judges. *)
Definition summonJudges (w : World) (prompt : string) : M (list Event) (list Vote) :=
  mapM (askGemini w prompt) [1; 2; 3; 4; 5].

Definition consortiumRound (w : World) (prompt : string) : M (list Event) (Parsed * RawResponse) :=
  results <- summonJudges w prompt ;;
  let fullEvidenceObject :=
    match results with
    | first :: _ => rawResponse first
    | [] => RawEmpty
    end in
  let tally := tallyVotes results in
  let winner := determineWinner tally in
  ret (mkParsed winner (JNum (Integer (avgConfidence results))) None
         (Some (mkConsortium judgeCount tally
                  (map (fun r => (result r, confidence r)) results))),
       fullEvidenceObject).

Definition singleJudge (w : World) (prompt : string) : M (list Event) (Parsed * RawResponse) :=
  singleResult <- askGemini w prompt 1 ;;
  ret (mkParsed (result singleResult) (JNum (Integer (confidence singleResult))) None None,
       rawResponse singleResult).

(** *** The orchestrator *)

(** The variables the resolution stages assign. *)
Record Resolution := mkResolution {
  parsed : option Parsed;
  isConsortium : bool;
  fullEvidenceObject : RawResponse;
  isFallback : bool;
  method : ResolutionMethod
}.

(** TRY DISCRETE RESOLUTION FIRST *)
Definition tryDiscrete (w : World) (marketId : JsValue) : M (list Event) Resolution :=
  try_catch
    (backend <- call (EvResolveDiscrete marketId) (discreteService w) ;;
     let request := JObj [("marketId", marketId)] in
     discreteResponse <-
       lift (fst (run (Discrete.POST
                         (Discrete.mkWorld (Ok request) (getDoc backend) (fetch backend))))) ;;
     match Discrete.body discreteResponse with
     | Discrete.SuccessBody s =>
         ret (mkResolution
                (Some (mkParsed (Discrete.outcome s) (JNum (Integer (Discrete.confidence s)))
                         (Some s) None))
                false RawEmpty false DISCRETE)
     | Discrete.FallbackBody _ _ =>
         ret (mkResolution None false RawEmpty true CONTIGUOUS)
     | Discrete.ErrorBody _ =>
         ret (mkResolution None false RawEmpty false CONTIGUOUS)
     end)
    (fun discreteError => ret (mkResolution None false RawEmpty true CONTIGUOUS)).

(** CONTIGUOUS RESOLUTION: the mock answer without a key, else the judges. *)
Definition tryContiguous (w : World) (question : string) (r : Resolution)
  : M (list Event) Resolution :=
  match parsed r with
  | Some _ => ret r
  | None =>
      if unset (GEMINI_API_KEY w) then
        let mockResult := if randomIndex w then NO else YES in
        ret (mkResolution (Some (mkParsed mockResult (JNum (Integer 9999)) None None))
               (isConsortium r) (fullEvidenceObject r) (isFallback r) MOCK)
      else
        let isConsortium := includes "[CONSORTIUM]" question in
        let cleanQuestion := replaceFirst " [CONSORTIUM]" EmptyString question in
        let prompt :=
          "Market Question: " +:+ String (ascii_of_nat 34) cleanQuestion
            +:+ String (ascii_of_nat 34) ". Has this happened? Return JSON." in
        answer <- (if isConsortium then consortiumRound w prompt else singleJudge w prompt) ;;
        ret (mkResolution (Some (fst answer)) isConsortium (snd answer) (isFallback r) CONTIGUOUS)
  end.

(** SUBMIT ON-CHAIN and the audit record *)
Definition submit (w : World) (marketId : JsValue) (question : string) (r : Resolution)
  : M (list Event) Response :=
  let parsed :=
    match parsed r with
    | Some p => p
    | None => mkParsed INCONCLUSIVE (JNum (Integer 0)) None None
    end in
  let outcomeEnum := outcomeEnum (parsed_result parsed) in
  let validConfidence := validConfidence (parsed_confidence parsed) in
  chainId <- call EvGetNetwork (getNetwork w) ;;
  let responseId := "gemini-" +:+ toText (JNum (Integer (now w 0))) in
  reportId <- lift (BigInt marketId) ;;
  hash <- call (EvOnReport reportId outcomeEnum validConfidence responseId) (writeContract w) ;;
  try_catch
    (call EvSignIn (signInAnonymously w) ;;;
     call (EvSetDoc responseId
             (mkAuditDoc question parsed (fullEvidenceObject r) responseId hash (now w 1)
                (isConsortium r) (method r) (isFallback r)))
       (setDoc w))
    (fun fsError => ret tt) ;;;
  ret (mkResponse 200 (SuccessBody hash parsed)).

Definition POST (w : World) : M (list Event) Response :=
  try_catch
    (requestBody <- lift (request_json w) ;;
     marketId <- lift (getProp requestBody "marketId") ;;
     if isUndefined marketId then ret (mkResponse 400 (ErrorBody "No marketId"))
     else
       marketIdBigInt <- lift (BigInt marketId) ;;
       if unset (RPC_URL w) || unset (CRE_ETH_PRIVATE_KEY w)
          || unset (NEXT_PUBLIC_MARKET_ADDRESS w) then
         ret (mkResponse 500
                (ErrorBody "Server configuration missing (RPC, Key, or Address)"))
       else
         lift (connect w) ;;;
         marketData <- call (EvGetMarket marketIdBigInt) (getMarket w 0) ;;
         let status := status marketData in
         (if status =? 0 then
            tx <- call (EvRequestSettlement marketId) (requestSettlement w) ;; ret tt
          else ret tt) ;;;
         updatedMarketData <- call (EvGetMarket marketIdBigInt) (getMarket w 1) ;;
         let question := question updatedMarketData in
         discreteStage <- tryDiscrete w marketId ;;
         resolution <- tryContiguous w question discreteStage ;;
         submit w marketId question resolution)
    (fun e =>
       ret (mkResponse 500
              (ErrorBody (match message e with
                          | Some m => if String.eqb m EmptyString then "Settlement failed" else m
                          | None => "Settlement failed"
                          end)))).

End WithRuntime.

End Settle.

(** ** Market creation with nonce retry and classification (create/route.ts) *)

Module Create.

(** A sent transaction: its hash and what [tx.wait()] does. *)
Record Tx := mkTx {
  hash : string;
  wait : Exc unit
}.

(** The oracle spec the classifier builds.  The fields are the values
    found in the classifier's JSON, which the route does not check. *)
Inductive OracleSpec :=
| DISCRETE (category natural_language_summary source extraction_path comparison
            resolution_timestamp : JsValue)
| CONTIGUOUS (natural_language_summary : JsValue).

(** A document of the collection [oracle_specs]; [spec] is the value
    that is stored as its JSON text. *)
Record SpecRecord := mkSpecRecord {
  rec_marketId : string;
  rec_question : JsValue;
  rec_spec : OracleSpec;
  rec_createdAt : Z
}.

Inductive Event :=
| EvNextMarketId
| EvGetTransactionCount
| EvNewMarket (question : JsValue) (duration : JsNumber) (nonce : Z) (gasLimit : Z)
| EvWait (hash : string)
| EvSleep (ms : Z)
| EvGenerateContent (prompt : string)
| EvSetDoc (marketId : string) (doc : SpecRecord).

(** The handler's state: its external calls and the collection
    [oracle_specs], keyed by market id. *)
Record State := mkState {
  trace : list Event;
  oracle_specs : gmap string SpecRecord
}.

Global Instance state_traced : Traced Event State :=
  fun ev st => mkState (trace st ++ [ev]) (oracle_specs st).

Record World := mkWorld {
  request_json : Exc JsValue;
  RPC_URL : option string;
  CRE_ETH_PRIVATE_KEY : option string;
  NEXT_PUBLIC_MARKET_ADDRESS : option string;
  GEMINI_API_KEY : option string;
  connect : Exc unit;
  nextMarketId : Exc Z;
  (** [provider.getTransactionCount(wallet.address, "pending")] *)
  getTransactionCount : Exc Z;
  (** [contract.newMarket] sent with the given nonce *)
  newMarket : Z -> Exc Tx;
  generateContent : Exc Settle.GeminiResult;
  (** [new Date().toISOString()] and [Date.now()] *)
  isoNow : string;
  now : Z;
  setDoc : Exc unit
}.

Inductive Body :=
| ErrorBody (error : option string)
| SuccessBody (marketId : string) (txHash : string) (oracleType : string).

Record Response := mkResponse {
  code : Z;
  body : Body
}.

(** A part of the handler either ends the request with a response or
    goes on. *)
Inductive Step (A : Type) :=
| Return (r : Response)
| Continue (a : A).
Arguments Return {A} r.
Arguments Continue {A} a.

Definition maxAttempts : Z := 3.

(** [TRUSTED_SOURCES] as the object the route indexes with the
    classifier's category. *)
Definition sourceObject (name endpoint : string) : JsValue :=
  JObj [("name", JStr name); ("endpoint", JStr endpoint); ("params", JObj [])].

Definition TRUSTED_SOURCES : JsValue :=
  JObj [("CRYPTO_PRICE",
         sourceObject "CoinGecko" "https://api.coingecko.com/api/v3/simple/price");
        ("FOREX_RATE",
         sourceObject "ExchangeRate-API" "https://open.er-api.com/v6/latest/USD");
        ("WEATHER", sourceObject "wttr.in" "https://wttr.in");
        ("SPORTS_SCORE",
         sourceObject "TheSportsDB"
           "https://www.thesportsdb.com/api/v1/json/3/searchteams.php");
        ("DATE_EVENT", JNull);
        ("GENERAL_AI", JNull)].

(** [txError.message?.includes("nonce")] *)
Definition isNonceError (txError : JsError) : bool :=
  match message txError with
  | Some m => includes "nonce" m
  | None => false
  end.

Section WithRuntime.
Context `{JsRuntime}.
(** The text of the constant [CLASSIFICATION_PROMPT]. *)
Variable CLASSIFICATION_PROMPT : string.

Local Open Scope js_scope.

(** The retry loop [while (attempts < maxAttempts)].  It is written by
    recursion on [remaining = maxAttempts - attempts], which is zero exactly
    when the loop condition fails. *)
Fixpoint newMarketLoop (w : World) (finalQuestion : JsValue) (marketDuration : JsNumber)
    (nonce : Z) (remaining : nat) : M State (option Tx) :=
  match remaining with
  | O => ret None
  | S remaining' =>
      let attempts := maxAttempts - Z.of_nat remaining in
      try_catch
        (tx <- call (EvNewMarket finalQuestion marketDuration (nonce + attempts) 500000)
                 (newMarket w (nonce + attempts)) ;;
         call (EvWait (hash tx)) (wait tx) ;;;
         ret (Some tx))
        (fun txError =>
           let attempts := attempts + 1 in
           if isNonceError txError && (attempts <? maxAttempts) then
             call (EvSleep 1000) (Ok tt) ;;;
             newMarketLoop w finalQuestion marketDuration nonce remaining'
           else throw txError)
  end.

Definition cleanJson (responseText : string) : string :=
  let cleanJson := trim (stripFences responseText) in
  match matchObject cleanJson with
  | Some jsonMatch => jsonMatch
  | None => cleanJson
  end.

(** The oracle spec built from the classifier's JSON. *)
Definition buildSpec (w : World) (parsed : JsValue) : Exc OracleSpec :=
  match getProp parsed "type" with
  | Throw e => Throw e
  | Ok parsedType =>
      match getProp parsed "spec" with
      | Throw e => Throw e
      | Ok spec =>
          let field key :=
            match optProp spec key with
            | Ok v => v
            | Throw _ => JUndefined
            end in
          match parsedType with
          | JStr "DISCRETE" =>
              match getProp parsed "category" with
              | Throw e => Throw e
              | Ok category =>
                  match getProp TRUSTED_SOURCES (toText category) with
                  | Throw e => Throw e
                  | Ok sourceConfig =>
                      let source :=
                        if truthy sourceConfig then
                          match getProp sourceConfig "params" with
                          | Ok ps =>
                              JObj (setField "params"
                                      (JObj (setFields (spread (field "api_params"))
                                               (setFields (spread ps) [])))
                                      (setFields (spread sourceConfig) []))
                          | Throw _ => JUndefined
                          end
                        else JObj [("name", JStr "Unknown"); ("endpoint", JStr EmptyString);
                                   ("params", JObj [])] in
                      Ok (DISCRETE category
                            (orValue (field "natural_language_summary")
                               (JStr "Oracle resolution logic."))
                            source
                            (orValue (field "extraction_path") (JStr "$"))
                            (orValue (field "comparison")
                               (JObj [("operator", JStr "=="); ("target_value", JBool true)]))
                            (orValue (field "resolution_timestamp") (JStr (isoNow w))))
                  end
              end
          | _ =>
              Ok (CONTIGUOUS
                    (orValue (field "natural_language_summary")
                       (JStr "Resolved via AI reasoning and web search.")))
          end
      end
  end.

(** [setDoc(doc(db, "oracle_specs", marketId), record)] *)
Definition storeSpec (w : World) (marketId : string) (doc : SpecRecord) : M State unit :=
  call (EvSetDoc marketId doc) (setDoc w) ;;;
  modify (fun st => mkState (trace st) (<[marketId := doc]> (oracle_specs st))).

(** ORACLE CLASSIFICATION: the [try] block and its [catch]. *)
Definition classify (w : World) (marketId : string) (question : JsValue)
  : M State OracleSpec :=
  try_catch
    (result <-
       call (EvGenerateContent
               (CLASSIFICATION_PROMPT +:+ "

Market Question: " +:+ String (ascii_of_nat 34) (toText question)
                  +:+ String (ascii_of_nat 34) EmptyString))
         (generateContent w) ;;
     responseText <- lift (Settle.response_text result) ;;
     parsed <- lift (JSON_parse (cleanJson responseText)) ;;
     oracleSpec <- lift (buildSpec w parsed) ;;
     storeSpec w marketId (mkSpecRecord marketId question oracleSpec (now w)) ;;;
     ret oracleSpec)
    (fun classifyError =>
       ret (CONTIGUOUS (JStr "Resolved via AI reasoning (classification failed)."))).

(** [oracleSpec?.type || "UNKNOWN"] *)
Definition oracleType (oracleSpec : option OracleSpec) : string :=
  match oracleSpec with
  | Some (DISCRETE _ _ _ _ _ _) => "DISCRETE"
  | Some (CONTIGUOUS _) => "CONTIGUOUS"
  | None => "UNKNOWN"
  end.

(** The request up to the confirmed creation transaction: the market id,
    the question and the transaction, unless the request ends early. *)
Definition createOnChain (w : World) : M State (Step (string * JsValue * Tx)) :=
  requestBody <- lift (request_json w) ;;
  question <- lift (getProp requestBody "question") ;;
  duration <- lift (getProp requestBody "duration") ;;
  isConsortium <- lift (getProp requestBody "isConsortium") ;;
  if negb (truthy question) then
    ret (Return (mkResponse 400 (ErrorBody (Some "No question provided"))))
  else
    let finalQuestion :=
      if truthy isConsortium then JStr (toText question +:+ " [CONSORTIUM]")
      else question in
    let marketDuration :=
      if truthy duration && negb (isNaN (toNumber duration))
         && numGe (toNumber duration) (Integer 10)
      then toNumber duration else Integer 10 in
    if Settle.unset (RPC_URL w) || Settle.unset (CRE_ETH_PRIVATE_KEY w)
       || Settle.unset (NEXT_PUBLIC_MARKET_ADDRESS w) then
      ret (Return (mkResponse 500
                     (ErrorBody (Some "Server misconfigured (missing env vars)"))))
    else
      lift (connect w) ;;;
      nextId <- call EvNextMarketId (nextMarketId w) ;;
      let marketId := toText (JNum (Integer nextId)) in
      nonce <- call EvGetTransactionCount (getTransactionCount w) ;;
      created <- newMarketLoop w finalQuestion marketDuration nonce
                   (Z.to_nat maxAttempts) ;;
      match created with
      | None =>
          throw (mkError (Some "Failed to create market after multiple attempts"))
      | Some tx => ret (Continue (marketId, question, tx))
      end.

(** ORACLE CLASSIFICATION, run only with a reasoning-service key. *)
Definition classification (w : World) (marketId : string) (question : JsValue)
  : M State (option OracleSpec) :=
  if Settle.unset (GEMINI_API_KEY w) then ret None
  else spec <- classify w marketId question ;; ret (Some spec).

Definition POST (w : World) : M State Response :=
  try_catch
    (created <- createOnChain w ;;
     match created with
     | Return r => ret r
     | Continue (marketId, question, tx) =>
         oracleSpec <- classification w marketId question ;;
         ret (mkResponse 200 (SuccessBody marketId (hash tx) (oracleType oracleSpec)))
     end)
    (fun error => ret (mkResponse 500 (ErrorBody (message error)))).

End WithRuntime.

End Create.

(** ** Admin manual settlement *)

Module Admin.

Definition ADMIN_PASSWORD : string := "admin".

Record Tx := mkTx {
  hash : string;
  wait : Exc unit
}.

Record AdminOverride := mkOverride {
  finalResult : JsValue;
  finalConfidence : Z;
  adminSource : JsValue;
  adminComments : JsValue;
  adminTxHash : string;
  overrideTimestamp : Z
}.

Inductive Collection := settlements | demo.

(** The external calls of the handler: ledger reads and transactions,
    then the audit sink. *)
Inductive Event :=
| EvGetMarket (marketId : JsValue)
| EvSettleMarketManually (marketId : JsValue) (outcomeEnum : Z)
| EvRequestSettlement (marketId : JsValue)
| EvSubmitReport (marketId : JsValue) (outcomeEnum confidence : Z) (responseId : string)
| EvWait (hash : string)
| EvSignIn
| EvGetDocs (c : Collection)
| EvUpdateDoc (c : Collection) (id : string) (override : AdminOverride)
| EvSetDoc (c : Collection) (id : string) (override : AdminOverride).

Record World := mkWorld {
  request_json : Exc JsValue;
  RPC_URL : option string;
  CRE_ETH_PRIVATE_KEY : option string;
  NEXT_PUBLIC_MARKET_ADDRESS : option string;
  connect : Exc unit;
  getMarket : Exc Settle.Market;
  settleMarketManually : Exc Tx;
  requestSettlement : Exc Tx;
  submitReport : Exc Tx;
  (** [Date.now()], at each of its readings *)
  now : nat -> Z;
  signInAnonymously : Exc unit;
  (** [getDocs] of the query on a collection: the id of its first document *)
  getDocs : Collection -> Exc (option string);
  updateDoc : Collection -> Exc unit;
  setDoc : Collection -> Exc unit
}.

Inductive Body :=
| ErrorBody (error : string)
| SuccessBody (txHash responseId : string) (outcome : JsValue) (message : string).

Record Response := mkResponse {
  code : Z;
  body : Body
}.

(** [["YES", "NO"].includes(outcome)] *)
Definition isYesOrNo (outcome : JsValue) : bool :=
  match outcome with
  | JStr s => String.eqb s "YES" || String.eqb s "NO"
  | _ => false
  end.

(** [adminPassword !== ADMIN_PASSWORD] *)
Definition wrongPassword (adminPassword : JsValue) : bool :=
  match adminPassword with
  | JStr s => negb (String.eqb s ADMIN_PASSWORD)
  | _ => true
  end.

(** [outcome === "YES" ? 2 : 1] *)
Definition outcomeEnum (outcome : JsValue) : Z :=
  match outcome with
  | JStr "YES" => 2
  | _ => 1
  end.

Section WithRuntime.
Context `{JsRuntime}.

Local Open Scope js_scope.

(** The ledger call chosen by the market's status; [None] for a status
    that is none of 0, 1 and 3. *)
Definition settleByStatus (w : World) (status : Z) (marketId : JsValue) (outcomeEnum : Z)
    (confidence : Z) (responseId : string) : M (list Event) (option Tx) :=
  if status =? 3 then
    tx <- call (EvSettleMarketManually marketId outcomeEnum) (settleMarketManually w) ;;
    ret (Some tx)
  else if status =? 0 then
    reqTx <- call (EvRequestSettlement marketId) (requestSettlement w) ;;
    call (EvWait (hash reqTx)) (wait reqTx) ;;;
    tx <- call (EvSubmitReport marketId outcomeEnum confidence responseId) (submitReport w) ;;
    ret (Some tx)
  else if status =? 1 then
    tx <- call (EvSubmitReport marketId outcomeEnum confidence responseId) (submitReport w) ;;
    ret (Some tx)
  else ret None.

(** The audit sink: update the market's record if there is one, else
    insert a new one; the same for the collection [demo]. *)
Definition upsert (w : World) (c : Collection) (responseId : string)
    (override : AdminOverride) : M (list Event) unit :=
  snapshot <- call (EvGetDocs c) (getDocs w c) ;;
  match snapshot with
  | Some existing => call (EvUpdateDoc c existing override) (updateDoc w c)
  | None => call (EvSetDoc c responseId override) (setDoc w c)
  end.

Definition POST (w : World) : M (list Event) Response :=
  try_catch
    (requestBody <- lift (request_json w) ;;
     marketId <- lift (getProp requestBody "marketId") ;;
     outcome <- lift (getProp requestBody "outcome") ;;
     source <- lift (getProp requestBody "source") ;;
     comments <- lift (getProp requestBody "comments") ;;
     adminPassword <- lift (getProp requestBody "adminPassword") ;;
     if wrongPassword adminPassword then
       ret (mkResponse 401 (ErrorBody "Invalid admin password"))
     else if negb (truthy marketId) || negb (truthy outcome) || negb (truthy source) then
       ret (mkResponse 400 (ErrorBody "Missing required fields: marketId, outcome, source"))
     else if negb (isYesOrNo outcome) then
       ret (mkResponse 400 (ErrorBody "Outcome must be YES or NO"))
     else if Settle.unset (RPC_URL w) || Settle.unset (CRE_ETH_PRIVATE_KEY w)
             || Settle.unset (NEXT_PUBLIC_MARKET_ADDRESS w) then
       ret (mkResponse 500 (ErrorBody "Server misconfigured (missing env vars)"))
     else
       lift (connect w) ;;;
       marketData <- call (EvGetMarket marketId) (getMarket w) ;;
       let question := replaceFirst " [CONSORTIUM]" EmptyString (Settle.question marketData) in
       let status := Settle.status marketData in
       if status =? 2 then
         ret (mkResponse 400 (ErrorBody "Market is already fully settled"))
       else
         let responseId := "admin-" +:+ toText (JNum (Integer (now w 0))) in
         let outcomeEnum := outcomeEnum outcome in
         let confidence := 10000 in
         sent <- settleByStatus w status marketId outcomeEnum confidence responseId ;;
         match sent with
         | None =>
             ret (mkResponse 400
                    (ErrorBody ("Unknown market status: " +:+ toText (JNum (Integer status)))))
         | Some tx =>
             call (EvWait (hash tx)) (wait tx) ;;;
             call EvSignIn (signInAnonymously w) ;;;
             let adminOverride :=
               mkOverride outcome confidence source (orValue comments (JStr EmptyString))
                 (hash tx) (now w 1) in
             upsert w settlements responseId adminOverride ;;;
             upsert w demo responseId adminOverride ;;;
             ret (mkResponse 200
                    (SuccessBody (hash tx) responseId outcome
                       ("Market #" +:+ toText marketId +:+ " manually settled as "
                          +:+ toText outcome)))
         end)
    (fun error =>
       ret (mkResponse 500
              (ErrorBody (match message error with
                          | Some m => if String.eqb m EmptyString then "Settlement failed" else m
                          | None => "Settlement failed"
                          end)))).

End WithRuntime.

End Admin.

(** ** Market status for the admin dashboard *)

Module MarketStatus.

(** A document of the collection [settlements]: its id and its data. *)
Record Doc := mkDoc {
  doc_id : string;
  doc_data : JsValue
}.

Inductive Event :=
| EvGetDocs (marketId : string).

Record World := mkWorld {
  (** [new URL(request.url).searchParams.get("marketId")]; [None] is [null] *)
  searchParam : Exc (option string);
  (** the documents of the query [where("marketId", "==", marketId)] *)
  getDocs : Exc (list Doc)
}.

Record Settlement := mkSettlement {
  responseId : string;
  result : JsValue;
  confidence : JsValue;
  resolutionMethod : JsValue;
  isFallback : JsValue;
  isManualSettlement : JsValue;
  adminSource : JsValue;
  adminComments : JsValue;
  timestamp : JsValue
}.

Inductive Body :=
| ErrorBody (error : option string)
| NoSettlement (marketId : string)
| Found (marketId : string) (settlement : Settlement).

Record Response := mkResponse {
  code : Z;
  body : Body
}.

Section WithRuntime.
Context `{JsRuntime}.

Local Open Scope js_scope.

Definition GET (w : World) : M (list Event) Response :=
  try_catch
    (marketId <- lift (searchParam w) ;;
     match marketId with
     | None => ret (mkResponse 400 (ErrorBody (Some "Market ID required")))
     | Some id =>
         if String.eqb id EmptyString then
           ret (mkResponse 400 (ErrorBody (Some "Market ID required")))
         else
           snapshot <- call (EvGetDocs id) (getDocs w) ;;
           match snapshot with
           | [] => ret (mkResponse 200 (NoSettlement id))
           | settlementDoc :: _ =>
               let settlementData := doc_data settlementDoc in
               parsedGemini <- lift (getProp settlementData "parsedGemini") ;;
               result <- lift (optProp parsedGemini "result") ;;
               parsedGemini <- lift (getProp settlementData "parsedGemini") ;;
               confidence <- lift (optProp parsedGemini "confidence") ;;
               resolutionMethod <- lift (getProp settlementData "resolutionMethod") ;;
               isFallback <- lift (getProp settlementData "isFallback") ;;
               isManualSettlement <- lift (getProp settlementData "isManualSettlement") ;;
               adminSource <- lift (getProp settlementData "adminSource") ;;
               adminComments <- lift (getProp settlementData "adminComments") ;;
               timestamp <- lift (getProp settlementData "timestamp") ;;
               ret (mkResponse 200
                      (Found id
                         (mkSettlement (doc_id settlementDoc)
                            (orValue result (JStr "UNKNOWN"))
                            (orValue confidence (JNum (Integer 0)))
                            (orValue resolutionMethod (JStr "UNKNOWN"))
                            (orValue isFallback (JBool false))
                            (orValue isManualSettlement (JBool false))
                            adminSource adminComments timestamp)))
           end
     end)
    (fun error => ret (mkResponse 500 (ErrorBody (message error)))).

End WithRuntime.

End MarketStatus.

(** ** The settlement records the admin handler writes *)

Module AdminRecords.
Import Admin.

(** The object [adminOverride] of the handler. *)
Definition adminOverrideFields (o : AdminOverride) : list (string * JsValue) :=
  [("isManualSettlement", JBool true);
   ("adminOverride",
    JObj [("finalResult", finalResult o);
          ("finalConfidence", JNum (Integer (finalConfidence o)));
          ("adminSource", adminSource o);
          ("adminComments", adminComments o);
          ("adminTxHash", JStr (adminTxHash o));
          ("overrideTimestamp", JNum (Integer (overrideTimestamp o)))])].

(** The record [setDoc] creates in [settlements] when the market has
    none. *)
Definition newSettlement (marketId question : string) (o : AdminOverride) (timestamp : Z)
  : JsValue :=
  JObj (setFields
          ([("marketId", JStr marketId);
            ("question", JStr question);
            ("parsedGemini",
             JObj [("result", finalResult o);
                   ("confidence", JNum (Integer (finalConfidence o)))]);
            ("resolutionMethod", JStr "ADMIN");
            ("isFallback", JBool false)]
             ++ adminOverrideFields o
             ++ [("timestamp", JNum (Integer timestamp));
                 ("txHash", JStr (adminTxHash o))])
          []).

(** The record after [updateDoc] has merged [adminOverride] into it. *)
Definition updatedSettlement (existing : list (string * JsValue)) (o : AdminOverride)
  : JsValue :=
  JObj (setFields (adminOverrideFields o) existing).

End AdminRecords.

(** ** The admin dashboard *)

Module Dashboard.

(** A market of the list, as [loadMarkets] builds it. *)
Record Market := mkMarket {
  id : string;
  question : string;
  marketClose : JsNumber;
  status : JsNumber;
  outcome : JsNumber;
  isInconclusive : bool;
  (** the [settlement] of the market-status answer; [None] is [null] *)
  settlementData : option MarketStatus.Settlement
}.

(** What [getMarket] returns, as far as [loadMarkets] reads it. *)
Record MarketData := mkMarketData {
  data_question : string;
  data_marketClose : JsNumber;
  data_status : JsNumber;
  data_outcome : JsNumber
}.

(** The badges of [getStatusBadge]. *)
Inductive Badge := NeedsManual | OpenBadge | PendingBadge | YesBadge | NoBadge | UnknownBadge.

(** The dyadic [n / 2^e] as a number. *)
Fixpoint dyadic (n : Z) (e : nat) : JsNumber :=
  match e with
  | O => Integer n
  | S e' => if Z.even n then dyadic (n / 2) e' else NonInteger n (Pos.of_nat e)
  end.

(** [a - b] on numbers, computed exactly. *)
Definition numSub (a b : JsNumber) : JsNumber :=
  match a, b with
  | NaN, _ | _, NaN => NaN
  | Infinite na, Infinite nb => if Bool.eqb na nb then NaN else Infinite na
  | Infinite na, _ => Infinite na
  | _, Infinite nb => Infinite (negb nb)
  | _, _ =>
      match finiteParts a, finiteParts b with
      | Some (ma, ea), Some (mb, eb) =>
          dyadic (ma * 2 ^ eb - mb * 2 ^ ea) (Z.to_nat (ea + eb))
      | _, _ => NaN
      end
  end.

(** [x === "INCONCLUSIVE"] *)
Definition isInconclusiveText (x : JsValue) : bool :=
  match x with
  | JStr s => String.eqb s "INCONCLUSIVE"
  | _ => false
  end.

(** What [loadMarkets] takes from the answer of the market-status route:
    [settlementData] and [isInconclusive].  Both keep their initial values
    when the fetch fails or the answer is not [ok]. *)
Definition statusOfMarket (response : Exc MarketStatus.Response)
  : option MarketStatus.Settlement * bool :=
  match response with
  | Ok r =>
      if (200 <=? MarketStatus.code r) && (MarketStatus.code r <=? 299) then
        match MarketStatus.body r with
        | MarketStatus.Found _ settlement =>
            (Some settlement, isInconclusiveText (MarketStatus.result settlement))
        | _ => (None, false)
        end
      else (None, false)
  | Throw _ => (None, false)
  end.

Section WithRuntime.
Context `{JsRuntime}.

(** The entry that [loadMarkets] pushes for the market [i]. *)
Definition marketOf (i : Z) (data : MarketData) (response : Exc MarketStatus.Response)
  : Market :=
  let '(settlement, inconclusive) := statusOfMarket response in
  mkMarket (toText (JNum (Integer i)))
    (replaceFirst " [CONSORTIUM]" EmptyString (data_question data))
    (data_marketClose data) (data_status data) (data_outcome data)
    inconclusive settlement.

(** The comparator of [marketList.sort]: INCONCLUSIVE first, then Open,
    then by id descending. *)
Definition compareMarkets (a b : Market) : JsNumber :=
  if isInconclusive a && negb (isInconclusive b) then Integer (-1)
  else if negb (isInconclusive a) && isInconclusive b then Integer 1
  else if numEq (status a) (Integer 0) && negb (numEq (status b) (Integer 0)) then Integer (-1)
  else if negb (numEq (status a) (Integer 0)) && numEq (status b) (Integer 0) then Integer 1
  else numSub (parseInt (JStr (id b))) (parseInt (JStr (id a))).

End WithRuntime.

Definition getStatusBadge (market : Market) : Badge :=
  if numEq (status market) (Integer 3) || isInconclusive market then NeedsManual
  else if numEq (status market) (Integer 0) then OpenBadge
  else if numEq (status market) (Integer 1) then PendingBadge
  else if numEq (status market) (Integer 2) then
    if numEq (outcome market) (Integer 2) then YesBadge else NoBadge
  else UnknownBadge.

End Dashboard.

(** ** The home page: creating a market *)

Module Home.

Definition MARKET_DURATION_SEC : Z := 10.

(** [Math.floor(diff / 1000)], computed exactly *)
Definition floorSeconds (diff : JsNumber) : JsNumber :=
  match diff with
  | Integer ms => Integer (ms / 1000)
  | NonInteger m e => Integer (m / (1000 * 2 ^ Z.pos e))
  | Infinite negative => Infinite negative
  | NaN => NaN
  end.

(** The duration [handleCreate] settles on; [diff] is
    [new Date(settleDate).getTime() - Date.now()], and [None] is the alert
    that the settlement time is too soon. *)
Definition chosenDuration (useCustomTime : bool) (settleDate : string) (diff : JsNumber)
  : option JsNumber :=
  if useCustomTime && negb (String.eqb settleDate EmptyString) then
    if numGt (Integer 10000) diff then None
    else Some (floorSeconds diff)
  else Some (Integer MARKET_DURATION_SEC).

(** A number after [JSON.stringify] and [JSON.parse]. *)
Definition jsonNumber (n : JsNumber) : JsValue :=
  match n with
  | NaN | Infinite _ => JNull
  | _ => JNum n
  end.

(** The body of the request to the creation route; [None] when
    [handleCreate] returns without sending it. *)
Definition handleCreate (question : string) (useCustomTime : bool) (settleDate : string)
    (diff : JsNumber) (useConsortium : bool) : option JsValue :=
  if String.eqb question EmptyString then None
  else
    match chosenDuration useCustomTime settleDate diff with
    | None => None
    | Some duration =>
        Some (JObj [("question", JStr question);
                    ("duration", jsonNumber duration);
                    ("isConsortium", JBool useConsortium)])
    end.

End Home.

(** ** Sample runtime and worlds

    A runtime and a few worlds on which the handlers can be run.  The
    sample [JSON.parse] is a table: it parses the judge answers below as
    JavaScript does and rejects every other text. *)

Module Samples.

Definition quoted (s : string) : string :=
  String (ascii_of_nat 34) (s +:+ String (ascii_of_nat 34) EmptyString).

Definition decimal (z : Z) : string := NilZero.string_of_int (Z.to_int z).

(** The text and the value of a judge's answer with the given fields. *)
Definition answerText (result : string) (confidence : Z) : string :=
  "{" +:+ quoted "result" +:+ ":" +:+ quoted result +:+ ","
      +:+ quoted "confidence" +:+ ":" +:+ decimal confidence +:+ "}".

Definition answerJson (result : string) (confidence : Z) : JsValue :=
  JObj [("result", JStr result); ("confidence", JNum (Integer confidence))].

Definition knownAnswers : list (string * Z) :=
  [("YES", 9000); ("YES", 8000); ("NO", 7000); ("NO", 6001);
   ("INCONCLUSIVE", 5000); ("MAYBE", 7000)].

Fixpoint parseAmong (answers : list (string * Z)) (text : string) : Exc JsValue :=
  match answers with
  | [] => Throw (mkError (Some "Unexpected token"))
  | (r, c) :: rest =>
      if String.eqb text (answerText r c) then Ok (answerJson r c)
      else parseAmong rest text
  end.

Definition numberOfText (s : string) : JsNumber :=
  match s with
  | EmptyString => NaN
  | _ => match digitsValue 0 s with
         | Some n => Integer (Z.of_nat n)
         | None => NaN
         end
  end.

Definition compareNumbers (op : string) (a b : JsNumber) : bool :=
  if String.eqb op ">" then numGt a b
  else if String.eqb op "<" then numGt b a
  else if String.eqb op ">=" then numGe a b
  else if String.eqb op "<=" then numGe b a
  else if String.eqb op "==" then numEq a b
  else negb (numEq a b).

Definition asNumber (v : JsValue) : JsNumber :=
  match v with
  | JNum n => n
  | JStr s => numberOfText s
  | _ => NaN
  end.

Definition runtime : JsRuntime := {|
  JSON_parse := parseAmong knownAnswers;
  inherited := fun _ _ => JUndefined;
  js_compare := fun op a b => compareNumbers op (asNumber a) (asNumber b);
  parseInt := asNumber;
  toText := fun v =>
    match v with
    | JStr s => s
    | JNum (Integer z) => decimal z
    | _ => EmptyString
    end;
  encodeURIComponent := fun s => s;
  BigInt := fun v =>
    match asNumber v with
    | Integer z => Ok z
    | _ => Throw (mkError (Some "Cannot convert to a BigInt"))
    end;
  coerceToNumber := asNumber;
  URL_href := fun base _ => Ok base
|}.

Definition judgeSays (result : string) (confidence : Z) : Exc Settle.GeminiResult :=
  Ok (Settle.mkGeminiResult (Ok (answerText result confidence))).

Definition vote (o : Outcome) (c : Z) : Settle.Vote := Settle.mkVote o c Settle.RawEmpty.

(** Scenario C: the judges answer YES, YES, NO, NO, INCONCLUSIVE. *)
Definition scenarioC : list Settle.Vote :=
  [vote YES 9000; vote YES 8000; vote NO 7000; vote NO 6001; vote INCONCLUSIVE 5000].

(** Scenario A: is the price above 1, with the live value 50000. *)
Definition priceSpec : OracleTypes.DiscreteOracleSpec :=
  OracleTypes.mkDiscrete OracleTypes.CRYPTO_PRICE "Bitcoin above 1 USD"
    (OracleTypes.mkSource "CoinGecko" "https://api.coingecko.com/api/v3/simple/price"
       (Some [("ids", "bitcoin"); ("vs_currencies", "usd")]) None)
    "$.bitcoin.usd"
    (OracleTypes.mkComparison ">" (JNum (Integer 1)))
    "2026-01-01T00:00:00.000Z".

Definition priceData : JsValue :=
  JObj [("bitcoin", JObj [("usd", JNum (Integer 50000))])].

(** A team that won its last game at home, 110 to 102. *)
Definition sportsSpec : OracleTypes.DiscreteOracleSpec :=
  OracleTypes.mkDiscrete OracleTypes.SPORTS_SCORE "Did the Lakers win their last game"
    (OracleTypes.mkSource "TheSportsDB"
       "https://www.thesportsdb.com/api/v1/json/3/searchteams.php"
       (Some [("team_search", "Los Angeles Lakers")]) None)
    "$.results[0]"
    (OracleTypes.mkComparison "==" (JBool true))
    "2026-01-01T00:00:00.000Z".

Definition teamSearchData : JsValue :=
  JObj [("teams", JArr [JObj [("idTeam", JStr "134867");
                              ("strTeam", JStr "Los Angeles Lakers")]])].

Definition lastEventData : JsValue :=
  JObj [("results",
         JArr [JObj [("strEvent", JStr "Los Angeles Lakers vs Boston Celtics");
                     ("dateEvent", JStr "2025-12-25");
                     ("strHomeTeam", JStr "Los Angeles Lakers");
                     ("strAwayTeam", JStr "Boston Celtics");
                     ("intHomeScore", JStr "110");
                     ("intAwayScore", JStr "102")]])].

Definition feed (data : JsValue) : Exc Discrete.FetchResponse :=
  Ok (Discrete.mkFetchResponse true 200 (Ok data)).

Definition stored (spec : OracleTypes.DiscreteOracleSpec) : Exc (option Discrete.SpecDoc) :=
  Ok (Some (Discrete.mkSpecDoc (Ok (OracleTypes.DISCRETE spec)))).

Definition discreteRequest : Exc JsValue := Ok (JObj [("marketId", JStr "7")]).

Definition priceWorld : Discrete.World :=
  Discrete.mkWorld discreteRequest (fun _ => stored priceSpec) (fun _ _ => feed priceData).

Definition sportsWorld : Discrete.World :=
  Discrete.mkWorld discreteRequest (fun _ => stored sportsSpec)
    (fun url _ =>
       if includes "searchteams" url then feed teamSearchData else feed lastEventData).

(** A settlement request for market 7.  The ledger reports the given
    status at the first read; every service answers. *)
Definition settleWorld (status : Z) (question : string)
    (backend : Settle.DiscreteBackend) (judge : Z -> Exc Settle.GeminiResult)
  : Settle.World :=
  Settle.mkWorld (Ok (JObj [("marketId", JStr "7")]))
    (Some "http://localhost:8545") (Some "0xkey") (Some "0xmarket") (Some "gemini-key")
    (Ok tt)
    (fun read =>
       Ok (Settle.mkMarket question
             (match read with
              | O => status
              | S _ => if status =? 0 then 1 else status
              end)))
    (Ok "0xrequest") (Ok backend) judge false (Ok 31337)
    (fun _ => 1700000000000) (Ok "0xreport") (Ok tt) (Ok tt).

Definition priceBackend : Settle.DiscreteBackend :=
  Settle.mkBackend (fun _ => stored priceSpec) (fun _ _ => feed priceData).

(** No oracle spec is stored: the discrete engine falls back. *)
Definition noSpecBackend : Settle.DiscreteBackend :=
  Settle.mkBackend (fun _ => Ok None) (fun _ _ => Throw (mkError (Some "offline"))).

Definition judgesOfScenarioC (index : Z) : Exc Settle.GeminiResult :=
  if index =? 1 then judgeSays "YES" 9000
  else if index =? 2 then judgeSays "YES" 8000
  else if index =? 3 then judgeSays "NO" 7000
  else if index =? 4 then judgeSays "NO" 6001
  else judgeSays "INCONCLUSIVE" 5000.

(** Scenario E: the market is already Settled (status 2). *)
Definition settledWorld : Settle.World :=
  settleWorld 2 "Will it rain tomorrow? [CONSORTIUM]" noSpecBackend judgesOfScenarioC.

(** An Open market that the discrete engine resolves. *)
Definition openPriceWorld : Settle.World :=
  settleWorld 0 "Is the price above $1?" priceBackend judgesOfScenarioC.

(** Scenario F: the first creation attempt (nonce 42) hits a nonce
    conflict, the second one (nonce 43) is confirmed.  The reasoning
    service is down when the question is to be classified. *)
Definition createWorld : Create.World :=
  Create.mkWorld
    (Ok (JObj [("question", JStr "Will it rain tomorrow?");
               ("duration", JNum (Integer 60))]))
    (Some "http://localhost:8545") (Some "0xkey") (Some "0xmarket") (Some "gemini-key")
    (Ok tt) (Ok 7) (Ok 42)
    (fun nonce =>
       if nonce =? 42 then Throw (mkError (Some "nonce too low"))
       else Ok (Create.mkTx "0xcreate" (Ok tt)))
    (Throw (mkError (Some "503 Service Unavailable")))
    "2026-01-01T00:00:00.000Z" 1700000000000 (Ok tt).

Definition emptyStore : Create.State := Create.mkState [] ∅.

(** An admin request for market 7 with the given outcome and password. *)
Definition adminRequest (outcome password : string) : JsValue :=
  JObj [("marketId", JStr "7"); ("outcome", JStr outcome);
        ("source", JStr "https://example.org/report");
        ("adminPassword", JStr password)].

Definition adminWorld (outcome password : string) : Admin.World :=
  Admin.mkWorld (Ok (adminRequest outcome password))
    (Some "http://localhost:8545") (Some "0xkey") (Some "0xmarket")
    (Ok tt) (Ok (Settle.mkMarket "Will it rain tomorrow?" 3))
    (Ok (Admin.mkTx "0xmanual" (Ok tt))) (Ok (Admin.mkTx "0xrequest" (Ok tt)))
    (Ok (Admin.mkTx "0xsubmit" (Ok tt)))
    (fun _ => 1700000000000) (Ok tt) (fun _ => Ok None) (fun _ => Ok tt) (fun _ => Ok tt).

(** A weather spec as the classifier is told to write it: the whitelisted
    source, and no [city] parameter. *)
Definition weatherSpec : OracleTypes.DiscreteOracleSpec :=
  OracleTypes.mkDiscrete OracleTypes.WEATHER "Is it below 0 degrees in New York"
    (OracleTypes.mkSource "wttr.in" "https://wttr.in" (Some []) None)
    "$.current_condition[0].temp_C"
    (OracleTypes.mkComparison "<" (JNum (Integer 0)))
    "2026-01-01T00:00:00.000Z".

Definition weatherData : JsValue :=
  JObj [("current_condition", JArr [JObj [("temp_C", JStr "3")]])].

Definition weatherWorld : Discrete.World :=
  Discrete.mkWorld discreteRequest (fun _ => stored weatherSpec) (fun _ _ => feed weatherData).

End Samples.

(** ** Notions used to state the properties *)

Module Spec.

Section Handlers.
Context {St E : Type}.

(** [post m Q]: whenever the handler [m] returns a value, it satisfies [Q]. *)
Definition post {A} (m : M St A) (Q : A -> Prop) : Prop :=
  forall s, match fst (m s) with
            | Ok a => Q a
            | Throw _ => True
            end.


End Handlers.

Section Consensus.
Import Settle.


(** The reports a trace submits to the ledger. *)
Definition reports (evs : list Event) : list (Z * Z * JsNumber * string) :=
  flat_map (fun ev =>
              match ev with
              | EvOnReport id code conf rid => [(id, code, conf, rid)]
              | _ => []
              end) evs.

Definition clamp (c : Z) : Z := Z.min (Z.max c 0) 10000.

(** A resolution whose result, if there is one, has an integer confidence. *)
Definition resolved (r : Resolution) : Prop :=
  match parsed r with
  | Some p => exists c, parsed_confidence p = JNum (Integer c)
  | None => True
  end.

Context `{JsRuntime}.

(** The JSON value a judge's reply parses to; [None] when the reasoning
    service threw or the text is not JSON. *)
Definition judgeJson (reply : Exc GeminiResult) : option JsValue :=
  match reply with
  | Ok r =>
      match response_text r with
      | Ok text =>
          match JSON_parse (cleanJson text) with
          | Ok p => Some p
          | Throw _ => None
          end
      | Throw _ => None
      end
  | Throw _ => None
  end.

(** The raw confidence of a judge: the [confidence] of its JSON when
    that is an integer, and 0 otherwise. *)
Definition rawConfidence (reply : Exc GeminiResult) : Z :=
  match judgeJson reply with
  | Some p =>
      match getProp p "confidence" with
      | Ok (JNum (Integer c)) => c
      | _ => 0
      end
  | None => 0
  end.

(** The [result] of a judge's JSON, when it has one of the three values. *)
Definition statedResult (reply : Exc GeminiResult) : option Outcome :=
  match judgeJson reply with
  | Some p =>
      match getProp p "result" with
      | Ok (JStr s) =>
          if String.eqb s "YES" then Some YES
          else if String.eqb s "NO" then Some NO
          else if String.eqb s "INCONCLUSIVE" then Some INCONCLUSIVE
          else None
      | _ => None
      end
  | None => None
  end.

End Consensus.

Section Engine.
Import OracleTypes Discrete.

(** What a response of the engine must look like: a success is YES or NO
    at confidence 10000, a fallback is never [EXTRACTION_ERROR]. *)
Definition sound (r : Response) : Prop :=
  match body r with
  | SuccessBody s => (outcome s = YES \/ outcome s = NO) /\ confidence s = 10000
  | FallbackBody _ reason => reason <> EXTRACTION_ERROR
  | ErrorBody _ => True
  end.

Definition soundStep {A} (s : Step A) : Prop :=
  match s with
  | Return r => sound r
  | Continue _ => True
  end.

End Engine.

Section Creation.
Import Create.

(** What becomes of the creation sent with nonce [n]: the confirmed
    transaction, or the failure of sending or of waiting. *)
Definition attempt (w : World) (n : Z) : Exc Tx :=
  match newMarket w n with
  | Ok tx =>
      match wait tx with
      | Ok _ => Ok tx
      | Throw e => Throw e
      end
  | Throw e => Throw e
  end.

(** The calls of the attempt sent with nonce [n]. *)
Definition attemptCalls (w : World) (q : JsValue) (d : JsNumber) (n : Z) : list Event :=
  EvNewMarket q d n 500000 ::
  match newMarket w n with
  | Ok tx => [EvWait (hash tx)]
  | Throw _ => []
  end.

(** The calls of [more + 1] attempts: the nonce goes up by one from one
    attempt to the next, and a wait of 1000 ms stands between them. *)
Fixpoint retryCalls (w : World) (q : JsValue) (d : JsNumber) (n : Z) (more : nat)
  : list Event :=
  attemptCalls w q d n ++
  match more with
  | O => []
  | S more' => EvSleep 1000 :: retryCalls w q d (n + 1) more'
  end.

Definition logged (evs : list Event) (st : State) : State :=
  mkState (trace st ++ evs) (oracle_specs st).

Definition fallbackSpec : OracleSpec :=
  CONTIGUOUS (JStr "Resolved via AI reasoning (classification failed).").

Context `{JsRuntime}.

(** What the classifier answers: the spec built from its JSON, or the
    error of the reasoning service, of the parse or of the build. *)
Definition classifierAnswer (w : World) : Exc OracleSpec :=
  match generateContent w with
  | Ok result =>
      match Settle.response_text result with
      | Ok text =>
          match JSON_parse (cleanJson text) with
          | Ok parsed => buildSpec w parsed
          | Throw e => Throw e
          end
      | Throw e => Throw e
      end
  | Throw e => Throw e
  end.

End Creation.

Section Override.
Import Admin.


Context `{JsRuntime}.

(** A field of the request, as the handler's destructuring reads it. *)
Definition requestField (requestBody : JsValue) (key : string) : JsValue :=
  match getProp requestBody key with
  | Ok v => v
  | Throw _ => JUndefined
  end.

End Override.

Section Calls.
Context {E : Type}.

(** [silent m]: the handler [m] issues no external call. *)
Definition silent {A} (m : M (list E) A) : Prop := forall t, snd (m t) = t.

(** [framed m]: the handler [m] only appends to the trace, and what it
    does is the same from every trace. *)
Definition framed {A} (m : M (list E) A) : Prop :=
  forall t, m t = (fst (m []), t ++ snd (m [])).

End Calls.

Section EngineAnswers.
Import OracleTypes Discrete.

(** The HTTP status the engine sends with each fallback reason. *)
Definition statusOf (reason : FallbackReason) : Z :=
  match reason with
  | SPEC_NOT_FOUND | SPORTS_TEAM_NOT_FOUND => 404
  | CONTIGUOUS_TYPE => 400
  | SPORTS_TEAM_SEARCH_FAILED | API_ERROR => 502
  | NO_RECENT_GAMES | EXTRACTION_ERROR | NO_VALUE | UNKNOWN_ERROR => 500
  end.

(** The three kinds of answer and their status. *)
Definition tabled (r : Response) : Prop :=
  match body r with
  | SuccessBody _ => status r = 200
  | FallbackBody _ reason => status r = statusOf reason
  | ErrorBody error => status r = 400 /\ error = "marketId required"
  end.

(** A step that ends the request ends it with an answer of the table. *)
Definition tabledStep {A} (s : Step A) : Prop :=
  match s with
  | Return r => tabled r
  | Continue _ => True
  end.

(** An answer that is a fallback. *)
Definition fellBack (r : Response) : Prop :=
  match body r with
  | FallbackBody _ _ => True
  | _ => False
  end.

(** What the sports path extracts: whether the team scored more than its
    opponent, with the context that says so. *)
Definition sportsVerdict (x : JsValue * option SportsContext) : Prop :=
  exists c,
    snd x = Some c /\
    fst x = JBool (numGt (teamScore c) (opponentScore c)) /\
    teamScore c = (if isHomeTeam c then homeScore c else awayScore c) /\
    opponentScore c = (if isHomeTeam c then awayScore c else homeScore c) /\
    Discrete.result c = (if numGt (teamScore c) (opponentScore c) then "WIN"
                         else if numEq (teamScore c) (opponentScore c) then "DRAW"
                         else "LOSS").

(** [city] is the text of [endpoint] after its last slash. *)
Definition afterLastSlash (endpoint city : string) : Prop :=
  includes "/" city = false /\
  (endpoint = city \/ exists before, endpoint = before +:+ "/" +:+ city).

(** The six operators of [ComparisonOperator]. *)
Definition knownOperator (op : string) : bool :=
  String.eqb op ">" || String.eqb op "<" || String.eqb op ">=" || String.eqb op "<="
  || String.eqb op "==" || String.eqb op "!=".

Context `{JsRuntime}.

(** The evidence of a success justifies its outcome.  On the sports path
    the outcome is YES exactly when the team scored more than its
    opponent.  On every other path the recorded value is what the
    extraction path reads in the recorded API response, and the outcome is
    YES exactly when the recorded comparison holds of it. *)
Definition justified (s : Success) : Prop :=
  let d := oracleSpec s in
  operator s = OracleTypes.operator (comparison d) /\
  targetValue s = target_value (comparison d) /\
  sourceName s = name (source d) /\
  match category d with
  | SPORTS_SCORE =>
      exists c,
        sportsContext s = Some c /\
        extractedValue s = JBool (numGt (teamScore c) (opponentScore c)) /\
        teamScore c = (if isHomeTeam c then homeScore c else awayScore c) /\
        opponentScore c = (if isHomeTeam c then awayScore c else homeScore c) /\
        result c = (if numGt (teamScore c) (opponentScore c) then "WIN"
                    else if numEq (teamScore c) (opponentScore c) then "DRAW" else "LOSS") /\
        outcome s = (if numGt (teamScore c) (opponentScore c) then YES else NO)
  | _ =>
      sportsContext s = None /\
      extractValue (apiResponse s) (extraction_path d) = Ok (extractedValue s) /\
      isNullish (extractedValue s) = false /\
      outcome s = (if applyComparison (operator s) (extractedValue s) (targetValue s)
                   then YES else NO)
  end.

(** A success for the spec [d] whose evidence justifies its outcome. *)
Definition justifiedBy (d : DiscreteOracleSpec) (r : Response) : Prop :=
  match body r with
  | SuccessBody s => oracleSpec s = d /\ justified s
  | _ => True
  end.

End EngineAnswers.

Section Orchestrator.
Import Settle.

(** The calls to the reasoning service in a trace: judge index and prompt. *)
Definition judgeCalls (evs : list Event) : list (Z * string) :=
  flat_map (fun ev =>
              match ev with
              | EvGenerateContent index prompt => [(index, prompt)]
              | _ => []
              end) evs.

(** The audit records a trace writes. *)
Definition audits (evs : list Event) : list (string * AuditDoc) :=
  flat_map (fun ev =>
              match ev with
              | EvSetDoc rid doc => [(rid, doc)]
              | _ => []
              end) evs.

(** The requests for settlement a trace sends to the ledger. *)
Definition settlementRequests (evs : list Event) : list JsValue :=
  flat_map (fun ev =>
              match ev with
              | EvRequestSettlement marketId => [marketId]
              | _ => []
              end) evs.

(** The answer of the handler's [catch] for the error [e]. *)
Definition failure (e : JsError) : Response :=
  mkResponse 500
    (ErrorBody (match message e with
                | Some m => if String.eqb m EmptyString then "Settlement failed" else m
                | None => "Settlement failed"
                end)).

(** The prompt for the question [question]. *)
Definition promptFor (question : string) : string :=
  "Market Question: " +:+ String (ascii_of_nat 34) (replaceFirst " [CONSORTIUM]" EmptyString question)
    +:+ String (ascii_of_nat 34) ". Has this happened? Return JSON.".

Context `{JsRuntime}.

(** What the discrete engine answers for the market, when it is reached
    and succeeds. *)
Definition discreteAnswer (w : World) (marketId : JsValue) : option Discrete.Success :=
  match discreteService w with
  | Ok backend =>
      match fst (run (Discrete.POST
                        (Discrete.mkWorld (Ok (JObj [("marketId", marketId)]))
                           (getDoc backend) (fetch backend)))) with
      | Ok response =>
          match Discrete.body response with
          | Discrete.SuccessBody s => Some s
          | _ => None
          end
      | Throw _ => None
      end
  | Throw _ => None
  end.

(** How the result [r] was resolved, and with which judge calls: by the
    discrete engine when it succeeds; else, without a key for the
    reasoning service, by the mock answer; else by one judge, or by five
    when the question carries the consortium tag. *)
Definition resolvedBy (w : World) (marketId : JsValue) (question : string)
    (r : Resolution) (judges : list Event) : Prop :=
  exists p,
    parsed r = Some p /\
    match discreteAnswer w marketId with
    | Some s =>
        p = mkParsed (Discrete.outcome s) (JNum (Integer (Discrete.confidence s))) (Some s) None /\
        judges = [] /\ method r = DISCRETE /\ isFallback r = false /\ isConsortium r = false
    | None =>
        if unset (GEMINI_API_KEY w) then
          p = mkParsed (if randomIndex w then NO else YES) (JNum (Integer 9999)) None None /\
          judges = [] /\ method r = MOCK /\ isConsortium r = false
        else
          judges = map (fun i => EvGenerateContent i (promptFor question))
                     (if includes "[CONSORTIUM]" question then [1; 2; 3; 4; 5] else [1]) /\
          method r = CONTIGUOUS /\
          isConsortium r = includes "[CONSORTIUM]" question /\
          exists c, parsed_confidence p = JNum (Integer c)
    end.

(** A run that stops before the resolution: it answers with an error,
    having sent nothing, or the first read of the market, then the request
    for settlement when the market was read as Open, then possibly the
    second read. *)
Definition stopped (w : World) (answer : Response) (evs : list Event) : Prop :=
  (code answer = 400 \/ code answer = 500) /\
  (exists error, body answer = ErrorBody error) /\
  (code answer = 400 -> evs = []) /\
  (evs = [] \/
   exists id,
     evs = [EvGetMarket id] \/
     exists m marketId (again : bool),
       getMarket w 0 = Ok m /\
       evs = [EvGetMarket id]
               ++ (if status m =? 0 then [EvRequestSettlement marketId] else [])
               ++ (if again then [EvGetMarket id] else [])).

(** A run that resolves the market [marketId] and goes on to submit the
    result [p]: the calls up to the submission, then what the submission
    does. *)
Definition submitted (w : World) (marketId : JsValue) (id : Z) (m0 m1 : Market)
    (r : Resolution) (judges : list Event) (p : Parsed)
    (answer : Response) (evs : list Event) : Prop :=
  let before :=
    [EvGetMarket id]
      ++ (if status m0 =? 0 then [EvRequestSettlement marketId] else [])
      ++ [EvGetMarket id; EvResolveDiscrete marketId] ++ judges in
  let responseId := "gemini-" +:+ toText (JNum (Integer (now w 0))) in
  let report :=
    EvOnReport id (outcomeEnum (parsed_result p))
      (validConfidence (parsed_confidence p)) responseId in
  match getNetwork w with
  | Throw e => answer = failure e /\ evs = before ++ [EvGetNetwork]
  | Ok _ =>
      match writeContract w with
      | Throw e => answer = failure e /\ evs = before ++ [EvGetNetwork; report]
      | Ok hash =>
          answer = mkResponse 200 (SuccessBody hash p) /\
          evs = before ++ [EvGetNetwork; report; EvSignIn] ++
                match signInAnonymously w with
                | Ok _ =>
                    [EvSetDoc responseId
                       (mkAuditDoc (question m1) p (fullEvidenceObject r) responseId hash
                          (now w 1) (isConsortium r) (method r) (isFallback r))]
                | Throw _ => []
                end
      end
  end.

End Orchestrator.

Section Texts.

(** [lacks cs s]: none of the characters [cs] occurs in the text [s]. *)
Fixpoint lacks (cs : list ascii) (s : string) : bool :=
  match s with
  | EmptyString => true
  | String c rest => negb (existsb (Ascii.eqb c) cs) && lacks cs rest
  end.

End Texts.

Section CreationCalls.
Import Create.

(** A call of the retry loop for the question [q] and the duration [d],
    started at the nonce [nonce]. *)
Definition attemptCall (q : JsValue) (d : JsNumber) (nonce : Z) (ev : Event) : Prop :=
  match ev with
  | EvNewMarket q' d' n gasLimit =>
      q' = q /\ d' = d /\ nonce <= n <= nonce + 2 /\ gasLimit = 500000
  | EvWait _ => True
  | EvSleep ms => ms = 1000
  | _ => False
  end.

(** The prompt the classifier is given for [question]. *)
Definition classifierPrompt (CLASSIFICATION_PROMPT : string) (question : string) : string :=
  CLASSIFICATION_PROMPT +:+ "

Market Question: " +:+ String (ascii_of_nat 34) question
    +:+ String (ascii_of_nat 34) EmptyString.

Context `{JsRuntime}.

(** A call of the handler before the classification, for the request
    [requestBody] and the pending transaction count [base]. *)
Definition creationCall (requestBody : JsValue) (base : Z) (ev : Event) : Prop :=
  match ev with
  | EvNextMarketId | EvGetTransactionCount | EvWait _ => True
  | EvSleep ms => ms = 1000
  | EvNewMarket q d n gasLimit =>
      let question := requestField requestBody "question" in
      let duration := requestField requestBody "duration" in
      truthy question = true /\
      q = (if truthy (requestField requestBody "isConsortium")
           then JStr (toText question +:+ " [CONSORTIUM]") else question) /\
      d = (if truthy duration && negb (isNaN (toNumber duration))
              && numGe (toNumber duration) (Integer 10)
           then toNumber duration else Integer 10) /\
      numGe d (Integer 10) = true /\
      base <= n <= base + 2 /\
      gasLimit = 500000
  | _ => False
  end.

(** The created market: what [createOnChain] hands to the classification. *)
Definition created (w : World) (marketId : string) (question : JsValue) (tx : Tx) : Prop :=
  exists requestBody nextId base n,
    request_json w = Ok requestBody /\
    question = requestField requestBody "question" /\
    truthy question = true /\
    nextMarketId w = Ok nextId /\
    marketId = toText (JNum (Integer nextId)) /\
    getTransactionCount w = Ok base /\
    base <= n <= base + 2 /\
    attempt w n = Ok tx.

(** What the classification stage does for the created market: the
    answer's spec, the calls, and the collection [oracle_specs] before and
    after. *)
Definition classified (CLASSIFICATION_PROMPT : string) (w : World) (marketId : string)
    (question : JsValue) (oracleSpec : option OracleSpec) (evs : list Event)
    (before after : gmap string SpecRecord) : Prop :=
  let prompt := classifierPrompt CLASSIFICATION_PROMPT (toText question) in
  if Settle.unset (GEMINI_API_KEY w) then
    oracleSpec = None /\ evs = [] /\ after = before
  else
    match classifierAnswer w with
    | Ok built =>
        let doc := mkSpecRecord marketId question built (now w) in
        evs = [EvGenerateContent prompt; EvSetDoc marketId doc] /\
        match setDoc w with
        | Ok _ => oracleSpec = Some built /\ after = <[marketId := doc]> before
        | Throw _ => oracleSpec = Some fallbackSpec /\ after = before
        end
    | Throw _ =>
        evs = [EvGenerateContent prompt] /\ oracleSpec = Some fallbackSpec /\ after = before
    end.

(** A request that ends before the classification. *)
Definition endsEarly (w : World) (r : Response) (evs : list Event) : Prop :=
  (code r = 400 \/ code r = 500) /\
  (exists error, body r = ErrorBody error) /\
  (code r = 400 -> evs = []) /\
  (evs = [] \/ evs = [EvNextMarketId] \/
   evs = [EvNextMarketId; EvGetTransactionCount] \/
   exists requestBody base,
     request_json w = Ok requestBody /\
     getTransactionCount w = Ok base /\
     Forall (creationCall requestBody base) evs).

End CreationCalls.

Section ManualSettlement.
Import Admin.

(** The answer of the handler's [catch] for the error [e]. *)
Definition adminFailure (e : JsError) : Response :=
  mkResponse 500
    (ErrorBody (match message e with
                | Some m => if String.eqb m EmptyString then "Settlement failed" else m
                | None => "Settlement failed"
                end)).

(** The ledger calls that settle a market of the given status, when all
    of them succeed, and the settling transaction [tx]. *)
Definition sends (w : World) (status : Z) (marketId : JsValue) (code : Z) (rid : string)
    (tx : Tx) (calls : list Event) : Prop :=
  (status = 3 /\ settleMarketManually w = Ok tx /\
   calls = [EvSettleMarketManually marketId code]) \/
  (status = 0 /\
   exists reqTx,
     requestSettlement w = Ok reqTx /\ wait reqTx = Ok tt /\ submitReport w = Ok tx /\
     calls = [EvRequestSettlement marketId; EvWait (hash reqTx);
              EvSubmitReport marketId code 10000 rid]) \/
  (status = 1 /\ submitReport w = Ok tx /\
   calls = [EvSubmitReport marketId code 10000 rid]).

(** The ledger transactions that the status permits. *)
Definition permitted (status : Z) (marketId : JsValue) (code : Z) (rid : string)
    (ev : Event) : Prop :=
  match ev with
  | EvSettleMarketManually marketId' code' => status = 3 /\ marketId' = marketId /\ code' = code
  | EvRequestSettlement marketId' => status = 0 /\ marketId' = marketId
  | EvSubmitReport marketId' code' confidence rid' =>
      (status = 0 \/ status = 1) /\ marketId' = marketId /\ code' = code /\
      confidence = 10000 /\ rid' = rid
  | EvGetMarket _ | EvWait _ => True
  | _ => False
  end.

(** The write of the audit sink on the collection [c]. *)
Definition auditWrite (w : World) (c : Collection) (rid : string) (override : AdminOverride)
  : Event :=
  match getDocs w c with
  | Ok (Some existing) => EvUpdateDoc c existing override
  | _ => EvSetDoc c rid override
  end.

Definition written (w : World) (c : Collection) : Exc unit :=
  match getDocs w c with
  | Ok (Some _) => updateDoc w c
  | Ok None => setDoc w c
  | Throw e => Throw e
  end.

(** The calls after the settling transaction [tx]: its confirmation, the
    sign-in and the two audit writes. *)
Definition recordCalls (w : World) (tx : Tx) (rid : string) (override : AdminOverride)
  : list Event :=
  [EvWait (hash tx); EvSignIn;
   EvGetDocs settlements; auditWrite w settlements rid override;
   EvGetDocs demo; auditWrite w demo rid override].

(** How many of them are made: all six when none fails, else those up to
    the first one that fails. *)
Definition recorded (w : World) (tx : Tx) : Exc unit * nat :=
  match wait tx with
  | Throw e => (Throw e, 1%nat)
  | Ok _ =>
      match signInAnonymously w with
      | Throw e => (Throw e, 2%nat)
      | Ok _ =>
          match getDocs w settlements with
          | Throw e => (Throw e, 3%nat)
          | Ok _ =>
              match written w settlements with
              | Throw e => (Throw e, 4%nat)
              | Ok _ =>
                  match getDocs w demo with
                  | Throw e => (Throw e, 5%nat)
                  | Ok _ => (written w demo, 6%nat)
                  end
              end
          end
      end
  end.

Context `{JsRuntime}.

(** The ledger client is configured and can be set up. *)
Definition configured (w : World) : bool :=
  negb (Settle.unset (RPC_URL w) || Settle.unset (CRE_ETH_PRIVATE_KEY w)
        || Settle.unset (NEXT_PUBLIC_MARKET_ADDRESS w))
  && match connect w with
     | Ok _ => true
     | Throw _ => false
     end.

(** A request that passes the handler's checks. *)
Definition accepted (requestBody : JsValue) : Prop :=
  wrongPassword (requestField requestBody "adminPassword") = false /\
  truthy (requestField requestBody "marketId") = true /\
  truthy (requestField requestBody "outcome") = true /\
  truthy (requestField requestBody "source") = true /\
  isYesOrNo (requestField requestBody "outcome") = true.

(** The audit record of the request for the settling transaction [tx]. *)
Definition overrideOf (w : World) (requestBody : JsValue) (tx : Tx) : AdminOverride :=
  mkOverride (requestField requestBody "outcome") 10000 (requestField requestBody "source")
    (orValue (requestField requestBody "comments") (JStr EmptyString))
    (hash tx) (now w 1).

(** The run of an accepted request once the market is read with the status
    [status]. *)
Definition settledRun (w : World) (requestBody : JsValue) (status : Z)
    (r : Response) (evs : list Event) : Prop :=
  let marketId := requestField requestBody "marketId" in
  let outcome := requestField requestBody "outcome" in
  let rid := "admin-" +:+ toText (JNum (Integer (now w 0))) in
  if status =? 2 then
    r = mkResponse 400 (ErrorBody "Market is already fully settled") /\ evs = []
  else if negb ((status =? 3) || (status =? 0) || (status =? 1)) then
    r = mkResponse 400
          (ErrorBody ("Unknown market status: " +:+ toText (JNum (Integer status)))) /\
    evs = []
  else
    (exists e calls,
       r = adminFailure e /\ evs = calls /\ calls <> [] /\
       Forall (permitted status marketId (outcomeEnum outcome) rid) calls /\
       forall tx calls', ~ sends w status marketId (outcomeEnum outcome) rid tx calls') \/
    (exists tx calls,
       sends w status marketId (outcomeEnum outcome) rid tx calls /\
       let full := recordCalls w tx rid (overrideOf w requestBody tx) in
       match recorded w tx with
       | (Ok _, _) =>
           r = mkResponse 200
                 (SuccessBody (hash tx) rid outcome
                    ("Market #" +:+ toText marketId +:+ " manually settled as "
                       +:+ toText outcome)) /\
           evs = calls ++ full
       | (Throw e, made) => r = adminFailure e /\ evs = calls ++ firstn made full
       end).

(** A request that is answered before any call. *)
Definition declined (w : World) (r : Response) : Prop :=
  (code r = 400 \/ code r = 401 \/ code r = 500) /\
  (exists error, body r = ErrorBody error) /\
  (code r = 401 <->
   exists requestBody,
     request_json w = Ok requestBody /\
     Discrete.isNullish requestBody = false /\
     wrongPassword (requestField requestBody "adminPassword") = true) /\
  (forall requestBody,
     request_json w = Ok requestBody -> accepted requestBody ->
     code r = 500 /\ configured w = false).

(** What the handler may do besides reading the market: the ledger
    transactions that the status of the market permits, for an accepted
    request; and, once the settling transaction is confirmed, the sign-in
    and the audit writes, which carry the record of that transaction. *)
Definition allowed (w : World) (ev : Event) : Prop :=
  match ev with
  | EvGetMarket _ => True
  | _ =>
      exists requestBody m,
        request_json w = Ok requestBody /\ accepted requestBody /\
        getMarket w = Ok m /\
        let marketId := requestField requestBody "marketId" in
        let code := outcomeEnum (requestField requestBody "outcome") in
        let rid := "admin-" +:+ toText (JNum (Integer (now w 0))) in
        match ev with
        | EvSignIn | EvGetDocs _ =>
            exists tx calls,
              sends w (Settle.status m) marketId code rid tx calls /\ wait tx = Ok tt
        | EvUpdateDoc _ _ override | EvSetDoc _ _ override =>
            exists tx calls,
              sends w (Settle.status m) marketId code rid tx calls /\ wait tx = Ok tt /\
              signInAnonymously w = Ok tt /\
              override = overrideOf w requestBody tx
        | _ => permitted (Settle.status m) marketId code rid ev
        end
  end.

End ManualSettlement.

Section StatusReports.
Import MarketStatus.

(** The request names a market. *)
Definition asksFor (w : World) (id : string) : Prop :=
  searchParam w = Ok (Some id) /\ id <> EmptyString.

End StatusReports.

Section DashboardOrder.
Import Dashboard.

Definition negative (x : JsNumber) : bool := numGt (Integer 0) x.

Definition positive (x : JsNumber) : bool := numGt x (Integer 0).

Definition isOpen (m : Market) : bool := numEq (status m) (Integer 0).

(** The order of the list: the inconclusive markets first, then the open
    ones, then the greater id first; [ia] and [ib] are the ids as numbers. *)
Definition listedBefore (a b : Market) (ia ib : Z) : Prop :=
  (isInconclusive a = true /\ isInconclusive b = false) \/
  (isInconclusive a = isInconclusive b /\
   ((isOpen a = true /\ isOpen b = false) \/
    (isOpen a = isOpen b /\ ib < ia))).

End DashboardOrder.

End Spec.

Import Spec.

(** * Properties *)

(** ** The consensus round *)

Section ConsensusFacts.
Import Settle.









End ConsensusFacts.

Section JudgeFacts.
Import Settle.
Context `{JsRuntime}.

Lemma getProp_both (p : JsValue) (k1 k2 : string) :
  (exists e, getProp p k1 = Throw e /\ getProp p k2 = Throw e) \/
  (exists v1 v2, getProp p k1 = Ok v1 /\ getProp p k2 = Ok v2).
Proof.
  unfold getProp. destruct p; eauto;
    right; destruct (ownProperty _ k1), (ownProperty _ k2); eauto.
Qed.

(** One judge call: it records one call to the reasoning service, never
    throws, and votes as its JSON says. *)
Lemma askGemini_spec (w : World) (prompt : string) (index : Z) (t : list Event) :
  exists vote,
    askGemini w prompt index t = (Ok vote, t ++ [EvGenerateContent index prompt]) /\
    result vote =
      match statedResult (generateContent w index) with
      | Some o => o
      | None => INCONCLUSIVE
      end /\
    confidence vote = rawConfidence (generateContent w index).
Proof.
  unfold askGemini, try_catch, bind, call, lift, ret, record, list_traced.
  unfold statedResult, rawConfidence, judgeJson.
  destruct (generateContent w index) as [r|e]; [|eauto].
  destruct (response_text r) as [text|e]; [|eauto].
  destruct (JSON_parse (cleanJson text)) as [p|e]; [|eauto].
  destruct (getProp_both p "result" "confidence") as [(e & -> & ->)|(v1 & v2 & -> & ->)];
    [eauto|].
  eexists; split; [reflexivity|]. cbn [result confidence]. split.
  - unfold judgeResult. destruct v1; try reflexivity.
    destruct (String.eqb s "YES"); [reflexivity|].
    destruct (String.eqb s "NO"); [reflexivity|].
    destruct (String.eqb s "INCONCLUSIVE"); reflexivity.
  - unfold judgeConfidence. destruct v2 as [| | |[]| | | |]; reflexivity.
Qed.

(** The five judges are all heard, in order, whatever they answer. *)
Lemma summonJudges_spec (w : World) (prompt : string) (t : list Event) :
  exists v1 v2 v3 v4 v5,
    summonJudges w prompt t =
      (Ok [v1; v2; v3; v4; v5],
       t ++ map (fun i => EvGenerateContent i prompt) [1; 2; 3; 4; 5]) /\
    Forall2 (fun i v =>
               result v = match statedResult (generateContent w i) with
                          | Some o => o
                          | None => INCONCLUSIVE
                          end /\
               confidence v = rawConfidence (generateContent w i))
      [1; 2; 3; 4; 5] [v1; v2; v3; v4; v5].
Proof.
  destruct (askGemini_spec w prompt 1 t) as (v1 & E1 & P1).
  destruct (askGemini_spec w prompt 2 (t ++ [EvGenerateContent 1 prompt])) as (v2 & E2 & P2).
  destruct (askGemini_spec w prompt 3
              ((t ++ [EvGenerateContent 1 prompt]) ++ [EvGenerateContent 2 prompt]))
    as (v3 & E3 & P3).
  destruct (askGemini_spec w prompt 4
              (((t ++ [EvGenerateContent 1 prompt]) ++ [EvGenerateContent 2 prompt])
                 ++ [EvGenerateContent 3 prompt]))
    as (v4 & E4 & P4).
  destruct (askGemini_spec w prompt 5
              ((((t ++ [EvGenerateContent 1 prompt]) ++ [EvGenerateContent 2 prompt])
                  ++ [EvGenerateContent 3 prompt]) ++ [EvGenerateContent 4 prompt]))
    as (v5 & E5 & P5).
  exists v1, v2, v3, v4, v5. split.
  - unfold summonJudges. simpl mapM. unfold bind at 1. rewrite E1.
    unfold bind at 1. unfold bind at 1. rewrite E2.
    unfold bind at 1. unfold bind at 1. rewrite E3.
    unfold bind at 1. unfold bind at 1. rewrite E4.
    unfold bind at 1. unfold bind at 1. rewrite E5.
    unfold bind, ret. simpl. rewrite <- !app_assoc. reflexivity.
  - repeat constructor; tauto.
Qed.

End JudgeFacts.

(** ** Claims on the consensus engine *)

Section ConsensusClaims.
Import Settle.



Context `{JsRuntime}.

(** The aggregated result of a round, in terms of the five votes. *)
Lemma consortiumRound_result (w : World) (prompt : string) (t : list Event) :
  exists v1 v2 v3 v4 v5 raw,
    let votes := [v1; v2; v3; v4; v5] in
    summonJudges w prompt t =
      (Ok votes, t ++ map (fun i => EvGenerateContent i prompt) [1; 2; 3; 4; 5]) /\
    consortiumRound w prompt t =
      (Ok (mkParsed (determineWinner (tallyVotes votes))
             (JNum (Integer (avgConfidence votes))) None
             (Some (mkConsortium judgeCount (tallyVotes votes)
                      (map (fun r => (result r, confidence r)) votes))),
           raw),
       t ++ map (fun i => EvGenerateContent i prompt) [1; 2; 3; 4; 5]) /\
    Forall2 (fun i v =>
               result v = match statedResult (generateContent w i) with
                          | Some o => o
                          | None => INCONCLUSIVE
                          end /\
               confidence v = rawConfidence (generateContent w i))
      [1; 2; 3; 4; 5] votes.
Proof.
  destruct (summonJudges_spec w prompt t) as (v1 & v2 & v3 & v4 & v5 & E & P).
  exists v1, v2, v3, v4, v5, (rawResponse v1). cbv zeta.
  split; [exact E|]. split; [|exact P].
  unfold consortiumRound, bind. rewrite E. reflexivity.
Qed.


(** C5, as amended.  A judge call never throws and never aborts the
    round.  A thrown reasoning-service error or an unparsable reply gives
    the vote INCONCLUSIVE with confidence 0; a result outside YES, NO,
    INCONCLUSIVE gives the vote INCONCLUSIVE, with the confidence of the
    reply when that is an integer and 0 otherwise. *)
Theorem judge_failure_scored_locally (w : World) (prompt : string) (index : Z)
    (t : list Event) :
  (exists vote,
     askGemini w prompt index t = (Ok vote, t ++ [EvGenerateContent index prompt]) /\
     (judgeJson (generateContent w index) = None ->
      result vote = INCONCLUSIVE /\ confidence vote = 0) /\
     (statedResult (generateContent w index) = None ->
      result vote = INCONCLUSIVE /\
      confidence vote = rawConfidence (generateContent w index))) /\
  (exists votes t', summonJudges w prompt t = (Ok votes, t') /\ length votes = 5%nat).
Proof.
  split.
  - destruct (askGemini_spec w prompt index t) as (vote & E & Hr & Hc).
    exists vote. split; [exact E|]. split.
    + intros Hnone. rewrite Hr, Hc. unfold statedResult, rawConfidence.
      rewrite Hnone. auto.
    + intros Hnone. rewrite Hr, Hnone. auto.
  - destruct (summonJudges_spec w prompt t) as (v1 & v2 & v3 & v4 & v5 & E & _).
    eauto.
Qed.

End ConsensusClaims.

(** C5, as stated, fails: a judge that answers with the result MAYBE and
    the confidence 7000 is a failure of the third kind, and its vote is
    INCONCLUSIVE with confidence 7000, not 0. *)
Lemma judge_failure_keeps_integer_confidence :
  ~ (forall (R : JsRuntime) (w : Settle.World) (prompt : string) (index : Z)
       (t : list Settle.Event) (vote : Settle.Vote) (t' : list Settle.Event),
       statedResult (Settle.generateContent w index) = None ->
       Settle.askGemini w prompt index t = (Ok vote, t') ->
       Settle.result vote = INCONCLUSIVE /\ Settle.confidence vote = 0).
Proof.
  intros Hclaim.
  pose (w := Settle.mkWorld (Ok JNull) None None None None (Ok tt)
               (fun _ => Throw (mkError None)) (Throw (mkError None))
               (Throw (mkError None)) (fun _ => Samples.judgeSays "MAYBE" 7000)
               false (Throw (mkError None)) (fun _ => 0) (Throw (mkError None))
               (Throw (mkError None)) (Throw (mkError None))).
  destruct (Hclaim Samples.runtime w EmptyString 1 []
              (Settle.mkVote INCONCLUSIVE 7000
                 (Settle.RawOf (Settle.mkGeminiResult
                                  (Ok (Samples.answerText "MAYBE" 7000)))))
              [Settle.EvGenerateContent 1 EmptyString])
    as [_ Hzero].
  - vm_compute. reflexivity.
  - vm_compute. reflexivity.
  - discriminate Hzero.
Qed.

(** ** Reasoning about handlers

    The rules for [post] follow the structure of a handler. *)

Section Postconditions.
Context {St : Type}.

Lemma post_ret {A} (a : A) (Q : A -> Prop) : Q a -> post (St := St) (ret a) Q.
Proof. intros HQ s. exact HQ. Qed.

Lemma post_throw {A} (e : JsError) (Q : A -> Prop) : post (St := St) (throw e) Q.
Proof. intros s. exact I. Qed.

Lemma post_bind {A B} (m : M St A) (k : A -> M St B) (P : A -> Prop) (Q : B -> Prop) :
  post m P -> (forall a, P a -> post (k a) Q) -> post (bind m k) Q.
Proof.
  intros Hm Hk s. unfold bind. specialize (Hm s).
  destruct (m s) as [[a|e] s']; simpl in *; [|exact I].
  apply (Hk a Hm s').
Qed.

Lemma post_any {A} (m : M St A) : post m (fun _ => True).
Proof. intros s. destruct (fst (m s)); exact I. Qed.

Lemma post_bind_any {A B} (m : M St A) (k : A -> M St B) (Q : B -> Prop) :
  (forall a, post (k a) Q) -> post (bind m k) Q.
Proof. intros Hk. apply (post_bind m k (fun _ => True)); auto using post_any. Qed.

Lemma post_try_catch {A} (m : M St A) (h : JsError -> M St A) (Q : A -> Prop) :
  post m Q -> (forall e, post (h e) Q) -> post (try_catch m h) Q.
Proof.
  intros Hm Hh s. unfold try_catch. specialize (Hm s).
  destruct (m s) as [[a|e] s']; simpl in *; [exact Hm|].
  apply (Hh e s').
Qed.

(** A handler whose [catch] answers with a response always answers. *)
Lemma try_catch_answers {A} (m : M St A) (f : JsError -> A) (s : St) :
  exists a s', try_catch m (fun e => ret (f e)) s = (Ok a, s').
Proof.
  unfold try_catch, ret. destruct (m s) as [[a|e] s']; eauto.
Qed.

End Postconditions.

Ltac post_step :=
  first
    [ apply post_ret
    | apply post_throw
    | apply post_try_catch; [|intros ?]
    | apply post_bind_any; intros ? ].

(** ** The discrete engine *)

Section DiscreteFacts.
Import OracleTypes Discrete.
Context `{JsRuntime}.

Lemma getProp_defined (v : JsValue) (key : string) :
  isNullish v = false -> exists x, getProp v key = Ok x.
Proof.
  unfold getProp. destruct v; try discriminate; intros _;
    destruct (ownProperty _ key); eauto.
Qed.

Lemma walk_total (parts : list string) (current : JsValue) :
  exists v, walk parts current = Ok v.
Proof.
  revert current. induction parts as [|part rest IH]; intros current; simpl.
  - eauto.
  - destruct (isNullish current) eqn:Hnull; [eauto|].
    destruct (getProp_defined current part Hnull) as [next ->]. apply IH.
Qed.



Lemma sound_fallback code error reason :
  reason <> EXTRACTION_ERROR -> sound (fallback code error reason).
Proof. intros Hr. exact Hr. Qed.

Lemma compareStep_sound d url data extracted context :
  sound (compareStep d url data extracted context).
Proof.
  unfold sound, compareStep. cbn.
  split; [|reflexivity].
  match goal with |- context [if ?b then YES else NO] => destruct b end; auto.
Qed.

Lemma buildUrl_sound (w : World) (d : DiscreteOracleSpec) :
  post (buildUrl w d) soundStep.
Proof.
  unfold buildUrl.
  destruct (category d); repeat post_step; try exact I.
  match goal with |- context [if ?b then _ else _] => destruct b end.
  - post_step. now apply sound_fallback.
  - repeat post_step.
    match goal with |- context [if ?b then _ else _] => destruct b end.
    + post_step. now apply sound_fallback.
    + post_step.
      match goal with |- post (match ?len with _ => _ end) _ => destruct len as [| | |[[| |]| | |]| | | |] end;
        repeat post_step; try exact I; now apply sound_fallback.
Qed.

Lemma sportsExtract_sound (data : JsValue) (team : SportsTeamData) :
  post (sportsExtract data team) soundStep.
Proof.
  unfold sportsExtract. repeat post_step.
  match goal with |- context [if ?b then _ else _] => destruct b end.
  - post_step. now apply sound_fallback.
  - repeat post_step. exact I.
Qed.

(** The [catch] around [extractValue] is never entered. *)
Lemma extractStep_value (d : DiscreteOracleSpec) (data : JsValue) (t : list Event) :
  exists v,
    extractValue data (extraction_path d) = Ok v /\
    try_catch
      (extracted <- lift (extractValue data (extraction_path d)) ;;
       ret (Continue (extracted, @None SportsContext)))%js
      (fun extractError =>
         ret (Return (fallback 500 "Value extraction failed" EXTRACTION_ERROR))) t
    = (Ok (Continue (v, None)), t).
Proof.
  unfold extractValue.
  destruct (walk_total (pathParts (stripRoot (extraction_path d))) data) as [v Hv].
  exists v. split; [exact Hv|].
  unfold try_catch, bind, lift, ret, extractValue. rewrite Hv. reflexivity.
Qed.

Lemma extractStep_sound (d : DiscreteOracleSpec) (team : option SportsTeamData)
    (data : JsValue) :
  post (extractStep d team data) soundStep.
Proof.
  intros t. unfold extractStep.
  destruct (category d), team;
    try (destruct (extractStep_value d data t) as (v & _ & ->); exact I).
  apply sportsExtract_sound.
Qed.

Lemma evaluate_sound d url team data : post (evaluate d url team data) sound.
Proof.
  unfold evaluate.
  eapply post_bind; [apply extractStep_sound|].
  intros [r|[v context]] Hs; repeat post_step.
  - exact Hs.
  - destruct (isNullish v); post_step.
    + now apply sound_fallback.
    + apply compareStep_sound.
Qed.

Lemma resolve_sound (w : World) (d : DiscreteOracleSpec) : post (resolve w d) sound.
Proof.
  unfold resolve.
  eapply post_bind; [apply buildUrl_sound|].
  intros [r|[url team]] Hs; repeat post_step.
  - exact Hs.
  - match goal with |- context [if ?b then _ else _] => destruct b end.
    + post_step. now apply sound_fallback.
    + post_step. apply evaluate_sound.
Qed.

Lemma POST_sound (w : World) : post (POST w) sound.
Proof.
  unfold POST. post_step.
  - repeat post_step.
    match goal with |- context [if ?b then _ else _] => destruct b end.
    + post_step. exact I.
    + post_step.
      match goal with |- post (match ?x with _ => _ end) _ => destruct x as [stored|] end.
      * post_step.
        match goal with |- post (match ?x with _ => _ end) _ => destruct x end.
        -- apply resolve_sound.
        -- post_step. now apply sound_fallback.
      * post_step. now apply sound_fallback.
  - post_step. unfold sound. simpl. discriminate.
Qed.

(** The engine never raises past its boundary. *)
Lemma POST_answers (w : World) (t : list Event) :
  exists r t', POST w t = (Ok r, t').
Proof. apply try_catch_answers. Qed.

End DiscreteFacts.

Section DiscreteClaims.
Import OracleTypes Discrete.
Context `{JsRuntime}.

(** C3.  Every successful discrete resolution has the outcome YES or NO,
    never INCONCLUSIVE, at a confidence of exactly 10000 basis points,
    whatever the category. *)
Theorem discrete_success_yes_or_no_at_10000
    (w : World) (t t' : list Event) (r : Response) (s : Success) :
  POST w t = (Ok r, t') ->
  body r = SuccessBody s ->
  (outcome s = YES \/ outcome s = NO) /\
  outcome s <> INCONCLUSIVE /\
  confidence s = 10000.
Proof.
  intros Hrun Hbody.
  pose proof (POST_sound w t) as Hs. rewrite Hrun in Hs. simpl in Hs.
  unfold sound in Hs. rewrite Hbody in Hs. destruct Hs as [Ho Hc].
  repeat split; try assumption.
  destruct Ho as [-> | ->]; discriminate.
Qed.


End DiscreteClaims.

(** The sports path: the team won, so the outcome is YES at 10000. *)
Lemma discrete_success_yes_or_no_at_10000_witness :
  exists r t' s,
    @Discrete.POST Samples.runtime Samples.sportsWorld [] = (Ok r, t') /\
    Discrete.body r = Discrete.SuccessBody s /\
    Discrete.outcome s = YES /\
    Discrete.confidence s = 10000.
Proof.
  destruct (@Discrete.POST Samples.runtime Samples.sportsWorld []) as [[r|e] t'] eqn:Hrun;
    [|vm_compute in Hrun; discriminate Hrun].
  destruct (Discrete.body r) as [e|e reason|s] eqn:Hbody;
    try (vm_compute in Hrun; injection Hrun as <- <-; discriminate Hbody).
  exists r, t', s.
  destruct (@discrete_success_yes_or_no_at_10000 Samples.runtime Samples.sportsWorld
              [] t' r s Hrun Hbody) as (_ & _ & Hc).
  repeat split; try assumption.
  vm_compute in Hrun. injection Hrun as <- <-.
  vm_compute in Hbody. injection Hbody as <-. reflexivity.
Defined.

(** Scenario A: the price 50000 is above 1. *)
Example scenario_A :
  exists s t',
    @Discrete.POST Samples.runtime Samples.priceWorld [] =
      (Ok (Discrete.mkResponse 200 (Discrete.SuccessBody s)), t') /\
    Discrete.outcome s = YES /\ Discrete.confidence s = 10000 /\
    Discrete.extractedValue s = JNum (Integer 50000).
Proof. vm_compute. eauto 10. Qed.

Example extractValue_samples :
  @Discrete.extractValue Samples.runtime Samples.priceData "$.bitcoin.usd"
    = Ok (JNum (Integer 50000)) /\
  @Discrete.extractValue Samples.runtime Samples.priceData "$.ethereum.usd"
    = Ok JUndefined /\
  @Discrete.extractValue Samples.runtime Samples.lastEventData "$.results[0].intHomeScore"
    = Ok (JStr "110") /\
  @Discrete.extractValue Samples.runtime Samples.lastEventData "results[3]['x']"
    = Ok JUndefined.
Proof. vm_compute. auto. Qed.

(** ** The settlement orchestrator *)

Section SettleFacts.
Import Settle.
Context `{JsRuntime}.

Lemma reports_app (a b : list Event) : reports (a ++ b) = reports a ++ reports b.
Proof. apply flat_map_app. Qed.

Lemma reports_In (evs : list Event) id code conf rid :
  In (EvOnReport id code conf rid) evs <-> In (id, code, conf, rid) (reports evs).
Proof.
  unfold reports. rewrite in_flat_map. split.
  - intros Hin. exists (EvOnReport id code conf rid). simpl. auto.
  - intros (ev & Hin & Hev). destruct ev; simpl in Hev; try contradiction.
    destruct Hev as [Heq|[]]. injection Heq as -> -> -> ->. exact Hin.
Qed.

Lemma validConfidence_integer (c : Z) :
  validConfidence (JNum (Integer c)) = Integer (clamp c).
Proof.
  unfold validConfidence, clamp, Math_min, Math_max, numGt, toNumber, truthy. simpl.
  destruct (Z.eqb_spec c 0) as [->|Hc]; simpl.
  - reflexivity.
  - rewrite !Z.mul_1_r.
    destruct (Z.ltb_spec c 0); simpl.
    + rewrite Z.max_r, Z.min_l by lia. reflexivity.
    + rewrite !Z.mul_1_r. rewrite Z.max_l by lia.
      destruct (Z.ltb_spec 10000 c).
      * rewrite Z.min_r by lia. reflexivity.
      * rewrite Z.min_l by lia. reflexivity.
Qed.

Lemma clamp_range (c : Z) : 0 <= clamp c <= 10000.
Proof. unfold clamp. lia. Qed.

Lemma outcomeEnum_map (o : Outcome) : outcomeEnum o = mapOutcomeToUint o.
Proof. destruct o; reflexivity. Qed.

Lemma tryDiscrete_spec (w : World) (marketId : JsValue) (t : list Event) :
  exists r,
    tryDiscrete w marketId t = (Ok r, t ++ [EvResolveDiscrete marketId]) /\ resolved r.
Proof.
  unfold tryDiscrete, try_catch, bind, call, lift, ret, record, list_traced.
  destruct (discreteService w) as [backend|e]; [|eexists; split; [reflexivity|exact I]].
  destruct (fst (run (Discrete.POST _))) as [response|e];
    [|eexists; split; [reflexivity|exact I]].
  destruct (Discrete.body response); eexists; (split; [reflexivity|]);
    unfold resolved; simpl; eauto.
Qed.

Lemma tryContiguous_spec (w : World) (question : string) (r : Resolution)
    (t : list Event) :
  resolved r ->
  exists r' evs p c,
    tryContiguous w question r t = (Ok r', t ++ evs) /\
    reports evs = [] /\
    parsed r' = Some p /\ parsed_confidence p = JNum (Integer c).
Proof.
  intros Hr. unfold tryContiguous. unfold resolved in Hr.
  destruct (parsed r) as [p|] eqn:Hp.
  - destruct Hr as [c Hc]. exists r, [], p, c. rewrite app_nil_r. auto.
  - destruct (unset (GEMINI_API_KEY w)).
    + do 4 eexists. unfold ret. rewrite app_nil_r.
      split; [reflexivity|]. split; [reflexivity|]. simpl. split; reflexivity.
    + destruct (includes "[CONSORTIUM]" question).
      * match goal with |- context [consortiumRound w ?prompt] =>
          destruct (consortiumRound_result w prompt t)
            as (v1 & v2 & v3 & v4 & v5 & raw & _ & E & _)
        end.
        cbv zeta in E. unfold bind. rewrite E. unfold ret.
        do 4 eexists. split; [reflexivity|]. split; [reflexivity|].
        simpl. split; reflexivity.
      * match goal with |- context [singleJudge w ?prompt] =>
          destruct (askGemini_spec w prompt 1 t) as (vote & E & _)
        end.
        unfold singleJudge, bind. rewrite E. unfold ret.
        do 4 eexists. split; [reflexivity|]. split; [reflexivity|].
        simpl. split; reflexivity.
Qed.

(** What [submit] does with a resolved result [p]: at most one report,
    carrying the code of its outcome and its clamped confidence. *)
Lemma submit_spec (w : World) (marketId : JsValue) (question : string)
    (r : Resolution) (p : Parsed) (t : list Event) :
  parsed r = Some p ->
  exists answer evs,
    submit w marketId question r t = (answer, t ++ evs) /\
    (reports evs = [] \/
     exists id rid,
       reports evs =
         [(id, outcomeEnum (parsed_result p), validConfidence (parsed_confidence p), rid)]) /\
    (forall response, answer = Ok response ->
       exists hash id rid,
         response = mkResponse 200 (SuccessBody hash p) /\
         reports evs =
           [(id, outcomeEnum (parsed_result p), validConfidence (parsed_confidence p), rid)]).
Proof.
  intros Hp. unfold submit. rewrite Hp.
  unfold try_catch, bind, call, lift, ret, record, list_traced.
  destruct (getNetwork w) as [chainId|e].
  2:{ do 2 eexists. split; [reflexivity|]. split; [left; reflexivity|discriminate]. }
  destruct (BigInt marketId) as [id|e].
  2:{ do 2 eexists. split; [reflexivity|]. split; [left; reflexivity|discriminate]. }
  destruct (writeContract w) as [hash|e].
  2:{ do 2 eexists. rewrite <- app_assoc. split; [reflexivity|].
      split; [right; simpl; eauto|discriminate]. }
  destruct (signInAnonymously w); [destruct (setDoc w)|];
    do 2 eexists; rewrite <- ?app_assoc;
    (split; [reflexivity|]);
    (split; [right; simpl; eauto|]);
    intros response [= <-]; simpl; eauto.
Qed.

(** The shape of a run of the handler: it submits no report, or exactly
    the report of the result it resolved. *)
Lemma POST_reports (w : World) :
  exists answer evs,
    POST w [] = (Ok answer, evs) /\
    ((reports evs = [] /\ forall hash p, answer <> mkResponse 200 (SuccessBody hash p)) \/
     exists p c id rid,
       parsed_confidence p = JNum (Integer c) /\
       reports evs =
         [(id, outcomeEnum (parsed_result p), validConfidence (parsed_confidence p), rid)] /\
       forall hash p', answer = mkResponse 200 (SuccessBody hash p') -> p' = p).
Proof.
  unfold POST.
  unfold try_catch at 1. unfold bind at 1. unfold lift at 1.
  destruct (request_json w) as [requestBody|e].
  2:{ do 2 eexists. split; [reflexivity|]. left. split; [reflexivity|discriminate]. }
  unfold bind at 1. unfold lift at 1.
  destruct (getProp requestBody "marketId") as [marketId|e].
  2:{ do 2 eexists. split; [reflexivity|]. left. split; [reflexivity|discriminate]. }
  destruct (isUndefined marketId).
  { do 2 eexists. split; [reflexivity|]. left. split; [reflexivity|discriminate]. }
  unfold bind at 1. unfold lift at 1.
  destruct (BigInt marketId) as [marketIdBigInt|e].
  2:{ do 2 eexists. split; [reflexivity|]. left. split; [reflexivity|discriminate]. }
  destruct (unset (RPC_URL w) || unset (CRE_ETH_PRIVATE_KEY w)
            || unset (NEXT_PUBLIC_MARKET_ADDRESS w)).
  { do 2 eexists. split; [reflexivity|]. left. split; [reflexivity|discriminate]. }
  unfold bind at 1. unfold lift at 1.
  destruct (connect w) as [[]|e].
  2:{ do 2 eexists. split; [reflexivity|]. left. split; [reflexivity|discriminate]. }
  unfold bind at 1. unfold call at 1.
  destruct (getMarket w 0) as [marketData|e].
  2:{ do 2 eexists. split; [reflexivity|]. left. split; [reflexivity|discriminate]. }
  unfold bind at 1.
  set (pre1 := record (EvGetMarket marketIdBigInt) []).
  assert (Hrequest :
    exists evs1,
      reports evs1 = [] /\
      ((exists e,
          (if status marketData =? 0
           then (tx <- call (EvRequestSettlement marketId) (requestSettlement w) ;; ret ())%js
           else ret ()) pre1 = (Throw e, evs1)) \/
       (if status marketData =? 0
        then (tx <- call (EvRequestSettlement marketId) (requestSettlement w) ;; ret ())%js
        else ret ()) pre1 = (Ok (), evs1))).
  { destruct (status marketData =? 0).
    - unfold bind, call, ret.
      destruct (requestSettlement w); eexists; (split; [|eauto]); reflexivity.
    - unfold ret. eexists; (split; [|eauto]); reflexivity. }
  destruct Hrequest as (evs1 & Hrep1 & [[e ->]| ->]).
  { do 2 eexists. split; [reflexivity|]. left. split; [assumption|discriminate]. }
  unfold bind at 1. unfold call at 1.
  destruct (getMarket w 1) as [updatedMarketData|e].
  2:{ do 2 eexists. split; [reflexivity|]. left.
      split; [|discriminate]. unfold record, list_traced. rewrite reports_app, Hrep1.
      reflexivity. }
  unfold bind at 1.
  destruct (tryDiscrete_spec w marketId (record (EvGetMarket marketIdBigInt) evs1))
    as (r1 & -> & Hr1).
  unfold bind at 1.
  destruct (tryContiguous_spec w (question updatedMarketData) r1
              (record (EvGetMarket marketIdBigInt) evs1 ++ [EvResolveDiscrete marketId]) Hr1)
    as (r2 & evs2 & p & c & -> & Hrep2 & Hp & Hc).
  destruct (submit_spec w marketId (question updatedMarketData) r2 p
              ((record (EvGetMarket marketIdBigInt) evs1 ++ [EvResolveDiscrete marketId])
                 ++ evs2) Hp)
    as (answer & evs3 & -> & Hrep3 & Hanswer).
  assert (Hpre : reports ((record (EvGetMarket marketIdBigInt) evs1
                             ++ [EvResolveDiscrete marketId]) ++ evs2 ++ evs3)
                 = reports evs3).
  { unfold record, list_traced. rewrite !reports_app, Hrep1, Hrep2. reflexivity. }
  rewrite <- app_assoc.
  destruct answer as [response|e].
  - destruct (Hanswer response eq_refl) as (hash & id & rid & -> & Hrep).
    do 2 eexists. split; [reflexivity|]. right.
    exists p, c, id, rid. rewrite Hpre. split; [assumption|]. split; [assumption|].
    intros hash' p' [= _ ->]. reflexivity.
  - do 2 eexists. split; [reflexivity|].
    destruct Hrep3 as [Hnone|(id & rid & Hone)].
    + left. unfold ret. simpl. rewrite Hpre. split; [assumption|discriminate].
    + right. exists p, c, id, rid. unfold ret. simpl. rewrite Hpre.
      split; [assumption|]. split; [assumption|]. discriminate.
Qed.

End SettleFacts.

Section SettleClaims.
Import Settle.
Context `{JsRuntime}.

(** C8.  Every report the handler submits carries the outcome code
    NO = 1, YES = 2, INCONCLUSIVE = 3, never 0, and the resolved
    confidence clamped into 0..10000; a confidence that is missing or not
    a number counts as 0. *)
Theorem settlement_report_encoding
    (w : World) (id code : Z) (conf : JsNumber) (rid : string) :
  In (EvOnReport id code conf rid) (snd (POST w [])) ->
  (exists (o : Outcome) (c : Z),
     code = mapOutcomeToUint o /\
     code = match o with NO => 1 | YES => 2 | INCONCLUSIVE => 3 end /\
     code <> 0 /\
     conf = validConfidence (JNum (Integer c)) /\
     conf = Integer (Z.min (Z.max c 0) 10000) /\
     0 <= Z.min (Z.max c 0) 10000 <= 10000 /\
     (forall hash p,
        fst (POST w []) = Ok (mkResponse 200 (SuccessBody hash p)) ->
        parsed_result p = o /\ parsed_confidence p = JNum (Integer c))) /\
  validConfidence JUndefined = Integer 0 /\
  validConfidence JNull = Integer 0 /\
  validConfidence (JNum NaN) = Integer 0.
Proof.
  intros Hin. split; [|repeat split; reflexivity].
  destruct (POST_reports w) as (answer & evs & Hrun & Hshape).
  rewrite Hrun in *. simpl in Hin. apply reports_In in Hin.
  destruct Hshape as [[Hnone _]|(p & c & id' & rid' & Hc & Hone & Hanswer)].
  - rewrite Hnone in Hin. contradiction.
  - rewrite Hone in Hin. destruct Hin as [Heq|[]].
    injection Heq as <- <- <- <-.
    exists (parsed_result p), c. rewrite Hc, validConfidence_integer.
    split; [apply outcomeEnum_map|].
    split; [destruct (parsed_result p); reflexivity|].
    split; [destruct (parsed_result p); discriminate|].
    split; [reflexivity|]. split; [reflexivity|].
    split; [apply clamp_range|].
    intros hash p0 Hok. simpl in Hok. injection Hok as Hok.
    rewrite (Hanswer hash p0 Hok). auto.
Qed.

End SettleClaims.

Lemma settlement_report_encoding_witness :
  In (Settle.EvOnReport 7 2 (Integer 10000) "gemini-1700000000000")
     (snd (@Settle.POST Samples.runtime Samples.openPriceWorld [])) /\
  exists o c,
    2 = match o with NO => 1 | YES => 2 | INCONCLUSIVE => 3 end /\
    Integer 10000 = Integer (Z.min (Z.max c 0) 10000).
Proof.
  assert (Hin : In (Settle.EvOnReport 7 2 (Integer 10000) "gemini-1700000000000")
                  (snd (@Settle.POST Samples.runtime Samples.openPriceWorld []))).
  { vm_compute. tauto. }
  split; [exact Hin|].
  destruct (@settlement_report_encoding Samples.runtime Samples.openPriceWorld
              7 2 (Integer 10000) "gemini-1700000000000" Hin)
    as [(o & c & _ & Hcode & _ & _ & Hconf & _) _].
  exists o, c. split; assumption.
Defined.

(** C1, at its failing input.  Market 7 is Settled (status 2) and tagged
    for the consortium.  The handler does not reject the request: it skips
    only [requestSettlement], calls the discrete engine, summons the five
    judges, submits [onReport] and answers with a success. *)
Theorem settle_on_settled_market_resolves_and_reports :
  Settle.getMarket Samples.settledWorld 0 =
    Ok (Settle.mkMarket "Will it rain tomorrow? [CONSORTIUM]" 2) /\
  exists p record,
    @Settle.POST Samples.runtime Samples.settledWorld [] =
      (Ok (Settle.mkResponse 200 (Settle.SuccessBody "0xreport" p)),
       let prompt :=
         "Market Question: " +:+ Samples.quoted "Will it rain tomorrow?"
           +:+ ". Has this happened? Return JSON." in
       [Settle.EvGetMarket 7; Settle.EvGetMarket 7;
        Settle.EvResolveDiscrete (JStr "7");
        Settle.EvGenerateContent 1 prompt; Settle.EvGenerateContent 2 prompt;
        Settle.EvGenerateContent 3 prompt; Settle.EvGenerateContent 4 prompt;
        Settle.EvGenerateContent 5 prompt;
        Settle.EvGetNetwork;
        Settle.EvOnReport 7 3 (Integer 7000) "gemini-1700000000000";
        Settle.EvSignIn;
        Settle.EvSetDoc "gemini-1700000000000" record]) /\
    Settle.parsed_result p = INCONCLUSIVE /\
    Settle.parsed_confidence p = JNum (Integer 7000).
Proof.
  split; [reflexivity|]. vm_compute. eauto.
Qed.

(** ** Market creation *)

Section CreateFacts.
Import Create.
Context `{JsRuntime}.
Variable CLASSIFICATION_PROMPT : string.

Lemma logged_logged (a b : list Event) (st : State) :
  logged b (logged a st) = logged (a ++ b) st.
Proof. unfold logged. simpl. now rewrite app_assoc. Qed.

(** One turn of the retry loop. *)
Lemma newMarketLoop_turn (w : World) (q : JsValue) (d : JsNumber) (nonce : Z)
    (remaining : nat) (st : State) :
  let attempts := maxAttempts - Z.of_nat (S remaining) in
  newMarketLoop w q d nonce (S remaining) st =
  match attempt w (nonce + attempts) with
  | Ok tx => (Ok (Some tx), logged (attemptCalls w q d (nonce + attempts)) st)
  | Throw e =>
      if isNonceError e && (attempts + 1 <? maxAttempts) then
        newMarketLoop w q d nonce remaining
          (logged (attemptCalls w q d (nonce + attempts) ++ [EvSleep 1000]) st)
      else (Throw e, logged (attemptCalls w q d (nonce + attempts)) st)
  end.
Proof.
  intros attempts. subst attempts. cbn [newMarketLoop].
  unfold try_catch, bind, call, ret, throw, attempt, attemptCalls, logged,
    record, state_traced.
  destruct (newMarket w _) as [tx|e]; simpl.
  - destruct (wait tx) as [[]|e]; simpl.
    + rewrite <- app_assoc. reflexivity.
    + destruct (isNonceError e && _); simpl.
      * f_equal. destruct st. simpl. rewrite <- !app_assoc. reflexivity.
      * rewrite <- app_assoc. reflexivity.
  - destruct (isNonceError e && _); simpl.
    + f_equal. destruct st. simpl. rewrite <- !app_assoc. reflexivity.
    + reflexivity.
Qed.

(** C6.  The creation transaction is attempted at most three times.
    The attempts use the nonces [nonce], [nonce + 1], [nonce + 2] in this
    order; a further attempt is made only after a failure classified as a
    nonce conflict, and after a wait of 1000 ms; a failure of another kind,
    or a failure of the third attempt, ends the loop with that failure.
    In the handler, [nonce] is the pending transaction count. *)
Theorem creation_retry_policy (w : World) (q : JsValue) (d : JsNumber) (nonce : Z)
    (st : State) :
  (exists (k : nat) (outcome : Exc (option Tx)) (st' : State),
     newMarketLoop w q d nonce (Z.to_nat maxAttempts) st = (outcome, st') /\
     (1 <= k <= 3)%nat /\
     trace st' = trace st ++ retryCalls w q d nonce (k - 1) /\
     oracle_specs st' = oracle_specs st /\
     (forall i, (i < k - 1)%nat ->
        exists e, attempt w (nonce + Z.of_nat i) = Throw e /\ isNonceError e = true) /\
     match attempt w (nonce + Z.of_nat (k - 1)) with
     | Ok tx => outcome = Ok (Some tx)
     | Throw e => outcome = Throw e /\ (isNonceError e = false \/ k = 3%nat)
     end) /\
  (forall base,
     getTransactionCount w = Ok base ->
     exists evs,
       trace (snd (createOnChain w st)) = trace st ++ evs /\
       (evs = [] \/ evs = [EvNextMarketId] \/
        exists q' d' k,
          (1 <= k <= 3)%nat /\
          evs = [EvNextMarketId; EvGetTransactionCount]
                  ++ retryCalls w q' d' base (k - 1))).
Proof.
  assert (Hloop : forall q d nonce st,
    exists (k : nat) (outcome : Exc (option Tx)) (st' : State),
     newMarketLoop w q d nonce (Z.to_nat maxAttempts) st = (outcome, st') /\
     (1 <= k <= 3)%nat /\
     st' = logged (retryCalls w q d nonce (k - 1)) st /\
     (forall i, (i < k - 1)%nat ->
        exists e, attempt w (nonce + Z.of_nat i) = Throw e /\ isNonceError e = true) /\
     match attempt w (nonce + Z.of_nat (k - 1)) with
     | Ok tx => outcome = Ok (Some tx)
     | Throw e => outcome = Throw e /\ (isNonceError e = false \/ k = 3%nat)
     end).
  { clear q d nonce st. intros q d nonce st.
    change (Z.to_nat maxAttempts) with 3%nat.
    rewrite newMarketLoop_turn. change (maxAttempts - Z.of_nat 3) with 0.
    rewrite Z.add_0_r.
    assert (Hone : retryCalls w q d nonce (1 - 1) = attemptCalls w q d nonce)
      by apply app_nil_r.
    assert (Htwo : retryCalls w q d nonce (2 - 1)
                   = (attemptCalls w q d nonce ++ [EvSleep 1000])
                       ++ attemptCalls w q d (nonce + 1)).
    { change (2 - 1)%nat with 1%nat. cbn [retryCalls].
      rewrite app_nil_r, <- app_assoc. reflexivity. }
    assert (Hthree : retryCalls w q d nonce (3 - 1)
                     = ((attemptCalls w q d nonce ++ [EvSleep 1000])
                          ++ attemptCalls w q d (nonce + 1) ++ [EvSleep 1000])
                         ++ attemptCalls w q d (nonce + 2)).
    { change (3 - 1)%nat with 2%nat. cbn [retryCalls]. rewrite app_nil_r.
      replace (nonce + 1 + 1) with (nonce + 2) by lia.
      rewrite <- !app_assoc. reflexivity. }
    destruct (attempt w nonce) as [tx1|e1] eqn:A1.
    { exists 1%nat. do 2 eexists. split; [reflexivity|]. split; [lia|].
      change (nonce + Z.of_nat (1 - 1)) with (nonce + 0). rewrite Z.add_0_r, A1, Hone.
      split; [reflexivity|]. split; [|reflexivity]. intros i Hi. lia. }
    change (0 + 1 <? maxAttempts) with true. rewrite andb_true_r.
    destruct (isNonceError e1) eqn:N1.
    2:{ exists 1%nat. do 2 eexists. split; [reflexivity|]. split; [lia|].
        change (nonce + Z.of_nat (1 - 1)) with (nonce + 0). rewrite Z.add_0_r, A1, Hone.
        split; [reflexivity|]. split; [|auto]. intros i Hi. lia. }
    assert (Hfirst : forall i, (i < 2 - 1)%nat ->
              exists e, attempt w (nonce + Z.of_nat i) = Throw e /\ isNonceError e = true).
    { intros i Hi. assert (i = 0%nat) as -> by lia. rewrite Z.add_0_r. eauto. }
    rewrite newMarketLoop_turn. change (maxAttempts - Z.of_nat 2) with 1.
    destruct (attempt w (nonce + 1)) as [tx2|e2] eqn:A2.
    { exists 2%nat. do 2 eexists. split; [reflexivity|]. split; [lia|].
      change (nonce + Z.of_nat (2 - 1)) with (nonce + 1).
      rewrite A2, logged_logged, Htwo.
      split; [reflexivity|]. split; [exact Hfirst|reflexivity]. }
    change (1 + 1 <? maxAttempts) with true. rewrite andb_true_r.
    destruct (isNonceError e2) eqn:N2.
    2:{ exists 2%nat. do 2 eexists. split; [reflexivity|]. split; [lia|].
        change (nonce + Z.of_nat (2 - 1)) with (nonce + 1).
        rewrite A2, logged_logged, Htwo.
        split; [reflexivity|]. split; [exact Hfirst|auto]. }
    rewrite newMarketLoop_turn. change (maxAttempts - Z.of_nat 1) with 2.
    exists 3%nat. change (nonce + Z.of_nat (3 - 1)) with (nonce + 2).
    assert (Hfailed : forall i, (i < 3 - 1)%nat ->
              exists e, attempt w (nonce + Z.of_nat i) = Throw e /\ isNonceError e = true).
    { intros i Hi. assert (i = 0 \/ i = 1)%nat as [-> | ->] by lia.
      - rewrite Z.add_0_r. eauto.
      - change (nonce + Z.of_nat 1) with (nonce + 1). eauto. }
    destruct (attempt w (nonce + 2)) as [tx3|e3] eqn:A3.
    - do 2 eexists. split; [reflexivity|]. split; [lia|].
      rewrite !logged_logged, Hthree, <- !app_assoc.
      split; [reflexivity|]. split; [exact Hfailed|reflexivity].
    - replace (isNonceError e3 && (2 + 1 <? maxAttempts)) with false
        by (rewrite andb_false_r; reflexivity).
      do 2 eexists. split; [reflexivity|]. split; [lia|].
      rewrite !logged_logged, Hthree, <- !app_assoc.
      split; [reflexivity|]. split; [exact Hfailed|auto]. }
  split.
  - destruct (Hloop q d nonce st) as (k & outcome & st' & E & Hk & -> & Hfailed & Hlast).
    exists k, outcome. eexists. split; [exact E|]. split; [exact Hk|].
    split; [reflexivity|]. split; [reflexivity|]. split; assumption.
  - intros base Hbase. unfold createOnChain.
    unfold bind at 1. unfold lift at 1.
    destruct (request_json w) as [requestBody|e]; [|exists []; rewrite app_nil_r; auto].
    unfold bind at 1. unfold lift at 1.
    destruct (getProp requestBody "question") as [question|e];
      [|exists []; rewrite app_nil_r; auto].
    unfold bind at 1. unfold lift at 1.
    destruct (getProp requestBody "duration") as [duration|e];
      [|exists []; rewrite app_nil_r; auto].
    unfold bind at 1. unfold lift at 1.
    destruct (getProp requestBody "isConsortium") as [isConsortium|e];
      [|exists []; rewrite app_nil_r; auto].
    destruct (negb (truthy question)); [exists []; rewrite app_nil_r; auto|].
    destruct (Settle.unset (RPC_URL w) || Settle.unset (CRE_ETH_PRIVATE_KEY w)
              || Settle.unset (NEXT_PUBLIC_MARKET_ADDRESS w));
      [exists []; rewrite app_nil_r; auto|].
    unfold bind at 1. unfold lift at 1.
    destruct (connect w) as [[]|e]; [|exists []; rewrite app_nil_r; auto].
    unfold bind at 1. unfold call at 1.
    destruct (nextMarketId w) as [nextId|e]; [|exists [EvNextMarketId]; auto].
    unfold bind at 1. unfold call at 1. rewrite Hbase.
    unfold bind at 1.
    match goal with
    | |- context [newMarketLoop w ?fq ?md base _ ?s] =>
        destruct (Hloop fq md base s)
          as (k & outcome & st' & -> & Hk & -> & _ & _);
        exists ([EvNextMarketId; EvGetTransactionCount] ++ retryCalls w fq md base (k - 1));
        split; [|right; right; exists fq, md, k; auto]
    end.
    destruct outcome as [[tx|]|e]; simpl; rewrite <- !app_assoc; reflexivity.
Qed.


End CreateFacts.




(** ** Admin manual settlement *)

Section TraceInvariants.
Context {E : Type}.






End TraceInvariants.




Section AdminClaims.
Import Admin.
Context `{JsRuntime}.






End AdminClaims.



(** ** Further checks on the sample worlds *)

(** The handler has no branch for a Settled market: the status only
    decides whether [requestSettlement] is sent, so a market with status 2
    is handled exactly as one with status 1. *)
Lemma settled_is_handled_as_requested (R : JsRuntime) (w : Settle.World)
    (m : Settle.Market) :
  Settle.getMarket w 0 = Ok m ->
  Settle.status m = 2 ->
  Settle.POST w [] =
  Settle.POST
    (Settle.mkWorld (Settle.request_json w) (Settle.RPC_URL w)
       (Settle.CRE_ETH_PRIVATE_KEY w) (Settle.NEXT_PUBLIC_MARKET_ADDRESS w)
       (Settle.GEMINI_API_KEY w) (Settle.connect w)
       (fun read =>
          match read with
          | O => Ok (Settle.mkMarket (Settle.question m) 1)
          | S _ => Settle.getMarket w read
          end)
       (Settle.requestSettlement w) (Settle.discreteService w)
       (Settle.generateContent w) (Settle.randomIndex w) (Settle.getNetwork w)
       (Settle.now w) (Settle.writeContract w) (Settle.signInAnonymously w)
       (Settle.setDoc w))
    [].
Proof.
  intros Hread Hstatus.
  unfold Settle.POST, try_catch, bind, lift, call. cbn [Settle.request_json].
  destruct (Settle.request_json w) as [requestBody|e]; [|reflexivity].
  destruct (getProp requestBody "marketId") as [marketId|e]; [|reflexivity].
  destruct (Settle.isUndefined marketId); [reflexivity|].
  destruct (BigInt marketId) as [marketIdBigInt|e]; [|reflexivity].
  cbn [Settle.RPC_URL Settle.CRE_ETH_PRIVATE_KEY Settle.NEXT_PUBLIC_MARKET_ADDRESS
       Settle.connect Settle.getMarket Settle.status].
  rewrite Hread, Hstatus. reflexivity.
Qed.

Lemma creation_retry_policy_witness :
  exists k outcome st',
    Create.newMarketLoop Samples.createWorld
      (JStr "Will it rain tomorrow?") (Integer 60) 42 (Z.to_nat Create.maxAttempts)
      Samples.emptyStore = (outcome, st') /\
    k = 2%nat /\
    outcome = Ok (Some (Create.mkTx "0xcreate" (Ok tt))) /\
    Create.trace st' =
      [Create.EvNewMarket (JStr "Will it rain tomorrow?") (Integer 60) 42 500000;
       Create.EvSleep 1000;
       Create.EvNewMarket (JStr "Will it rain tomorrow?") (Integer 60) 43 500000;
       Create.EvWait "0xcreate"].
Proof.
  destruct (@creation_retry_policy Samples.runtime Samples.createWorld
              (JStr "Will it rain tomorrow?") (Integer 60) 42 Samples.emptyStore)
    as [(k & outcome & st' & Hrun & _) _].
  exists 2%nat, outcome, st'. split; [exact Hrun|]. split; [reflexivity|].
  vm_compute in Hrun. injection Hrun as <- <-. split; reflexivity.
Defined.


(** The winner on a few tallies of five votes. *)
Example determineWinner_samples :
  Settle.determineWinner [(YES, 5); (NO, 0); (INCONCLUSIVE, 0)] = YES /\
  Settle.determineWinner [(YES, 2); (NO, 3); (INCONCLUSIVE, 0)] = NO /\
  Settle.determineWinner [(YES, 2); (NO, 2); (INCONCLUSIVE, 1)] = INCONCLUSIVE /\
  Settle.determineWinner [(YES, 2); (NO, 1); (INCONCLUSIVE, 2)] = INCONCLUSIVE /\
  Settle.determineWinner [(YES, 1); (NO, 1); (INCONCLUSIVE, 3)] = INCONCLUSIVE /\
  Settle.determineWinner [(YES, 0); (NO, 0); (INCONCLUSIVE, 5)] = INCONCLUSIVE /\
  Settle.tallyVotes Samples.scenarioC = [(YES, 2); (NO, 2); (INCONCLUSIVE, 1)] /\
  Settle.avgConfidence Samples.scenarioC = 7000.
Proof. repeat split; reflexivity. Qed.

(** Scenario D: the team search finds no team, the engine falls back with
    [SPORTS_TEAM_NOT_FOUND] after the one search call. *)
Example scenario_D :
  @Discrete.POST Samples.runtime
    (Discrete.mkWorld Samples.discreteRequest (fun _ => Samples.stored Samples.sportsSpec)
       (fun _ _ => Samples.feed (JObj [("teams", JNull)])))
    [] =
  (Ok (Discrete.fallback 404 "Team not found: Los Angeles Lakers"
         Discrete.SPORTS_TEAM_NOT_FOUND),
   [Discrete.EvGetDoc (JStr "7");
    Discrete.EvFetch
      "https://www.thesportsdb.com/api/v1/json/3/searchteams.php?t=Los Angeles Lakers"]).
Proof. reflexivity. Qed.

(** Scenario B: a question without the consortium tag is answered by one
    judge, whose answer is passed through. *)
Example scenario_B :
  exists p record,
    @Settle.POST Samples.runtime
      (Samples.settleWorld 1 "Will it rain tomorrow?" Samples.noSpecBackend
         (fun _ => Samples.judgeSays "NO" 6001))
      [] =
    (Ok (Settle.mkResponse 200 (Settle.SuccessBody "0xreport" p)),
     [Settle.EvGetMarket 7; Settle.EvGetMarket 7; Settle.EvResolveDiscrete (JStr "7");
      Settle.EvGenerateContent 1
        ("Market Question: " +:+ Samples.quoted "Will it rain tomorrow?"
           +:+ ". Has this happened? Return JSON.");
      Settle.EvGetNetwork;
      Settle.EvOnReport 7 1 (Integer 6001) "gemini-1700000000000";
      Settle.EvSignIn;
      Settle.EvSetDoc "gemini-1700000000000" record]) /\
    Settle.parsed_result p = NO /\
    Settle.parsed_confidence p = JNum (Integer 6001).
Proof. vm_compute. eauto. Qed.

(** An admin request with a valid password and the outcome YES settles a
    NeedsManual market with the code 2. *)
Example admin_settles_yes :
  exists answer,
    @Admin.POST Samples.runtime (Samples.adminWorld "YES" "admin") [] =
      (Ok (Admin.mkResponse 200 answer),
       [Admin.EvGetMarket (JStr "7");
        Admin.EvSettleMarketManually (JStr "7") 2;
        Admin.EvWait "0xmanual";
        Admin.EvSignIn;
        Admin.EvGetDocs Admin.settlements;
        Admin.EvSetDoc Admin.settlements "admin-1700000000000"
          (Admin.mkOverride (JStr "YES") 10000 (JStr "https://example.org/report")
             (JStr EmptyString) "0xmanual" 1700000000000);
        Admin.EvGetDocs Admin.demo;
        Admin.EvSetDoc Admin.demo "admin-1700000000000"
          (Admin.mkOverride (JStr "YES") 10000 (JStr "https://example.org/report")
             (JStr EmptyString) "0xmanual" 1700000000000)]).
Proof. vm_compute. eauto. Qed.

(** * Further properties of the code *)

(** ** The discrete engine: answers, calls and evidence *)

Section Silence.
Context {E : Type}.

Lemma silent_ret {A} (a : A) : silent (E := E) (ret a).
Proof. intros t. reflexivity. Qed.

Lemma silent_lift {A} (x : Exc A) : silent (E := E) (lift x).
Proof. intros t. reflexivity. Qed.

Lemma silent_bind {A B} (m : M (list E) A) (k : A -> M (list E) B) :
  silent m -> (forall a, silent (k a)) -> silent (bind m k).
Proof.
  intros Hm Hk t. unfold bind. specialize (Hm t).
  destruct (m t) as [[a|e] t']; simpl in *; subst; [apply Hk|reflexivity].
Qed.

Lemma silent_try_catch {A} (m : M (list E) A) (h : JsError -> M (list E) A) :
  silent m -> (forall e, silent (h e)) -> silent (try_catch m h).
Proof.
  intros Hm Hh t. unfold try_catch. specialize (Hm t).
  destruct (m t) as [[a|e] t']; simpl in *; subst; [reflexivity|apply Hh].
Qed.

End Silence.

Ltac silent_auto :=
  repeat first
    [ apply silent_ret
    | apply silent_lift
    | apply silent_bind; [|intros ?]
    | apply silent_try_catch; [|intros ?]
    | match goal with |- silent (if ?b then _ else _) => destruct b end
    | match goal with |- silent (match ?x with _ => _ end) => destruct x end ].

Section Runs.
Context {E : Type}.

Lemma bind_call {A B} (ev : E) (answer : Exc A) (k : A -> M (list E) B) (t : list E) :
  bind (call ev answer) k t =
  match answer with
  | Ok a => k a (t ++ [ev])
  | Throw e => (Throw e, t ++ [ev])
  end.
Proof. unfold bind, call. destruct answer; reflexivity. Qed.

Lemma bind_lift {St A B} (x : Exc A) (k : A -> M St B) (s : St) :
  bind (lift x) k s =
  match x with
  | Ok a => k a s
  | Throw e => (Throw e, s)
  end.
Proof. unfold bind, lift. destruct x; reflexivity. Qed.

End Runs.

Section EngineCoverage.
Import OracleTypes Discrete.
Context `{JsRuntime}.

Lemma sportsExtract_silent data team : silent (sportsExtract data team).
Proof. unfold sportsExtract. silent_auto. Qed.

Lemma evaluate_silent d url team data : silent (evaluate d url team data).
Proof.
  unfold evaluate, extractStep. silent_auto; apply sportsExtract_silent.
Qed.

(** *** The answer table *)

Lemma buildUrl_tabled (w : World) (d : DiscreteOracleSpec) :
  post (buildUrl w d) tabledStep.
Proof.
  unfold buildUrl.
  destruct (category d); repeat post_step; try exact I.
  match goal with |- context [if ?b then _ else _] => destruct b end.
  - post_step. reflexivity.
  - repeat post_step.
    match goal with |- context [if ?b then _ else _] => destruct b end.
    + post_step. reflexivity.
    + post_step.
      match goal with
      | |- post (match ?len with _ => _ end) _ => destruct len as [| | |[[| |]| | |]| | | |]
      end; repeat post_step; try exact I; reflexivity.
Qed.

Lemma evaluate_tabled d url team data : post (evaluate d url team data) tabled.
Proof.
  unfold evaluate.
  apply post_bind with (P := tabledStep).
  - unfold extractStep.
    destruct (category d), team; try (post_step; [repeat post_step; exact I|post_step; reflexivity]).
    unfold sportsExtract. repeat post_step.
    match goal with |- context [if ?b then _ else _] => destruct b end.
    + post_step. reflexivity.
    + repeat post_step. exact I.
  - intros [r|[v context]] Hs; repeat post_step; [exact Hs|].
    destruct (isNullish v); post_step; reflexivity.
Qed.

Lemma POST_tabled (w : World) : post (POST w) tabled.
Proof.
  unfold POST. post_step.
  - repeat post_step.
    match goal with |- context [if ?b then _ else _] => destruct b end.
    + post_step. split; reflexivity.
    + post_step.
      match goal with |- post (match ?x with _ => _ end) _ => destruct x as [stored|] end.
      * post_step.
        match goal with |- post (match ?x with _ => _ end) _ => destruct x end.
        -- unfold resolve.
           eapply post_bind; [apply buildUrl_tabled|].
           intros [r|[url team]] Hs; repeat post_step; [exact Hs|].
           match goal with |- context [if ?b then _ else _] => destruct b end.
           ++ post_step. reflexivity.
           ++ post_step. apply evaluate_tabled.
        -- post_step. reflexivity.
      * post_step. reflexivity.
  - post_step. reflexivity.
Qed.

(** X1.  The discrete engine always answers, whatever the request, the
    store and the feeds do, and its answers follow one table: a success
    has status 200; a fallback has the status of its reason (404 for a
    missing spec or team, 400 for a contiguous spec, 502 for a failed feed
    or team search, 500 for no recent game, no value and every unexpected
    error); the only other answer is status 400 for a request without a
    market id. *)
Theorem discrete_engine_answer_table (w : World) (t : list Event) :
  exists r t',
    POST w t = (Ok r, t') /\
    match body r with
    | SuccessBody _ => status r = 200
    | FallbackBody _ reason => status r = statusOf reason
    | ErrorBody error => status r = 400 /\ error = "marketId required"
    end.
Proof.
  destruct (POST_answers w t) as (r & t' & Hrun).
  exists r, t'. split; [exact Hrun|].
  pose proof (POST_tabled w t) as Ht. rewrite Hrun in Ht. exact Ht.
Qed.

(** *** The evidence of a success *)

Lemma post_call {E St} `{Traced E St} {A} (ev : E) (answer : Exc A) :
  post (call ev answer) (fun a => answer = Ok a).
Proof. intros s. unfold call. simpl. destruct answer; [reflexivity|exact I]. Qed.

Lemma post_lift {St A} (x : Exc A) : post (St := St) (lift x) (fun a => x = Ok a).
Proof. intros s. unfold lift. simpl. destruct x; [reflexivity|exact I]. Qed.

Lemma sportsExtract_verdict (data : JsValue) (team : SportsTeamData) :
  post (sportsExtract data team)
    (fun step => match step with
                 | Continue x => sportsVerdict x
                 | Return r => fellBack r
                 end).
Proof.
  unfold sportsExtract. repeat post_step.
  match goal with |- context [if ?b then _ else _] => destruct b end.
  - post_step. exact I.
  - repeat post_step. eexists. cbn. repeat split; reflexivity.
Qed.

Lemma extractStep_evidence (d : DiscreteOracleSpec) (team : option SportsTeamData)
    (data : JsValue) :
  (category d = SPORTS_SCORE -> team <> None) ->
  post (extractStep d team data)
    (fun step =>
       match step with
       | Continue x =>
           if decide (category d = SPORTS_SCORE) then sportsVerdict x
           else snd x = None /\ extractValue data (extraction_path d) = Ok (fst x)
       | Return r => fellBack r
       end).
Proof.
  intros Hteam t. unfold extractStep.
  destruct (decide (category d = SPORTS_SCORE)) as [Hs|Hs].
  - rewrite Hs. destruct team as [team|]; [|now destruct Hteam].
    pose proof (sportsExtract_verdict data team t) as Hv.
    destruct (fst (sportsExtract data team t)) as [[r|x]|e]; exact Hv.
  - destruct (extractStep_value d data t) as (v & Hv & Hstep).
    destruct (category d), team; try congruence; rewrite Hstep; simpl; auto.
Qed.

Lemma evaluate_justified d url team data :
  (category d = SPORTS_SCORE -> team <> None) ->
  post (evaluate d url team data) (justifiedBy d).
Proof.
  intros Hteam. unfold evaluate.
  eapply post_bind; [apply (extractStep_evidence d team data Hteam)|].
  intros [r|[v context]] Hstep.
  { post_step. unfold justifiedBy. unfold fellBack in Hstep.
    destruct (body r); tauto. }
  destruct (isNullish v) eqn:Hnull; post_step; [exact I|].
  unfold justifiedBy, compareStep, justified. cbn.
  split; [reflexivity|]. repeat (split; [reflexivity|]).
  destruct (decide (category d = SPORTS_SCORE)) as [Hs|Hs].
  - rewrite Hs. destruct Hstep as (c & Hc & Hv & Hteam' & Hopp & Hres). cbn in Hc, Hv.
    subst v context. exists c. repeat (split; [assumption || reflexivity|]). reflexivity.
  - destruct Hstep as [Hc Hv]. cbn in Hc, Hv. subst context.
    destruct (category d); try congruence; repeat (split; [assumption || reflexivity|]);
      reflexivity.
Qed.

Lemma buildUrl_team (w : World) (d : DiscreteOracleSpec) :
  post (buildUrl w d)
    (fun step => match step with
                 | Continue (url, team) => category d = SPORTS_SCORE -> team <> None
                 | Return r => fellBack r
                 end).
Proof.
  unfold buildUrl.
  destruct (category d) eqn:Hcat;
    try (apply post_bind_any; intros url; apply post_ret; congruence).
  repeat post_step.
  match goal with |- context [if ?b then _ else _] => destruct b end.
  - post_step. exact I.
  - repeat post_step.
    match goal with |- context [if ?b then _ else _] => destruct b end.
    + post_step. exact I.
    + post_step.
      match goal with
      | |- post (match ?len with _ => _ end) _ => destruct len as [| | |[[| |]| | |]| | | |]
      end; repeat post_step; try exact I; intros; discriminate.
Qed.

Lemma resolve_justified (w : World) (d : DiscreteOracleSpec) :
  post (resolve w d) (justifiedBy d).
Proof.
  unfold resolve.
  eapply post_bind; [apply buildUrl_team|].
  intros [r|[url team]] Hteam; repeat post_step.
  { unfold justifiedBy. unfold fellBack in Hteam. destruct (body r); tauto. }
  match goal with |- context [if ?b then _ else _] => destruct b end.
  - post_step. exact I.
  - post_step. apply evaluate_justified, Hteam.
Qed.

(** A success of the handler carries a stored DISCRETE spec and evidence
    that justifies its outcome. *)
Lemma POST_justified (w : World) :
  post (POST w)
    (fun r => match body r with
              | SuccessBody s =>
                  justified s /\
                  exists marketId stored,
                    getDoc w marketId = Ok (Some stored) /\
                    spec stored = Ok (DISCRETE (oracleSpec s))
              | _ => True
              end).
Proof.
  unfold POST. post_step; [|post_step; exact I].
  repeat post_step.
  match goal with |- context [if ?b then _ else _] => destruct b end; [post_step; exact I|].
  eapply post_bind; [apply post_call|].
  intros [stored|] Hdoc; [|post_step; exact I].
  eapply post_bind; [apply post_lift|].
  intros [d|c] Hspec; [|post_step; exact I].
  intros t. pose proof (resolve_justified w d t) as Hj.
  destruct (fst (resolve w d t)) as [r|e]; [|exact I].
  unfold justifiedBy in Hj. destruct (body r) as [| |s]; try exact I.
  destruct Hj as [<- Hj]. split; [exact Hj|]. eauto.
Qed.

Lemma applyComparison_known (op : string) (a b : JsValue) :
  applyComparison op a b = knownOperator op && js_compare op a b.
Proof.
  unfold applyComparison, knownOperator.
  repeat match goal with
         | |- context [String.eqb op ?k] =>
             destruct (String.eqb_spec op k) as [->|?]; [reflexivity|]
         end.
  reflexivity.
Qed.

Lemma numGt_not_numEq (a b : JsNumber) : numGt a b = true -> numEq a b = false.
Proof.
  unfold numGt, numEq.
  destruct a as [x|x ex|[]|], b as [y|y ey|[]|]; cbn; try discriminate; try reflexivity;
    intros Hlt; lia.
Qed.

(** X3.  On the sports path the outcome follows the score alone: a
    success for a SPORTS_SCORE spec says YES exactly when the team scored
    more than its opponent in its last game, and NO on a draw as on a
    loss; the stored extraction path and comparison play no part. *)
Theorem sports_outcome_follows_the_score
    (w : World) (t t' : list Event) (r : Response) (s : Success) :
  POST w t = (Ok r, t') ->
  body r = SuccessBody s ->
  category (oracleSpec s) = SPORTS_SCORE ->
  exists c,
    sportsContext s = Some c /\
    teamScore c = (if isHomeTeam c then homeScore c else awayScore c) /\
    opponentScore c = (if isHomeTeam c then awayScore c else homeScore c) /\
    extractedValue s = JBool (numGt (teamScore c) (opponentScore c)) /\
    (outcome s = YES <-> numGt (teamScore c) (opponentScore c) = true) /\
    (outcome s = YES <-> Discrete.result c = "WIN") /\
    (numEq (teamScore c) (opponentScore c) = true ->
     Discrete.result c = "DRAW" /\ outcome s = NO).
Proof.
  intros Hrun Hbody Hsports.
  pose proof (POST_justified w t) as Hj. rewrite Hrun in Hj. cbn in Hj.
  rewrite Hbody in Hj. destruct Hj as [(_ & _ & _ & Hj) _].
  rewrite Hsports in Hj. destruct Hj as (c & Hc & Hv & Hteam & Hopp & Hres & Hout).
  exists c. repeat (split; [assumption|]).
  rewrite Hout, Hres.
  pose proof (numGt_not_numEq (teamScore c) (opponentScore c)) as Hne.
  destruct (numGt (teamScore c) (opponentScore c)).
  - rewrite (Hne eq_refl). repeat split; try reflexivity; discriminate.
  - destruct (numEq (teamScore c) (opponentScore c));
      repeat split; try reflexivity; try discriminate.
Qed.

(** X4.  Off the sports path the evidence of a success replays: the spec
    it carries is a stored DISCRETE spec; the recorded value is what the
    spec's extraction path reads in the recorded API response, and it is
    neither null nor undefined; the outcome is YES exactly when the
    spec's operator is one of the six comparison operators and holds
    between the recorded value and the target.  An operator outside the
    six gives NO, at full confidence. *)
Theorem discrete_evidence_replays
    (w : World) (t t' : list Event) (r : Response) (s : Success) :
  POST w t = (Ok r, t') ->
  body r = SuccessBody s ->
  category (oracleSpec s) <> SPORTS_SCORE ->
  (exists marketId stored,
     getDoc w marketId = Ok (Some stored) /\
     spec stored = Ok (DISCRETE (oracleSpec s))) /\
  Discrete.operator s = OracleTypes.operator (comparison (oracleSpec s)) /\
  targetValue s = target_value (comparison (oracleSpec s)) /\
  extractValue (apiResponse s) (extraction_path (oracleSpec s)) = Ok (extractedValue s) /\
  isNullish (extractedValue s) = false /\
  outcome s =
    (if knownOperator (Discrete.operator s)
        && js_compare (Discrete.operator s) (extractedValue s) (targetValue s)
     then YES else NO) /\
  (knownOperator (Discrete.operator s) = false ->
   outcome s = NO /\ confidence s = 10000).
Proof.
  intros Hrun Hbody Hcat.
  pose proof (POST_justified w t) as Hj. rewrite Hrun in Hj. cbn in Hj.
  rewrite Hbody in Hj. destruct Hj as [(Hop & Htarget & _ & Hj) Hstored].
  pose proof (POST_sound w t) as Hs. rewrite Hrun in Hs. cbn in Hs.
  unfold sound in Hs. rewrite Hbody in Hs. destruct Hs as [_ Hconf].
  assert (Hev : extractValue (apiResponse s) (extraction_path (oracleSpec s))
                  = Ok (extractedValue s) /\
                isNullish (extractedValue s) = false /\
                outcome s =
                  (if applyComparison (Discrete.operator s) (extractedValue s) (targetValue s)
                   then YES else NO)).
  { destruct (category (oracleSpec s)); try congruence; tauto. }
  destruct Hev as (Hvalue & Hnull & Hout).
  rewrite applyComparison_known in Hout.
  repeat (split; [assumption|]).
  intros Hunknown. rewrite Hout, Hunknown. auto.
Qed.

(** *** The calls of the engine *)

Lemma buildUrl_run (w : World) (d : DiscreteOracleSpec) (t : list Event) :
  exists res urls,
    buildUrl w d t = (res, t ++ map EvFetch urls) /\
    (urls = [] \/ (category d = SPORTS_SCORE /\ length urls = 1%nat)) /\
    match res with
    | Ok (Return r) => fellBack r
    | _ => True
    end.
Proof.
  assert (Hquiet : forall url : Exc string,
            exists res urls,
              (url <- lift url ;; ret (Continue (url, @None SportsTeamData)))%js t
                = (res, t ++ map EvFetch urls) /\
              (urls = [] \/ (category d = SPORTS_SCORE /\ length urls = 1%nat)) /\
              match res with
              | Ok (Return r) => fellBack r
              | _ => True
              end).
  { intros [url|e]; do 2 eexists; (split; [|split; [left; reflexivity|]]);
      unfold bind, lift, ret; cbn; rewrite ?app_nil_r; try reflexivity; exact I. }
  pose proof (buildUrl_team w d t) as Hteam. revert Hteam.
  unfold buildUrl.
  destruct (category d) eqn:Hcat; try (intros _; apply Hquiet).
  match goal with
  | |- context [fetch w ?u []] => set (searchUrl := u) in *
  end.
  rewrite !bind_call.
  destruct (fetch w searchUrl []) as [searchResponse|e].
  { match goal with
    | |- _ -> exists res urls, ?m ?t' = _ /\ _ =>
        assert (Hsilent : silent m);
        [|intros Hteam; exists (fst (m t')), [searchUrl];
          rewrite (surjective_pairing (m t')) at 1; rewrite (Hsilent t')]
    end.
    { silent_auto. }
    split; [reflexivity|]. split; [right; auto|].
    match goal with |- context [fst ?x] => destruct (fst x) as [[r|x']|e] end; auto. }
  intros _. exists (Throw e), [searchUrl]. cbn. split; [reflexivity|].
  split; [right; auto|exact I].
Qed.

Lemma extractStep_returns (d : DiscreteOracleSpec) (team : option SportsTeamData)
    (data : JsValue) :
  post (extractStep d team data)
    (fun step => match step with
                 | Return r => fellBack r
                 | Continue _ => True
                 end).
Proof.
  intros t. unfold extractStep.
  destruct (category d), team as [team|];
    try (destruct (extractStep_value d data t) as (v & _ & ->); exact I).
  pose proof (sportsExtract_verdict data team t) as Hv.
  destruct (fst (sportsExtract data team t)) as [[r|x]|e]; auto.
Qed.

Lemma evaluate_apiUrl d url team data :
  post (evaluate d url team data)
    (fun r => match body r with
              | SuccessBody s => apiUrl s = url
              | FallbackBody _ _ => True
              | ErrorBody _ => False
              end).
Proof.
  unfold evaluate.
  eapply post_bind; [apply extractStep_returns|].
  intros [r|[v context]] Hs; repeat post_step.
  - unfold fellBack in Hs. destruct (body r); tauto.
  - destruct (isNullish v); post_step; [exact I|reflexivity].
Qed.

(** The calls of [resolve]: the feed is fetched at most once, after the
    team search on the sports path, and a success names the URL fetched
    last. *)
Lemma resolve_run (w : World) (d : DiscreteOracleSpec) (t : list Event) :
  exists res urls,
    resolve w d t = (res, t ++ map EvFetch urls) /\
    ((length urls <= 1)%nat \/ (category d = SPORTS_SCORE /\ length urls = 2%nat)) /\
    match res with
    | Ok r =>
        match body r with
        | SuccessBody s => exists before, urls = before ++ [apiUrl s]
        | FallbackBody _ _ => True
        | ErrorBody _ => False
        end
    | Throw _ => True
    end.
Proof.
  unfold resolve. unfold bind at 1.
  destruct (buildUrl_run w d t) as (built & urls & -> & Hurls & Hbuilt).
  assert (Hlen : (length urls <= 1)%nat) by (destruct Hurls as [->|[_ ->]]; simpl; lia).
  destruct built as [[r|[url team]]|e].
  - exists (Ok r), urls. split; [reflexivity|]. split; [auto|].
    unfold fellBack in Hbuilt. destruct (body r); tauto.
  - rewrite bind_call.
    assert (Hcount : (length (urls ++ [url]) <= 1)%nat \/
                     category d = SPORTS_SCORE /\ length (urls ++ [url]) = 2%nat).
    { rewrite length_app. destruct Hurls as [->|[? ->]]; simpl; auto. }
    assert (Htrace : (t ++ map EvFetch urls) ++ [EvFetch url]
                     = t ++ map EvFetch (urls ++ [url])).
    { rewrite map_app, app_assoc. reflexivity. }
    destruct (fetch w url _) as [response|e].
    + destruct (negb (ok response)).
      * do 2 eexists. unfold ret. rewrite Htrace. split; [reflexivity|]. split; [auto|exact I].
      * rewrite bind_lift. destruct (json response) as [data|e].
        -- pose proof (evaluate_silent d url team data ((t ++ map EvFetch urls) ++ [EvFetch url]))
             as Hsilent.
           pose proof (evaluate_apiUrl d url team data ((t ++ map EvFetch urls) ++ [EvFetch url]))
             as Hurl.
           destruct (evaluate d url team data _) as [res t'']. cbn in Hsilent, Hurl.
           subst t''. exists res, (urls ++ [url]). rewrite Htrace.
           split; [reflexivity|]. split; [auto|].
           destruct res as [r|e]; [|exact I].
           destruct (body r) as [error|error reason|s]; try exact Hurl.
           rewrite Hurl. eauto.
        -- do 2 eexists. rewrite Htrace. split; [reflexivity|]. split; [auto|exact I].
    + do 2 eexists. rewrite Htrace. split; [reflexivity|]. split; [auto|exact I].
  - exists (Throw e), urls. split; [reflexivity|]. auto.
Qed.

(** X2.  The calls of the discrete engine.  A request without a market
    id is answered without any call.  Otherwise the stored spec is read
    once, and feeds are fetched only for a stored DISCRETE spec: once, or
    twice on the sports path, where the team search comes first.  A
    success names the URL that was fetched last. *)
Theorem discrete_engine_calls (w : World) :
  exists r evs,
    POST w [] = (Ok r, evs) /\
    (evs = [] \/
     exists marketId urls,
       evs = EvGetDoc marketId :: map EvFetch urls /\
       (urls = [] \/
        exists stored d,
          getDoc w marketId = Ok (Some stored) /\
          spec stored = Ok (DISCRETE d) /\
          (length urls = 1%nat \/ (category d = SPORTS_SCORE /\ length urls = 2%nat)))) /\
    (forall error, body r = ErrorBody error -> evs = []) /\
    (forall s, body r = SuccessBody s ->
       exists marketId before, evs = EvGetDoc marketId :: map EvFetch (before ++ [apiUrl s])).
Proof.
  unfold POST, try_catch.
  rewrite bind_lift.
  destruct (request_json w) as [requestBody|e].
  2:{ do 2 eexists. split; [reflexivity|]. split; [auto|]. split; discriminate. }
  rewrite bind_lift.
  destruct (getProp requestBody "marketId") as [marketId|e].
  2:{ do 2 eexists. split; [reflexivity|]. split; [auto|]. split; discriminate. }
  destruct (negb (truthy marketId)).
  { do 2 eexists. split; [reflexivity|]. split; [auto|]. split; [auto|discriminate]. }
  rewrite bind_call. cbn [app].
  assert (Hnone : forall r : Response,
            (forall s, body r <> SuccessBody s) -> (forall error, body r <> ErrorBody error) ->
            exists r' evs,
              (Ok r, [EvGetDoc marketId]) = (Ok r', evs) /\
              (evs = [] \/
               exists marketId urls,
                 evs = EvGetDoc marketId :: map EvFetch urls /\
                 (urls = [] \/
                  exists stored d,
                    getDoc w marketId = Ok (Some stored) /\
                    spec stored = Ok (DISCRETE d) /\
                    (length urls = 1%nat \/
                     (category d = SPORTS_SCORE /\ length urls = 2%nat)))) /\
              (forall error, body r' = ErrorBody error -> evs = []) /\
              (forall s, body r' = SuccessBody s ->
                 exists marketId before,
                   evs = EvGetDoc marketId :: map EvFetch (before ++ [apiUrl s]))).
  { intros r Hs He. exists r, [EvGetDoc marketId]. split; [reflexivity|].
    split; [right; exists marketId, []; auto|].
    split; [intros error Hbody; destruct (He error Hbody)
           |intros s Hbody; destruct (Hs s Hbody)]. }
  destruct (getDoc w marketId) as [[stored|]|e] eqn:Hdoc;
    [|apply Hnone; discriminate|apply Hnone; discriminate].
  rewrite bind_lift.
  destruct (spec stored) as [[d|c]|e] eqn:Hspec;
    [|apply Hnone; discriminate|apply Hnone; discriminate].
  destruct (resolve_run w d [EvGetDoc marketId]) as (res & urls & -> & Hlen & Hres).
  cbn [app].
  assert (Hshape : urls = [] \/
            exists stored d,
              getDoc w marketId = Ok (Some stored) /\
              spec stored = Ok (DISCRETE d) /\
              (length urls = 1%nat \/ (category d = SPORTS_SCORE /\ length urls = 2%nat))).
  { destruct urls as [|u urls]; [auto|]. right. exists stored, d.
    split; [exact Hdoc|]. split; [exact Hspec|].
    destruct Hlen as [Hlen|Hlen]; [left; simpl in *; lia|auto]. }
  destruct res as [r|e].
  - exists r, (EvGetDoc marketId :: map EvFetch urls). split; [reflexivity|].
    split; [right; exists marketId, urls; auto|].
    destruct (body r) as [error|error reason|s].
    + destruct Hres.
    + split; intros ? Hbody; discriminate Hbody.
    + split; [intros ? Hbody; discriminate Hbody|]. intros s' [= <-].
      destruct Hres as [before ->]. eauto.
  - do 2 eexists. split; [reflexivity|].
    split; [right; exists marketId, urls; auto|].
    split; intros ? Hbody; discriminate Hbody.
Qed.

(** *** The weather feed *)

Lemma prefix_one (c : ascii) (s : string) :
  String.prefix (String c EmptyString) s =
  match s with
  | String c' _ => if Ascii.eqb c c' then true else false
  | EmptyString => false
  end.
Proof.
  destruct s as [|c' rest]; [reflexivity|]. cbn.
  destruct (ascii_dec c c') as [->|Hne].
  - rewrite Ascii.eqb_refl. destruct rest; reflexivity.
  - destruct (Ascii.eqb_spec c c'); [contradiction|reflexivity].
Qed.

Lemma lastSegment_spec (s : string) : afterLastSlash s (lastSegment s).
Proof.
  unfold afterLastSlash. induction s as [|c rest IH]; [split; auto|].
  cbn [lastSegment].
  destruct (includes "/" rest) eqn:Hrest.
  - destruct IH as [Hno [Heq|[before Heq]]].
    + rewrite <- Heq, Hrest in Hno. discriminate.
    + split; [exact Hno|]. right. exists (String c before).
      change (String c before +:+ "/" +:+ lastSegment rest)
        with (String c (before +:+ "/" +:+ lastSegment rest)).
      f_equal. exact Heq.
  - destruct (Ascii.eqb_spec c "/") as [->|Hc].
    + split; [exact Hrest|]. right. exists EmptyString. reflexivity.
    + split; [|auto]. cbn [includes]. rewrite prefix_one, Hrest.
      destruct (Ascii.eqb_spec "/" c); [congruence|reflexivity].
Qed.

(** X5.  A weather spec is always resolved against the city page of
    wttr.in, whatever host its endpoint names.  The city is the spec's
    [city] parameter when it has one; otherwise the text after the last
    slash of the endpoint, so that the whitelisted endpoint
    [https://wttr.in] gives the city [wttr.in]; and NewYork only when that
    text is empty. *)
Theorem weather_feed_is_the_city_page
    (w : World) (d : DiscreteOracleSpec) (t : list Event) :
  category d = WEATHER ->
  exists city,
    city <> EmptyString /\
    snd (resolve w d t) =
      t ++ match URL_href ("https://wttr.in/" +:+ city +:+ "?format=j1") [] with
           | Ok url => [EvFetch url]
           | Throw _ => []
           end /\
    (forall c, paramOf d "city" = Some c -> c <> EmptyString -> city = c) /\
    (paramOf d "city" = None \/ paramOf d "city" = Some EmptyString ->
     afterLastSlash (endpoint (source d)) city \/
     (afterLastSlash (endpoint (source d)) EmptyString /\ city = "NewYork")) /\
    (paramOf d "city" = None -> endpoint (source d) = "https://wttr.in" ->
     city = "wttr.in").
Proof.
  intros Hcat.
  exists (orDefault (orElse (paramOf d "city") (Some (lastSegment (endpoint (source d)))))
            "NewYork").
  split; [|split; [|split; [|split]]].
  - unfold orDefault, orElse, nonEmpty.
    destruct (paramOf d "city") as [c|];
      repeat match goal with
             | |- context [String.eqb ?x EmptyString] =>
                 destruct (String.eqb_spec x EmptyString); cbn
             end; congruence.
  - unfold resolve, buildUrl. rewrite Hcat.
    unfold bind at 1. rewrite bind_lift.
    destruct (URL_href _ []) as [url|e]; [|cbn; now rewrite app_nil_r].
    unfold ret at 1. rewrite bind_call.
    destruct (fetch w url _) as [response|e]; [|reflexivity].
    destruct (negb (ok response)); [reflexivity|].
    rewrite bind_lift. destruct (json response) as [data|e]; [|reflexivity].
    apply evaluate_silent.
  - intros c Hc Hne. rewrite Hc. unfold orDefault, orElse, nonEmpty.
    destruct (String.eqb_spec c EmptyString); [contradiction|]. cbn.
    destruct (String.eqb_spec c EmptyString); [contradiction|reflexivity].
  - pose proof (lastSegment_spec (endpoint (source d))) as Hlast.
    intros [-> | ->]; cbn; unfold nonEmpty;
      destruct (String.eqb_spec (lastSegment (endpoint (source d))) EmptyString) as [Hempty|_];
      cbn; auto; right; rewrite Hempty in Hlast; auto.
  - intros -> ->. reflexivity.
Qed.

(** *** Paths *)









End EngineCoverage.

Lemma sports_outcome_follows_the_score_witness :
  exists r t' s c,
    @Discrete.POST Samples.runtime Samples.sportsWorld [] = (Ok r, t') /\
    Discrete.body r = Discrete.SuccessBody s /\
    OracleTypes.category (Discrete.oracleSpec s) = OracleTypes.SPORTS_SCORE /\
    Discrete.sportsContext s = Some c /\
    Discrete.teamScore c = Integer 110 /\
    Discrete.opponentScore c = Integer 102 /\
    Discrete.outcome s = YES.
Proof.
  destruct (@Discrete.POST Samples.runtime Samples.sportsWorld []) as [[r|e] t'] eqn:Hrun;
    [|vm_compute in Hrun; discriminate Hrun].
  destruct (Discrete.body r) as [e|e reason|s] eqn:Hbody;
    try (vm_compute in Hrun; injection Hrun as <- <-; discriminate Hbody).
  assert (Hcat : OracleTypes.category (Discrete.oracleSpec s) = OracleTypes.SPORTS_SCORE).
  { vm_compute in Hrun. injection Hrun as <- <-.
    vm_compute in Hbody. injection Hbody as <-. reflexivity. }
  destruct (@sports_outcome_follows_the_score Samples.runtime Samples.sportsWorld
              [] t' r s Hrun Hbody Hcat) as (c & Hc & _ & _ & _ & Hyes & _).
  exists r, t', s, c. repeat (split; [assumption || reflexivity|]).
  vm_compute in Hrun. injection Hrun as <- <-.
  vm_compute in Hbody. injection Hbody as <-.
  vm_compute in Hc. injection Hc as <-.
  repeat split; reflexivity.
Defined.

Lemma discrete_evidence_replays_witness :
  exists r t' s,
    @Discrete.POST Samples.runtime Samples.priceWorld [] = (Ok r, t') /\
    Discrete.body r = Discrete.SuccessBody s /\
    OracleTypes.category (Discrete.oracleSpec s) <> OracleTypes.SPORTS_SCORE /\
    @Discrete.extractValue Samples.runtime (Discrete.apiResponse s) "$.bitcoin.usd"
      = Ok (Discrete.extractedValue s) /\
    Discrete.outcome s = YES.
Proof.
  destruct (@Discrete.POST Samples.runtime Samples.priceWorld []) as [[r|e] t'] eqn:Hrun;
    [|vm_compute in Hrun; discriminate Hrun].
  destruct (Discrete.body r) as [e|e reason|s] eqn:Hbody;
    try (vm_compute in Hrun; injection Hrun as <- <-; discriminate Hbody).
  assert (Hcat : OracleTypes.category (Discrete.oracleSpec s) <> OracleTypes.SPORTS_SCORE).
  { vm_compute in Hrun. injection Hrun as <- <-.
    vm_compute in Hbody. injection Hbody as <-. discriminate. }
  destruct (@discrete_evidence_replays Samples.runtime Samples.priceWorld
              [] t' r s Hrun Hbody Hcat) as (_ & _ & _ & Hvalue & _ & Hout & _).
  exists r, t', s. repeat (split; [assumption || reflexivity|]).
  vm_compute in Hrun. injection Hrun as <- <-.
  vm_compute in Hbody. injection Hbody as <-.
  split; [exact Hvalue|reflexivity].
Defined.

Lemma weather_feed_is_the_city_page_witness :
  snd (@Discrete.resolve Samples.runtime Samples.weatherWorld Samples.weatherSpec [])
    = [Discrete.EvFetch "https://wttr.in/wttr.in?format=j1"].
Proof.
  destruct (@weather_feed_is_the_city_page Samples.runtime Samples.weatherWorld
              Samples.weatherSpec [] eq_refl)
    as (city & _ & Hrun & _ & _ & Hcity).
  rewrite (Hcity eq_refl eq_refl) in Hrun. exact Hrun.
Defined.


(** ** The settlement orchestrator: stages, calls and the audit record *)

Section Framing.
Context {E : Type}.

Lemma framed_ret {A} (a : A) : framed (E := E) (ret a).
Proof. intros t. unfold ret. cbn. now rewrite app_nil_r. Qed.

Lemma framed_lift {A} (x : Exc A) : framed (E := E) (lift x).
Proof. intros t. unfold lift. cbn. now rewrite app_nil_r. Qed.

Lemma framed_call {A} (ev : E) (answer : Exc A) : framed (call ev answer).
Proof. intros t. reflexivity. Qed.

Lemma framed_bind {A B} (m : M (list E) A) (k : A -> M (list E) B) :
  framed m -> (forall a, framed (k a)) -> framed (bind m k).
Proof.
  intros Hm Hk t. unfold bind. rewrite (Hm t).
  destruct (m []) as [[a|e] evs]; cbn; [|reflexivity].
  rewrite (Hk a (t ++ evs)), (Hk a evs). cbn. now rewrite app_assoc.
Qed.

Lemma framed_try_catch {A} (m : M (list E) A) (h : JsError -> M (list E) A) :
  framed m -> (forall e, framed (h e)) -> framed (try_catch m h).
Proof.
  intros Hm Hh t. unfold try_catch. rewrite (Hm t).
  destruct (m []) as [[a|e] evs]; cbn; [reflexivity|].
  rewrite (Hh e (t ++ evs)), (Hh e evs). cbn. now rewrite app_assoc.
Qed.

Lemma framed_mapM {A B} (f : A -> M (list E) B) (l : list A) :
  (forall a, framed (f a)) -> framed (mapM f l).
Proof.
  intros Hf. induction l as [|a l IH]; cbn [mapM].
  - apply framed_ret.
  - apply framed_bind; [apply Hf|]. intros b.
    apply framed_bind; [apply IH|]. intros bs. apply framed_ret.
Qed.

End Framing.

Ltac framed_auto :=
  repeat first
    [ apply framed_ret
    | apply framed_lift
    | apply framed_call
    | apply framed_mapM; intros ?
    | apply framed_bind; [|intros ?]
    | apply framed_try_catch; [|intros ?]
    | match goal with |- framed (if ?b then _ else _) => destruct b end
    | match goal with |- framed (match ?x with _ => _ end) => destruct x end
    | match goal with |- framed (let _ := _ in _) => cbv zeta end ].

Section SettleRuns.
Import Settle.
Context `{JsRuntime}.

Lemma askGemini_framed w prompt index : framed (askGemini w prompt index).
Proof. unfold askGemini. framed_auto. Qed.

Lemma tryDiscrete_framed w marketId : framed (tryDiscrete w marketId).
Proof. unfold tryDiscrete. framed_auto. Qed.

Lemma tryContiguous_framed w question r : framed (tryContiguous w question r).
Proof.
  unfold tryContiguous, consortiumRound, singleJudge, summonJudges.
  framed_auto; apply askGemini_framed.
Qed.

Lemma submit_framed w marketId question r : framed (submit w marketId question r).
Proof. unfold submit. framed_auto. Qed.

Lemma judgeCalls_app (a b : list Event) :
  judgeCalls (a ++ b) = judgeCalls a ++ judgeCalls b.
Proof. apply flat_map_app. Qed.

Lemma audits_app (a b : list Event) : audits (a ++ b) = audits a ++ audits b.
Proof. apply flat_map_app. Qed.

Lemma settlementRequests_app (a b : list Event) :
  settlementRequests (a ++ b) = settlementRequests a ++ settlementRequests b.
Proof. apply flat_map_app. Qed.

Lemma tryDiscrete_stage (w : World) (marketId : JsValue) :
  exists r1,
    tryDiscrete w marketId [] = (Ok r1, [EvResolveDiscrete marketId]) /\
    isConsortium r1 = false /\
    fullEvidenceObject r1 = RawEmpty /\
    match discreteAnswer w marketId with
    | Some s =>
        parsed r1 = Some (mkParsed (Discrete.outcome s)
                            (JNum (Integer (Discrete.confidence s))) (Some s) None) /\
        method r1 = DISCRETE /\ isFallback r1 = false
    | None => parsed r1 = None /\ method r1 = CONTIGUOUS
    end.
Proof.
  unfold tryDiscrete, discreteAnswer, try_catch, bind, call, lift, ret, record, list_traced.
  destruct (discreteService w) as [backend|e]; [|eexists; cbn; repeat split; reflexivity].
  destruct (fst (run (Discrete.POST _))) as [response|e];
    [|eexists; cbn; repeat split; reflexivity].
  destruct (Discrete.body response); eexists; cbn; repeat split; reflexivity.
Qed.

Lemma tryContiguous_stage (w : World) (question : string) (r1 : Resolution) :
  exists r2 evs,
    tryContiguous w question r1 [] = (Ok r2, evs) /\
    isFallback r2 = isFallback r1 /\
    match parsed r1 with
    | Some p => r2 = r1 /\ evs = []
    | None =>
        if unset (GEMINI_API_KEY w) then
          evs = [] /\
          parsed r2 = Some (mkParsed (if randomIndex w then NO else YES)
                              (JNum (Integer 9999)) None None) /\
          method r2 = MOCK /\
          isConsortium r2 = isConsortium r1
        else
          evs = map (fun i => EvGenerateContent i (promptFor question))
                  (if includes "[CONSORTIUM]" question then [1; 2; 3; 4; 5] else [1]) /\
          method r2 = CONTIGUOUS /\
          isConsortium r2 = includes "[CONSORTIUM]" question /\
          exists p c, parsed r2 = Some p /\ parsed_confidence p = JNum (Integer c)
    end.
Proof.
  unfold tryContiguous.
  destruct (parsed r1) as [p|]; [exists r1, []; auto|].
  destruct (unset (GEMINI_API_KEY w)); [do 2 eexists; cbn; auto 10|].
  fold (promptFor question).
  destruct (includes "[CONSORTIUM]" question).
  - destruct (consortiumRound_result w (promptFor question) [])
      as (v1 & v2 & v3 & v4 & v5 & raw & _ & E & _).
    cbv zeta in E. unfold bind. rewrite E. unfold ret.
    do 2 eexists. split; [reflexivity|]. cbn. eauto 10.
  - destruct (askGemini_spec w (promptFor question) 1 []) as (vote & E & _).
    unfold singleJudge, bind. rewrite E. unfold ret.
    do 2 eexists. split; [reflexivity|]. cbn. eauto 10.
Qed.

Lemma submit_stage (w : World) (marketId : JsValue) (question : string)
    (r : Resolution) (p : Parsed) :
  parsed r = Some p ->
  submit w marketId question r [] =
  match getNetwork w with
  | Throw e => (Throw e, [EvGetNetwork])
  | Ok _ =>
      match BigInt marketId with
      | Throw e => (Throw e, [EvGetNetwork])
      | Ok id =>
          let responseId := "gemini-" +:+ toText (JNum (Integer (now w 0))) in
          let report :=
            EvOnReport id (outcomeEnum (parsed_result p))
              (validConfidence (parsed_confidence p)) responseId in
          match writeContract w with
          | Throw e => (Throw e, [EvGetNetwork; report])
          | Ok hash =>
              (Ok (mkResponse 200 (SuccessBody hash p)),
               [EvGetNetwork; report; EvSignIn] ++
               match signInAnonymously w with
               | Ok _ =>
                   [EvSetDoc responseId
                      (mkAuditDoc question p (fullEvidenceObject r) responseId hash (now w 1)
                         (isConsortium r) (method r) (isFallback r))]
               | Throw _ => []
               end)
          end
      end
  end.
Proof.
  intros Hp. unfold submit. rewrite Hp.
  unfold try_catch, bind, call, lift, ret, record, list_traced.
  destruct (getNetwork w) as [chainId|e]; [|reflexivity].
  destruct (BigInt marketId) as [id|e]; [|reflexivity].
  destruct (writeContract w) as [hash|e]; [|reflexivity].
  destruct (signInAnonymously w) as [[]|e]; [destruct (setDoc w) as [[]|e]|]; reflexivity.
Qed.

(** The stages of a run of the handler: either it stops before the
    resolution, having sent at most the reads of the market and the
    request for settlement, or it goes through the three stages. *)
Lemma POST_run (w : World) :
  exists answer evs,
    POST w [] = (Ok answer, evs) /\
    (stopped w answer evs \/
     (exists requestBody marketId id m0 m1 r1 r2 judges answer3 submitted,
        request_json w = Ok requestBody /\
        getProp requestBody "marketId" = Ok marketId /\
        BigInt marketId = Ok id /\
        getMarket w 0 = Ok m0 /\
        getMarket w 1 = Ok m1 /\
        tryDiscrete w marketId [] = (Ok r1, [EvResolveDiscrete marketId]) /\
        tryContiguous w (question m1) r1 [] = (Ok r2, judges) /\
        submit w marketId (question m1) r2 [] = (answer3, submitted) /\
        answer = match answer3 with
                 | Ok r => r
                 | Throw e => failure e
                 end /\
        evs = [EvGetMarket id]
                ++ (if status m0 =? 0 then [EvRequestSettlement marketId] else [])
                ++ [EvGetMarket id; EvResolveDiscrete marketId] ++ judges ++ submitted)).
Proof.
  assert (Hstop : forall (answer : Response) (evs : list Event),
            stopped w answer evs ->
            exists answer' evs',
              (Ok answer, evs) = (Ok answer', evs') /\
              (stopped w answer' evs' \/
               (exists requestBody marketId id m0 m1 r1 r2 judges answer3 submitted,
                  request_json w = Ok requestBody /\
                  getProp requestBody "marketId" = Ok marketId /\
                  BigInt marketId = Ok id /\
                  getMarket w 0 = Ok m0 /\
                  getMarket w 1 = Ok m1 /\
                  tryDiscrete w marketId [] = (Ok r1, [EvResolveDiscrete marketId]) /\
                  tryContiguous w (question m1) r1 [] = (Ok r2, judges) /\
                  submit w marketId (question m1) r2 [] = (answer3, submitted) /\
                  answer' = match answer3 with
                            | Ok r => r
                            | Throw e => failure e
                            end /\
                  evs' = [EvGetMarket id]
                           ++ (if status m0 =? 0 then [EvRequestSettlement marketId] else [])
                           ++ [EvGetMarket id; EvResolveDiscrete marketId]
                           ++ judges ++ submitted))).
  { intros answer evs Hs. exists answer, evs. split; [reflexivity|]. left. exact Hs. }
  assert (Hfail : forall (e : JsError) (evs : list Event),
            (evs = [] \/
             exists id,
               evs = [EvGetMarket id] \/
               exists m marketId (again : bool),
                 getMarket w 0 = Ok m /\
                 evs = [EvGetMarket id]
                         ++ (if status m =? 0 then [EvRequestSettlement marketId] else [])
                         ++ (if again then [EvGetMarket id] else [])) ->
            stopped w (failure e) evs).
  { intros e evs Hshape. unfold stopped, failure. cbn.
    split; [auto|]. split; [eauto|]. split; [discriminate|]. exact Hshape. }
  assert (Hnone : forall (c : Z) (error : string),
            c = 400 \/ c = 500 -> stopped w (mkResponse c (ErrorBody error)) []).
  { intros c error Hc. unfold stopped. cbn.
    split; [exact Hc|]. split; [eauto|]. auto. }
  unfold POST, try_catch. fold failure.
  rewrite bind_lift.
  destruct (request_json w) as [requestBody|e] eqn:Hbody; [|apply Hstop, Hfail; auto].
  rewrite bind_lift.
  destruct (getProp requestBody "marketId") as [marketId|e] eqn:Hmid;
    [|apply Hstop, Hfail; auto].
  destruct (isUndefined marketId).
  { apply Hstop, Hnone. auto. }
  rewrite bind_lift.
  destruct (BigInt marketId) as [id|e] eqn:Hid; [|apply Hstop, Hfail; auto].
  destruct (unset (RPC_URL w) || unset (CRE_ETH_PRIVATE_KEY w)
            || unset (NEXT_PUBLIC_MARKET_ADDRESS w)).
  { apply Hstop, Hnone. auto. }
  rewrite bind_lift.
  destruct (connect w) as [[]|e]; [|apply Hstop, Hfail; auto].
  rewrite bind_call. cbn [app].
  destruct (getMarket w 0) as [m0|e] eqn:Hm0.
  2:{ apply Hstop, Hfail. right. exists id. auto. }
  set (pre := [EvGetMarket id] ++ (if status m0 =? 0 then [EvRequestSettlement marketId] else [])).
  assert (Hrequested :
    (exists e,
       ((if status m0 =? 0
         then (tx <- call (EvRequestSettlement marketId) (requestSettlement w) ;; ret ())%js
         else ret ()) [EvGetMarket id]) = (Throw e, pre)) \/
    ((if status m0 =? 0
      then (tx <- call (EvRequestSettlement marketId) (requestSettlement w) ;; ret ())%js
      else ret ()) [EvGetMarket id]) = (Ok (), pre)).
  { subst pre. destruct (status m0 =? 0).
    - rewrite bind_call. destruct (requestSettlement w); [right|left; eexists]; reflexivity.
    - right. reflexivity. }
  unfold bind at 1.
  destruct Hrequested as [[e ->]| ->].
  { apply Hstop, Hfail. right. exists id. right. exists m0, marketId, false.
    split; [reflexivity|]. subst pre. now rewrite app_nil_r. }
  rewrite bind_call.
  destruct (getMarket w 1) as [m1|e] eqn:Hm1.
  2:{ apply Hstop, Hfail. right. exists id. right. exists m0, marketId, true.
      split; [reflexivity|]. subst pre. now rewrite <- app_assoc. }
  destruct (tryDiscrete_stage w marketId) as (r1 & E1 & _).
  destruct (tryContiguous_stage w (question m1) r1) as (r2 & judges & E2 & _).
  destruct (submit w marketId (question m1) r2 []) as [answer3 submitted] eqn:E3.
  unfold bind.
  rewrite (tryDiscrete_framed w marketId), E1. cbn [fst snd].
  rewrite (tryContiguous_framed w (question m1) r1), E2. cbn [fst snd].
  rewrite (submit_framed w marketId (question m1) r2), E3. cbn [fst snd].
  exists (match answer3 with Ok r => r | Throw e => failure e end).
  eexists. split; [destruct answer3; reflexivity|]. right.
  exists requestBody, marketId, id, m0, m1, r1, r2, judges, answer3, submitted.
  repeat (split; [assumption || reflexivity|]).
  subst pre. rewrite <- !app_assoc. reflexivity.
Qed.

Lemma resolved_stages (w : World) (marketId : JsValue) (question : string)
    (r1 r2 : Resolution) (judges : list Event) :
  tryDiscrete w marketId [] = (Ok r1, [EvResolveDiscrete marketId]) ->
  tryContiguous w question r1 [] = (Ok r2, judges) ->
  resolvedBy w marketId question r2 judges.
Proof.
  intros E1 E2.
  destruct (tryDiscrete_stage w marketId) as (r1' & E1' & Hc1 & _ & H1).
  rewrite E1 in E1'. injection E1' as <-.
  destruct (tryContiguous_stage w question r1) as (r2' & judges' & E2' & Hf & H2).
  rewrite E2 in E2'. injection E2' as <- <-.
  unfold resolvedBy.
  destruct (discreteAnswer w marketId) as [s|].
  - destruct H1 as (Hp & Hm & Hfb). rewrite Hp in H2. destruct H2 as [-> ->].
    eexists. split; [exact Hp|]. auto.
  - destruct H1 as [Hp Hm]. rewrite Hp in H2.
    destruct (unset (GEMINI_API_KEY w)).
    + destruct H2 as (-> & Hp2 & Hm2 & Hc2).
      eexists. split; [exact Hp2|]. repeat split; try assumption. congruence.
    + destruct H2 as (-> & Hm2 & Hc2 & p & c & Hp2 & Hc).
      exists p. split; [exact Hp2|]. eauto.
Qed.

(** Every run of the handler answers, and has one of two shapes. *)
Lemma POST_outline (w : World) :
  exists answer evs,
    POST w [] = (Ok answer, evs) /\
    (stopped w answer evs \/
     exists requestBody marketId id m0 m1 r judges p,
       request_json w = Ok requestBody /\
       getProp requestBody "marketId" = Ok marketId /\
       BigInt marketId = Ok id /\
       getMarket w 0 = Ok m0 /\
       getMarket w 1 = Ok m1 /\
       resolvedBy w marketId (question m1) r judges /\
       parsed r = Some p /\
       submitted w marketId id m0 m1 r judges p answer evs).
Proof.
  destruct (POST_run w) as (answer & evs & Hrun & [Hstop|Hstages]).
  { exists answer, evs. split; [exact Hrun|]. left. exact Hstop. }
  destruct Hstages as (requestBody & marketId & id & m0 & m1 & r1 & r2 & judges & answer3
                       & sub & Hbody & Hmid & Hid & Hm0 & Hm1 & E1 & E2 & E3 & -> & ->).
  pose proof (resolved_stages w marketId (question m1) r1 r2 judges E1 E2) as Hres.
  destruct Hres as (p & Hp & Hres).
  eexists. eexists. split; [exact Hrun|]. right.
  exists requestBody, marketId, id, m0, m1, r2, judges, p.
  repeat (split; [assumption|]).
  split; [exists p; auto|]. split; [exact Hp|].
  rewrite (submit_stage w marketId (question m1) r2 p Hp), Hid in E3.
  unfold submitted. cbv zeta in *.
  destruct (getNetwork w) as [chainId|e].
  - destruct (writeContract w) as [hash|e]; injection E3 as <- <-; split; try reflexivity;
      rewrite <- !app_assoc; reflexivity.
  - injection E3 as <- <-. split; [reflexivity|]. rewrite <- !app_assoc. reflexivity.
Qed.

Lemma stopped_projections (w : World) (answer : Response) (evs : list Event) :
  stopped w answer evs ->
  judgeCalls evs = [] /\ reports evs = [] /\ audits evs = [] /\
  (settlementRequests evs = [] \/
   exists m id marketId rest,
     getMarket w 0 = Ok m /\ status m = 0 /\
     settlementRequests evs = [marketId] /\
     evs = EvGetMarket id :: EvRequestSettlement marketId :: rest).
Proof.
  intros (_ & _ & _ & [->|(id & [->|(m & marketId & again & Hm & ->)])]); cbn; auto.
  destruct (Z.eqb_spec (status m) 0) as [Hopen|Hopen], again; cbn; auto;
    repeat (split; [reflexivity|]); right; exists m, id, marketId; eauto 10.
Qed.

Lemma judges_projections (w : World) (marketId : JsValue) (question : string)
    (r : Resolution) (judges : list Event) :
  resolvedBy w marketId question r judges ->
  reports judges = [] /\ audits judges = [] /\ settlementRequests judges = [].
Proof.
  intros (p & _ & Hres).
  assert (Hmap : forall l : list Z,
            let evs := map (fun i => EvGenerateContent i (promptFor question)) l in
            reports evs = [] /\ audits evs = [] /\ settlementRequests evs = []).
  { induction l as [|i l IH]; cbn; auto. }
  destruct (discreteAnswer w marketId).
  - destruct Hres as (_ & -> & _). auto.
  - destruct (unset (GEMINI_API_KEY w)).
    + destruct Hres as (_ & -> & _). auto.
    + destruct Hres as (-> & _). apply Hmap.
Qed.

Lemma before_projections (w : World) (marketId : JsValue) (id : Z) (m0 : Market)
    (question : string) (r : Resolution) (judges : list Event) :
  resolvedBy w marketId question r judges ->
  let before :=
    [EvGetMarket id]
      ++ (if status m0 =? 0 then [EvRequestSettlement marketId] else [])
      ++ [EvGetMarket id; EvResolveDiscrete marketId] ++ judges in
  reports before = [] /\ audits before = [] /\
  judgeCalls before = judgeCalls judges /\
  settlementRequests before = (if status m0 =? 0 then [marketId] else []).
Proof.
  intros Hres before. subst before.
  destruct (judges_projections w marketId question r judges Hres) as (Hr & Ha & Hs).
  rewrite !reports_app, !audits_app, !judgeCalls_app, !settlementRequests_app, Hr, Ha, Hs.
  destruct (status m0 =? 0); cbn; auto.
Qed.

(** X7.  The orchestrator always answers, with status 200, 400 or 500,
    and it submits at most one report.  It answers 400 only before any
    call.  It answers with a success exactly when it has submitted the
    report and the ledger client has accepted it: a failure of the audit
    write afterwards does not fail the request, and no success is
    answered without a report. *)
Theorem settle_succeeds_exactly_when_the_report_is_accepted (w : World) :
  exists r evs,
    POST w [] = (Ok r, evs) /\
    (code r = 200 \/ code r = 400 \/ code r = 500) /\
    (code r = 400 -> evs = []) /\
    (length (reports evs) <= 1)%nat /\
    (code r = 200 <-> exists hash, writeContract w = Ok hash /\ reports evs <> []) /\
    (code r = 200 <-> exists hash p, body r = SuccessBody hash p) /\
    (forall hash p,
       body r = SuccessBody hash p ->
       writeContract w = Ok hash /\
       exists id rid,
         reports evs =
           [(id, outcomeEnum (parsed_result p), validConfidence (parsed_confidence p), rid)]).
Proof.
  destruct (POST_outline w) as (r & evs & Hrun & [Hstop|Hsub]).
  - exists r, evs. split; [exact Hrun|].
    destruct (stopped_projections w r evs Hstop) as (_ & Hr & _).
    destruct Hstop as (Hcode & (error & Herror) & H400 & _).
    rewrite Hr, Herror.
    split; [tauto|]. split; [exact H400|]. split; [cbn; lia|].
    split; [|split].
    + split; [intros H200; lia|intros (hash & _ & Hne); congruence].
    + split; [intros H200; lia|intros (hash & p & Hb); discriminate Hb].
    + intros hash p Hb. discriminate Hb.
  - destruct Hsub as (requestBody & marketId & id & m0 & m1 & res & judges & p
                      & _ & _ & _ & _ & _ & Hres & _ & Hsub).
    exists r, evs. split; [exact Hrun|].
    unfold submitted in Hsub. cbv zeta in Hsub.
    destruct (before_projections w marketId id m0 (question m1) res judges Hres)
      as (Hr & _).
    cbv zeta in Hr.
    destruct (getNetwork w) as [chainId|e].
    + destruct (writeContract w) as [hash|e]; destruct Hsub as [-> ->];
        rewrite reports_app, Hr.
      * assert (Haudit : reports match signInAnonymously w with
                                 | Ok _ =>
                                     [EvSetDoc
                                        ("gemini-" +:+ toText (JNum (Integer (now w 0))))
                                        (mkAuditDoc (question m1) p (fullEvidenceObject res)
                                           ("gemini-" +:+ toText (JNum (Integer (now w 0))))
                                           hash (now w 1) (isConsortium res) (method res)
                                           (isFallback res))]
                                 | Throw _ => []
                                 end = []).
        { destruct (signInAnonymously w); reflexivity. }
        rewrite reports_app, Haudit. cbn.
        split; [auto|]. split; [discriminate|]. split; [lia|].
        split; [|split].
        -- split; [intros _; exists hash; split; [reflexivity|discriminate]|reflexivity].
        -- split; [intros _; eauto|reflexivity].
        -- intros hash' p' [= <- <-]. split; [reflexivity|eauto].
      * cbn. split; [auto|]. split; [discriminate|]. split; [lia|].
        split; [|split].
        -- split; [discriminate|intros (hash & Hw & _); discriminate Hw].
        -- split; [discriminate|intros (hash & p' & Hb); discriminate Hb].
        -- intros hash p' Hb. discriminate Hb.
    + destruct Hsub as [-> ->]. rewrite reports_app, Hr. cbn.
      split; [auto|]. split; [discriminate|]. split; [lia|].
      split; [|split].
      * split; [discriminate|intros (hash & _ & Hne); congruence].
      * split; [discriminate|intros (hash & p' & Hb); discriminate Hb].
      * intros hash p' Hb. discriminate Hb.
Qed.

(** X8.  The audit record matches the report.  The orchestrator writes
    at most one audit record, and only after the ledger client has
    accepted the report: the record is stored under the response id that
    was submitted in the report, carries the hash of that transaction and
    the resolved result, and the request answers with a success that
    carries the same hash and the same result. *)
Theorem settle_audit_matches_the_report (w : World) (rid : string) (doc : AuditDoc) :
  In (EvSetDoc rid doc) (snd (POST w [])) ->
  exists id hash p before,
    snd (POST w []) =
      before ++ [EvGetNetwork;
                 EvOnReport id (outcomeEnum (parsed_result p))
                   (validConfidence (parsed_confidence p)) rid;
                 EvSignIn; EvSetDoc rid doc] /\
    audits before = [] /\ reports before = [] /\
    writeContract w = Ok hash /\
    fst (POST w []) = Ok (mkResponse 200 (SuccessBody hash p)) /\
    audit_responseId doc = rid /\
    audit_txHash doc = hash /\
    geminiResponse doc = p.
Proof.
  intros Hin.
  destruct (POST_outline w) as (r & evs & Hrun & [Hstop|Hsub]); rewrite Hrun in *; cbn in *.
  - destruct (stopped_projections w r evs Hstop) as (_ & _ & Ha & _).
    assert (Haud : In (rid, doc) (audits evs)).
    { unfold audits. apply in_flat_map. exists (EvSetDoc rid doc). cbn. auto. }
    rewrite Ha in Haud. destruct Haud.
  - destruct Hsub as (requestBody & marketId & id & m0 & m1 & res & judges & p
                      & _ & _ & _ & _ & _ & Hres & _ & Hsub).
    unfold submitted in Hsub. cbv zeta in Hsub.
    destruct (before_projections w marketId id m0 (question m1) res judges Hres)
      as (Hr & Ha & _).
    cbv zeta in Hr, Ha.
    assert (Hnot : forall tail : list Event,
              audits tail = [] -> In (EvSetDoc rid doc) tail -> False).
    { intros tail Htail Hin'.
      assert (Haud : In (rid, doc) (audits tail)).
      { unfold audits. apply in_flat_map. exists (EvSetDoc rid doc). cbn. auto. }
      rewrite Htail in Haud. destruct Haud. }
    destruct (getNetwork w) as [chainId|e].
    + destruct (writeContract w) as [hash|e]; destruct Hsub as [-> ->].
      * destruct (signInAnonymously w) as [[]|e].
        -- apply in_app_or in Hin. destruct Hin as [Hin|Hin]; [destruct (Hnot _ Ha Hin)|].
           cbn in Hin. destruct Hin as [Hin|[Hin|[Hin|[Hin|[]]]]]; try discriminate Hin.
           injection Hin as <- <-.
           do 4 eexists. split; [reflexivity|]. cbn. auto 10.
        -- exfalso. apply (Hnot _ Ha).
           apply in_app_or in Hin. destruct Hin as [Hin|Hin]; [exact Hin|].
           cbn in Hin. destruct Hin as [Hin|[Hin|[Hin|[]]]]; discriminate Hin.
      * exfalso. apply (Hnot _ Ha).
        apply in_app_or in Hin. destruct Hin as [Hin|Hin]; [exact Hin|].
        cbn in Hin. destruct Hin as [Hin|[Hin|[]]]; discriminate Hin.
    + destruct Hsub as [-> ->]. exfalso. apply (Hnot _ Ha).
      apply in_app_or in Hin. destruct Hin as [Hin|Hin]; [exact Hin|].
      cbn in Hin. destruct Hin as [Hin|[]]; discriminate Hin.
Qed.

(** X9.  Settlement is requested only for an open market.  The
    orchestrator sends [requestSettlement] at most once, only when the
    first read of the market gives the status Open, and then before any
    other call than that read; a market read with another status is
    never requested, whatever happens afterwards. *)
Theorem settle_requests_settlement_only_when_open (w : World) :
  (length (settlementRequests (snd (POST w []))) <= 1)%nat /\
  (forall marketId,
     In (EvRequestSettlement marketId) (snd (POST w [])) ->
     exists m id rest,
       getMarket w 0 = Ok m /\ status m = 0 /\
       snd (POST w []) = EvGetMarket id :: EvRequestSettlement marketId :: rest) /\
  (forall m, getMarket w 0 = Ok m -> status m <> 0 ->
     settlementRequests (snd (POST w [])) = []).
Proof.
  destruct (POST_outline w) as (r & evs & Hrun & Hshape). rewrite Hrun. cbn [snd].
  assert (Hin : forall marketId tail,
            In (EvRequestSettlement marketId) tail -> In marketId (settlementRequests tail)).
  { intros marketId tail Hin. unfold settlementRequests. apply in_flat_map.
    exists (EvRequestSettlement marketId). cbn. auto. }
  destruct Hshape as [Hstop|Hsub].
  - destruct (stopped_projections w r evs Hstop)
      as (_ & _ & _ & [Hnone|(m & id & marketId & rest & Hm & Hopen & Hs & ->)]).
    + rewrite Hnone. split; [cbn; lia|]. split; [|reflexivity].
      intros marketId Hreq. apply Hin in Hreq. rewrite Hnone in Hreq. destruct Hreq.
    + rewrite Hs. split; [cbn; lia|]. split.
      * intros marketId' Hreq. apply Hin in Hreq. rewrite Hs in Hreq.
        destruct Hreq as [<-|[]]. eauto 10.
      * intros m' Hm' Hclosed. congruence.
  - destruct Hsub as (requestBody & marketId & id & m0 & m1 & res & judges & p
                      & _ & _ & _ & Hm0 & _ & Hres & _ & Hsub).
    unfold submitted in Hsub. cbv zeta in Hsub.
    destruct (before_projections w marketId id m0 (question m1) res judges Hres)
      as (_ & _ & _ & Hs).
    cbv zeta in Hs.
    assert (Hevs : exists tail,
              evs = ([EvGetMarket id]
                       ++ (if status m0 =? 0 then [EvRequestSettlement marketId] else [])
                       ++ [EvGetMarket id; EvResolveDiscrete marketId] ++ judges) ++ tail /\
              settlementRequests tail = []).
    { destruct (getNetwork w) as [chainId|e];
        [destruct (writeContract w) as [hash|e]|]; destruct Hsub as [_ ->];
        eexists; (split; [reflexivity|]); try reflexivity.
      destruct (signInAnonymously w); reflexivity. }
    destruct Hevs as (tail & -> & Htail).
    assert (Hreqs : settlementRequests
                      (([EvGetMarket id]
                          ++ (if status m0 =? 0 then [EvRequestSettlement marketId] else [])
                          ++ [EvGetMarket id; EvResolveDiscrete marketId] ++ judges) ++ tail)
                    = if status m0 =? 0 then [marketId] else []).
    { rewrite settlementRequests_app, Hs, Htail. apply app_nil_r. }
    split; [rewrite Hreqs; destruct (status m0 =? 0); cbn; lia|]. split.
    + intros marketId' Hreq. apply Hin in Hreq. rewrite Hreqs in Hreq.
      destruct (Z.eqb_spec (status m0) 0) as [Hopen|Hopen]; [|destruct Hreq].
      destruct Hreq as [<-|[]]. exists m0, id. eexists.
      split; [exact Hm0|]. split; [exact Hopen|]. cbn. reflexivity.
    + intros m Hm Hclosed. rewrite Hreqs.
      rewrite Hm0 in Hm. injection Hm as <-.
      destruct (Z.eqb_spec (status m0) 0); [contradiction|reflexivity].
Qed.

Lemma discreteAnswer_sound (w : World) (marketId : JsValue) (s : Discrete.Success) :
  discreteAnswer w marketId = Some s ->
  (Discrete.outcome s = YES \/ Discrete.outcome s = NO) /\ Discrete.confidence s = 10000.
Proof.
  unfold discreteAnswer. intros Hs.
  destruct (discreteService w) as [backend|e]; [|discriminate Hs].
  pose proof (POST_sound (Discrete.mkWorld (Ok (JObj [("marketId", marketId)]))
                            (getDoc backend) (fetch backend)) []) as Hsound.
  unfold run in Hs.
  destruct (fst (Discrete.POST _ [])) as [response|e]; [|discriminate Hs].
  unfold sound in Hsound.
  destruct (Discrete.body response) as [s'| |]; try discriminate Hs.
  injection Hs as ->. exact Hsound.
Qed.

Lemma submitted_projections (w : World) (marketId : JsValue) (id : Z) (m0 m1 : Market)
    (r : Resolution) (judges : list Event) (p : Parsed) (answer : Response)
    (evs : list Event) :
  resolvedBy w marketId (question m1) r judges ->
  submitted w marketId id m0 m1 r judges p answer evs ->
  judgeCalls evs = judgeCalls judges /\
  forall id' code conf rid,
    In (EvOnReport id' code conf rid) evs ->
    code = outcomeEnum (parsed_result p) /\ conf = validConfidence (parsed_confidence p).
Proof.
  intros Hres Hsub. unfold submitted in Hsub. cbv zeta in Hsub.
  destruct (before_projections w marketId id m0 (question m1) r judges Hres)
    as (Hr & _ & Hj & _).
  cbv zeta in Hr, Hj.
  assert (Hone : forall tail,
            judgeCalls tail = [] ->
            reports tail = [] \/
            reports tail = [(id, outcomeEnum (parsed_result p),
                             validConfidence (parsed_confidence p),
                             "gemini-" +:+ toText (JNum (Integer (now w 0))))] ->
            judgeCalls (([EvGetMarket id]
                           ++ (if status m0 =? 0 then [EvRequestSettlement marketId] else [])
                           ++ [EvGetMarket id; EvResolveDiscrete marketId] ++ judges) ++ tail)
            = judgeCalls judges /\
            forall id' code conf rid,
              In (EvOnReport id' code conf rid)
                (([EvGetMarket id]
                    ++ (if status m0 =? 0 then [EvRequestSettlement marketId] else [])
                    ++ [EvGetMarket id; EvResolveDiscrete marketId] ++ judges) ++ tail) ->
              code = outcomeEnum (parsed_result p) /\
              conf = validConfidence (parsed_confidence p)).
  { intros tail Hjt Hrt. split.
    - rewrite judgeCalls_app, Hj, Hjt. apply app_nil_r.
    - intros id' code conf rid Hin.
      apply reports_In in Hin. rewrite reports_app, Hr in Hin. cbn [app] in Hin.
      destruct Hrt as [Hrt|Hrt]; rewrite Hrt in Hin; [destruct Hin|].
      destruct Hin as [Heq|[]]. injection Heq as <- <- <- <-. auto. }
  destruct (getNetwork w) as [chainId|e];
    [destruct (writeContract w) as [hash|e]|]; destruct Hsub as [_ ->];
    apply Hone; cbn; auto; destruct (signInAnonymously w); cbn; auto.
Qed.

(** X10.  The judges are called only after the discrete engine declines.
    The orchestrator calls the reasoning service only when a key is
    configured and the discrete engine gave no success; it then sends one
    call, or the five calls numbered 1 to 5 when the question read from
    the ledger carries the consortium tag, and every call carries the same
    prompt, built from that question. *)
Theorem settle_judges_only_after_the_engine_declines (w : World) :
  judgeCalls (snd (POST w [])) = [] \/
  exists requestBody marketId m1,
    request_json w = Ok requestBody /\
    getProp requestBody "marketId" = Ok marketId /\
    getMarket w 1 = Ok m1 /\
    discreteAnswer w marketId = None /\
    unset (GEMINI_API_KEY w) = false /\
    judgeCalls (snd (POST w [])) =
      map (fun i => (i, promptFor (question m1)))
        (if includes "[CONSORTIUM]" (question m1) then [1; 2; 3; 4; 5] else [1]).
Proof.
  destruct (POST_outline w) as (r & evs & Hrun & [Hstop|Hsub]); rewrite Hrun; cbn [snd].
  - left. apply (stopped_projections w r evs Hstop).
  - destruct Hsub as (requestBody & marketId & id & m0 & m1 & res & judges & p
                      & Hbody & Hmid & _ & _ & Hm1 & Hres & _ & Hsub).
    destruct (submitted_projections w marketId id m0 m1 res judges p r evs Hres Hsub)
      as [-> _].
    destruct Hres as (p' & _ & Hres).
    destruct (discreteAnswer w marketId) as [s|] eqn:Hd.
    + destruct Hres as (_ & -> & _). left. reflexivity.
    + destruct (unset (GEMINI_API_KEY w)) eqn:Hkey.
      * destruct Hres as (_ & -> & _). left. reflexivity.
      * destruct Hres as (-> & _). right.
        exists requestBody, marketId, m1.
        repeat (split; [assumption || reflexivity|]).
        unfold judgeCalls. rewrite flat_map_concat_map, map_map. cbn.
        destruct (includes "[CONSORTIUM]" (question m1)); reflexivity.
Qed.

(** X11.  The discrete engine takes precedence.  Whenever the
    orchestrator submits a report for a market the discrete engine
    resolves, the report carries the engine's outcome, as NO = 1 or
    YES = 2, at confidence 10000, and no judge has been called, with or
    without the consortium tag.  Otherwise, without a key for the
    reasoning service, the report carries the mock answer, NO or YES, at
    confidence 9999, again without a judge call; with a key at least one
    judge has been called. *)
Theorem settle_discrete_answer_takes_precedence
    (w : World) (id code : Z) (conf : JsNumber) (rid : string) :
  In (EvOnReport id code conf rid) (snd (POST w [])) ->
  exists requestBody marketId,
    request_json w = Ok requestBody /\
    getProp requestBody "marketId" = Ok marketId /\
    match discreteAnswer w marketId with
    | Some s =>
        judgeCalls (snd (POST w [])) = [] /\
        code = mapOutcomeToUint (Discrete.outcome s) /\
        (code = 1 \/ code = 2) /\
        conf = Integer 10000
    | None =>
        if unset (GEMINI_API_KEY w) then
          judgeCalls (snd (POST w [])) = [] /\
          code = (if randomIndex w then 1 else 2) /\
          conf = Integer 9999
        else judgeCalls (snd (POST w [])) <> []
    end.
Proof.
  destruct (POST_outline w) as (r & evs & Hrun & [Hstop|Hsub]); rewrite Hrun; cbn [snd];
    intros Hin.
  - destruct (stopped_projections w r evs Hstop) as (_ & Hr & _).
    apply reports_In in Hin. rewrite Hr in Hin. destruct Hin.
  - destruct Hsub as (requestBody & marketId & id0 & m0 & m1 & res & judges & p
                      & Hbody & Hmid & _ & _ & Hm1 & Hres & Hp & Hsub).
    destruct (submitted_projections w marketId id0 m0 m1 res judges p r evs Hres Hsub)
      as [-> Hreport].
    destruct (Hreport id code conf rid Hin) as [-> ->].
    exists requestBody, marketId.
    split; [exact Hbody|]. split; [exact Hmid|].
    destruct Hres as (p' & Hp' & Hres).
    rewrite Hp in Hp'. injection Hp' as <-.
    destruct (discreteAnswer w marketId) as [s|] eqn:Hd.
    + destruct Hres as (-> & -> & _).
      destruct (discreteAnswer_sound w marketId s Hd) as [Ho Hc].
      cbn [parsed_result parsed_confidence]. rewrite Hc, validConfidence_integer.
      split; [reflexivity|]. split; [apply outcomeEnum_map|].
      split; [|reflexivity].
      destruct Ho as [-> | ->]; cbn; auto.
    + destruct (unset (GEMINI_API_KEY w)).
      * destruct Hres as (-> & -> & _).
        cbn [parsed_result parsed_confidence]. rewrite validConfidence_integer.
        split; [reflexivity|]. split; [|reflexivity].
        destruct (randomIndex w); reflexivity.
      * destruct Hres as (-> & _).
        destruct (includes "[CONSORTIUM]" (question m1)); discriminate.
Qed.

End SettleRuns.

Lemma settle_audit_matches_the_report_witness :
  exists rid doc,
    In (Settle.EvSetDoc rid doc) (snd (@Settle.POST Samples.runtime Samples.openPriceWorld [])) /\
    rid = "gemini-1700000000000" /\
    Settle.audit_txHash doc = "0xreport" /\
    fst (@Settle.POST Samples.runtime Samples.openPriceWorld []) =
      Ok (Settle.mkResponse 200 (Settle.SuccessBody "0xreport" (Settle.geminiResponse doc))).
Proof.
  assert (Hin : exists rid doc,
            In (Settle.EvSetDoc rid doc)
              (snd (@Settle.POST Samples.runtime Samples.openPriceWorld [])) /\
            rid = "gemini-1700000000000").
  { vm_compute. do 2 eexists. split; [do 7 right; left; reflexivity|reflexivity]. }
  destruct Hin as (rid & doc & Hin & Hrid).
  destruct (@settle_audit_matches_the_report Samples.runtime Samples.openPriceWorld
              rid doc Hin)
    as (id & hash & p & before & _ & _ & _ & Hw & Hanswer & _ & Hhash & Hp).
  exists rid, doc. split; [exact Hin|]. split; [exact Hrid|].
  vm_compute in Hw. injection Hw as <-.
  split; [exact Hhash|]. rewrite Hp. exact Hanswer.
Defined.

Lemma settle_discrete_answer_takes_precedence_witness :
  In (Settle.EvOnReport 7 2 (Integer 10000) "gemini-1700000000000")
     (snd (@Settle.POST Samples.runtime Samples.openPriceWorld [])) /\
  judgeCalls (snd (@Settle.POST Samples.runtime Samples.openPriceWorld [])) = [].
Proof.
  assert (Hin : In (Settle.EvOnReport 7 2 (Integer 10000) "gemini-1700000000000")
                  (snd (@Settle.POST Samples.runtime Samples.openPriceWorld []))).
  { vm_compute. tauto. }
  split; [exact Hin|].
  destruct (@settle_discrete_answer_takes_precedence Samples.runtime Samples.openPriceWorld
              7 2 (Integer 10000) "gemini-1700000000000" Hin)
    as (requestBody & marketId & Hbody & Hmid & Hcase).
  vm_compute in Hbody. injection Hbody as <-.
  vm_compute in Hmid. injection Hmid as <-.
  destruct (@discreteAnswer Samples.runtime Samples.openPriceWorld (JStr "7")) eqn:Hd;
    [|vm_compute in Hd; discriminate Hd].
  apply Hcase.
Defined.

(** ** The text handed to the JSON parser *)

Section CleanJson.

Lemma text_app_cons (x : ascii) (a b : string) : String x a +:+ b = String x (a +:+ b).
Proof. reflexivity. Qed.

Lemma text_app_nil (b : string) : EmptyString +:+ b = b.
Proof. reflexivity. Qed.

Lemma text_app_assoc (a b c : string) : (a +:+ b) +:+ c = a +:+ (b +:+ c).
Proof. induction a as [|x a IH]; [reflexivity|]. rewrite !text_app_cons. now rewrite IH. Qed.

Lemma text_app_empty (a : string) : a +:+ EmptyString = a.
Proof. induction a as [|x a IH]; [reflexivity|]. rewrite !text_app_cons. now rewrite IH. Qed.

Lemma lacks_app (cs : list ascii) (a b : string) :
  lacks cs (a +:+ b) = lacks cs a && lacks cs b.
Proof.
  induction a as [|x a IH]; [reflexivity|].
  rewrite text_app_cons. cbn [lacks]. rewrite IH. apply andb_assoc.
Qed.

Lemma lacks_one (c x : ascii) (s : string) :
  lacks [c] (String x s) = true -> Ascii.eqb x c = false /\ lacks [c] s = true.
Proof.
  cbn. rewrite orb_false_r. intros Hl. apply andb_true_iff in Hl as [Hx Hs].
  split; [now apply negb_true_iff|exact Hs].
Qed.

Lemma prefix_app (a s : string) :
  String.prefix a s = true -> exists rest, s = a +:+ rest.
Proof.
  revert s. induction a as [|x a IH]; intros s Hp.
  - exists s. reflexivity.
  - destruct s as [|y s]; [discriminate Hp|]. cbn in Hp.
    destruct (ascii_dec x y) as [<-|]; [|discriminate Hp].
    destruct (IH s Hp) as (rest & ->). exists rest. reflexivity.
Qed.

Lemma prefix_other (x y : ascii) (a s : string) :
  Ascii.eqb y x = false -> String.prefix (String x a) (String y s) = false.
Proof.
  intros Hxy. cbn. destruct (ascii_dec x y) as [->|]; [|reflexivity].
  now rewrite Ascii.eqb_refl in Hxy.
Qed.

(** A text without a backtick has no fence. *)
Lemma stripFencesFrom_plain (a b : string) :
  lacks ["`"%char] a = true ->
  stripFencesFrom 0 (a +:+ b) = a +:+ stripFencesFrom 0 b.
Proof.
  induction a as [|x a IH]; intros Hl; [reflexivity|].
  apply lacks_one in Hl as [Hx Hl].
  change (String x a +:+ b) with (String x (a +:+ b)).
  cbn [stripFencesFrom].
  rewrite !(prefix_other _ x) by exact Hx.
  now rewrite IH.
Qed.

(** A fence is dropped, with its [json] tag when it has one. *)
Lemma stripFencesFrom_fence (b : string) :
  exists b',
    (b = b' \/ b = "json" +:+ b') /\
    stripFencesFrom 0 ("```" +:+ b) = stripFencesFrom 0 b'.
Proof.
  destruct (String.prefix "json" b) eqn:Hp.
  - destruct (prefix_app _ _ Hp) as (b' & ->).
    exists b'. split; [now right|].
    rewrite !text_app_cons, !text_app_nil. cbn. destruct b'; reflexivity.
  - exists b. split; [now left|].
    change ("```" +:+ b) with (String "`" (String "`" (String "`" b))).
    cbn [stripFencesFrom].
    assert (Hj : String.prefix "```json" (String "`" (String "`" (String "`" b))) = false).
    { cbn. exact Hp. }
    rewrite Hj. cbn. destruct b; reflexivity.
Qed.

Lemma tag_before_brace (a rest b' : string) :
  a +:+ String "{" rest = "json" +:+ b' ->
  exists a', a = "json" +:+ a' /\ b' = a' +:+ String "{" rest.
Proof.
  intros Heq.
  destruct a as [|c1 [|c2 [|c3 [|c4 a']]]];
    rewrite ?text_app_cons, ?text_app_nil in Heq;
    try (injection Heq; intros; discriminate).
  injection Heq as -> -> -> -> <-. exists a'. split; reflexivity.
Qed.

Lemma trimStart_before (a : string) (c : ascii) (b : string) :
  isWhitespace c = false ->
  exists a',
    trimStart (a +:+ String c b) = a' +:+ String c b /\
    forall cs, lacks cs a = true -> lacks cs a' = true.
Proof.
  intros Hc. induction a as [|x a IH].
  - exists EmptyString. rewrite !text_app_nil. cbn [trimStart]. rewrite Hc. auto.
  - rewrite ?text_app_cons, ?text_app_nil; cbn [trimStart]. destruct (isWhitespace x).
    + destruct IH as (a' & Heq & Hl). exists a'. split; [exact Heq|].
      intros cs Hcs. apply Hl. cbn in Hcs. now apply andb_true_iff in Hcs as [_ Hcs].
    + exists (String x a). auto.
Qed.

Lemma trimEnd_lacks (cs : list ascii) (s : string) :
  lacks cs s = true -> lacks cs (trimEnd s) = true.
Proof.
  induction s as [|x s IH]; cbn [trimEnd lacks]; [reflexivity|].
  intros Hl. apply andb_true_iff in Hl as [Hx Hs]. specialize (IH Hs).
  destruct (trimEnd s) as [|y kept].
  - destruct (isWhitespace x); cbn; [reflexivity|]. now rewrite Hx.
  - cbn [lacks]. rewrite Hx. exact IH.
Qed.

Lemma trimEnd_after (a : string) (c : ascii) (b : string) :
  isWhitespace c = false ->
  trimEnd (a +:+ String c b) = a +:+ String c (trimEnd b).
Proof.
  intros Hc. induction a as [|x a IH].
  - rewrite ?text_app_cons, ?text_app_nil; cbn [trimEnd]. rewrite Hc. destruct (trimEnd b); reflexivity.
  - rewrite ?text_app_cons, ?text_app_nil; cbn [trimEnd]. rewrite IH. destruct a; reflexivity.
Qed.

Lemma upToLastBrace_lacks (s : string) :
  lacks ["}"%char] s = true -> upToLastBrace s = None.
Proof.
  induction s as [|x s IH]; [reflexivity|].
  intros Hl. apply lacks_one in Hl as [Hx Hl].
  cbn [upToLastBrace]. rewrite (IH Hl), Hx. reflexivity.
Qed.

Lemma upToLastBrace_app (a b : string) :
  lacks ["}"%char] b = true ->
  upToLastBrace (a +:+ String "}" b) = Some (a +:+ "}").
Proof.
  intros Hb. induction a as [|x a IH].
  - rewrite ?text_app_cons, ?text_app_nil; cbn [upToLastBrace]. rewrite (upToLastBrace_lacks b Hb). reflexivity.
  - rewrite ?text_app_cons, ?text_app_nil; cbn [upToLastBrace]. rewrite IH. reflexivity.
Qed.

Lemma matchObject_app (a rest : string) :
  lacks ["{"%char] a = true ->
  matchObject (a +:+ String "{" rest) =
  match upToLastBrace rest with
  | Some kept => Some (String "{" kept)
  | None => None
  end.
Proof.
  induction a as [|x a IH]; intros Hl; [reflexivity|].
  apply lacks_one in Hl as [Hx Hl].
  rewrite ?text_app_cons, ?text_app_nil; cbn [matchObject]. rewrite Hx. exact (IH Hl).
Qed.

(** What is handed to the parser for a text with one object in it. *)
Lemma object_kept (a body b : string) :
  lacks ["{"%char] a = true ->
  lacks ["}"%char] b = true ->
  let text := trim (a +:+ "{" +:+ body +:+ "}" +:+ b) in
  match matchObject text with
  | Some jsonMatch => jsonMatch
  | None => text
  end = "{" +:+ body +:+ "}".
Proof.
  intros Ha Hb text. subst text. unfold trim.
  change (a +:+ "{" +:+ body +:+ "}" +:+ b)
    with (a +:+ String "{" (body +:+ String "}" b)).
  destruct (trimStart_before a "{" (body +:+ String "}" b) eq_refl) as (a' & -> & Hl).
  specialize (Hl _ Ha).
  replace (a' +:+ String "{" (body +:+ String "}" b))
    with ((a' +:+ String "{" body) +:+ String "}" b)
    by (rewrite text_app_assoc; reflexivity).
  rewrite trimEnd_after by reflexivity.
  rewrite text_app_assoc. change (String "{" body +:+ String "}" (trimEnd b))
    with (String "{" (body +:+ String "}" (trimEnd b))).
  rewrite (matchObject_app a' _ Hl).
  rewrite upToLastBrace_app by (now apply trimEnd_lacks).
  reflexivity.
Qed.

Lemma lacks_two (c1 c2 : ascii) (s : string) :
  lacks [c1; c2] s = true -> lacks [c1] s = true /\ lacks [c2] s = true.
Proof.
  induction s as [|x s IH]; [auto|].
  cbn [lacks existsb]. rewrite !orb_false_r. intros Hl.
  apply andb_true_iff in Hl as [Hx Hs]. destruct (IH Hs) as [H1 H2].
  rewrite H1, H2. apply negb_true_iff, orb_false_iff in Hx as [-> ->]. auto.
Qed.

Lemma stripFences_plain (s : string) : lacks ["`"%char] s = true -> stripFences s = s.
Proof.
  intros Hl. unfold stripFences.
  rewrite <- (text_app_empty s) at 1.
  rewrite (stripFencesFrom_plain s EmptyString Hl). apply text_app_empty.
Qed.

(** The fence before the object goes, with its tag. *)
Lemma stripFencesFrom_opening (opening rest : string) :
  exists opening',
    stripFencesFrom 0 ("```" +:+ opening +:+ String "{" rest)
      = stripFencesFrom 0 (opening' +:+ String "{" rest) /\
    forall cs, lacks cs opening = true -> lacks cs opening' = true.
Proof.
  destruct (stripFencesFrom_fence (opening +:+ String "{" rest)) as (b' & [ <- | Hb ] & ->).
  - exists opening. auto.
  - destruct (tag_before_brace _ _ _ Hb) as (opening' & -> & ->).
    exists opening'. split; [reflexivity|].
    intros cs Hl. rewrite lacks_app in Hl. now apply andb_true_iff in Hl as [_ Hl].
Qed.

(** The fence after the object goes, with a tag if one follows it. *)
Lemma stripFencesFrom_closing (post : string) :
  lacks ["`"%char] post = true ->
  exists post',
    stripFencesFrom 0 ("```" +:+ post) = post' /\
    forall cs, lacks cs post = true -> lacks cs post' = true.
Proof.
  intros Hplain.
  destruct (stripFencesFrom_fence post) as (post' & [ <- | -> ] & ->).
  - exists post. split; [now apply stripFences_plain|auto].
  - rewrite lacks_app in Hplain. apply andb_true_iff in Hplain as [_ Hplain].
    exists post'. split; [now apply stripFences_plain|].
    intros cs Hl. rewrite lacks_app in Hl. now apply andb_true_iff in Hl as [_ Hl].
Qed.

Lemma stripFences_fenced (pre opening body closing post : string) :
  lacks ["`"%char; "{"%char] pre = true ->
  lacks ["`"%char; "{"%char] opening = true ->
  lacks ["`"%char] body = true ->
  lacks ["`"%char; "}"%char] closing = true ->
  lacks ["`"%char; "}"%char] post = true ->
  exists a b,
    stripFences
      (pre +:+ "```" +:+ opening +:+ "{" +:+ body +:+ "}" +:+ closing +:+ "```" +:+ post)
      = a +:+ "{" +:+ body +:+ "}" +:+ b /\
    lacks ["{"%char] a = true /\ lacks ["}"%char] b = true.
Proof.
  intros Hpre Hopen Hbody Hclose Hpost.
  apply lacks_two in Hpre as [Hpre1 Hpre2].
  apply lacks_two in Hclose as [Hclose1 Hclose2].
  apply lacks_two in Hpost as [Hpost1 Hpost2].
  unfold stripFences. rewrite (stripFencesFrom_plain pre _ Hpre1).
  destruct (stripFencesFrom_opening opening
              (body +:+ "}" +:+ closing +:+ "```" +:+ post)) as (opening' & Heq & Hl).
  change (opening +:+ "{" +:+ body +:+ "}" +:+ closing +:+ "```" +:+ post)
    with (opening +:+ String "{" (body +:+ "}" +:+ closing +:+ "```" +:+ post)).
  rewrite Heq. apply Hl, lacks_two in Hopen as [Hopen1 Hopen2].
  destruct (stripFencesFrom_closing post Hpost1) as (post' & Hpost' & Hl').
  replace (opening' +:+ String "{" (body +:+ "}" +:+ closing +:+ "```" +:+ post))
    with ((opening' +:+ "{" +:+ body +:+ "}" +:+ closing) +:+ "```" +:+ post)
    by (rewrite !text_app_assoc; reflexivity).
  rewrite stripFencesFrom_plain, Hpost'.
  - exists (pre +:+ opening'), (closing +:+ post').
    split; [rewrite !text_app_assoc; reflexivity|].
    rewrite !lacks_app, Hpre2, Hopen2, Hclose2, (Hl' _ Hpost2). auto.
  - rewrite !lacks_app, Hopen1, Hbody, Hclose1. reflexivity.
Qed.

(** X12.  The text handed to the JSON parser is the object of the
    reply.  When the reply of the reasoning service holds one object
    between prose, with or without code fences around it (with or without
    the [json] tag), the settlement judge and the classifier parse exactly
    the text from the opening brace to the closing brace: the prose before
    and after it, the fences and the white space are dropped. *)
Theorem cleanJson_keeps_the_object (pre opening body closing post : string) :
  lacks ["`"%char; "{"%char] pre = true ->
  lacks ["`"%char; "{"%char] opening = true ->
  lacks ["`"%char] body = true ->
  lacks ["`"%char; "}"%char] closing = true ->
  lacks ["`"%char; "}"%char] post = true ->
  Settle.cleanJson (pre +:+ "{" +:+ body +:+ "}" +:+ post) = "{" +:+ body +:+ "}" /\
  Settle.cleanJson
    (pre +:+ "```" +:+ opening +:+ "{" +:+ body +:+ "}" +:+ closing +:+ "```" +:+ post)
    = "{" +:+ body +:+ "}" /\
  Create.cleanJson (pre +:+ "{" +:+ body +:+ "}" +:+ post) = "{" +:+ body +:+ "}" /\
  Create.cleanJson
    (pre +:+ "```" +:+ opening +:+ "{" +:+ body +:+ "}" +:+ closing +:+ "```" +:+ post)
    = "{" +:+ body +:+ "}".
Proof.
  intros Hpre Hopen Hbody Hclose Hpost.
  assert (Hkept : forall text a b,
            stripFences text = a +:+ "{" +:+ body +:+ "}" +:+ b ->
            lacks ["{"%char] a = true -> lacks ["}"%char] b = true ->
            Settle.cleanJson text = "{" +:+ body +:+ "}" /\
            Create.cleanJson text = "{" +:+ body +:+ "}").
  { intros text a b Heq Ha Hb.
    unfold Settle.cleanJson, Create.cleanJson. rewrite Heq.
    split; exact (object_kept a body b Ha Hb). }
  destruct (stripFences_fenced pre opening body closing post Hpre Hopen Hbody Hclose Hpost)
    as (a & b & Heq & Ha & Hb).
  destruct (Hkept _ a b Heq Ha Hb) as [Hsettle Hcreate].
  apply lacks_two in Hpre as [Hpre1 Hpre2].
  apply lacks_two in Hpost as [Hpost1 Hpost2].
  destruct (Hkept (pre +:+ "{" +:+ body +:+ "}" +:+ post) pre post) as [Hsettle' Hcreate'];
    [|assumption|assumption|auto].
  apply stripFences_plain.
  rewrite !lacks_app, Hpre1, Hbody, Hpost1. reflexivity.
Qed.

End CleanJson.

Lemma cleanJson_keeps_the_object_witness :
  Settle.cleanJson "Sure: ```json {a} ``` bye" = "{a}" /\
  Create.cleanJson "Sure: {a} bye" = "{a}".
Proof.
  destruct (cleanJson_keeps_the_object "Sure: " "json " "a" " " " bye"
              eq_refl eq_refl eq_refl eq_refl eq_refl) as (_ & Hfenced & Hplain & _).
  split; [exact Hfenced|exact Hplain].
Defined.

(** ** Market creation: calls, answer and store *)

Section CreateRuns.
Import Create.
Context `{JsRuntime}.
Variable CLASSIFICATION_PROMPT : string.

Lemma logged_nil (st : State) : logged [] st = st.
Proof. destruct st. unfold logged. cbn. now rewrite app_nil_r. Qed.

Lemma attemptCalls_attempt (w : World) (q : JsValue) (d : JsNumber) (nonce n : Z) :
  nonce <= n <= nonce + 2 ->
  Forall (attemptCall q d nonce) (attemptCalls w q d n).
Proof.
  intros Hn. unfold attemptCalls.
  constructor; [cbn; auto|].
  destruct (newMarket w n); repeat constructor.
Qed.

(** The calls of the retry loop, and what it returns. *)
Lemma newMarketLoop_calls (w : World) (q : JsValue) (d : JsNumber) (nonce : Z)
    (remaining : nat) (st : State) :
  (remaining <= 3)%nat ->
  exists outcome evs,
    newMarketLoop w q d nonce remaining st = (outcome, logged evs st) /\
    Forall (attemptCall q d nonce) evs /\
    match outcome with
    | Ok (Some tx) => exists n, nonce <= n <= nonce + 2 /\ attempt w n = Ok tx
    | Ok None => remaining = 0%nat
    | Throw _ => True
    end.
Proof.
  revert st. induction remaining as [|remaining IH]; intros st Hle.
  - exists (Ok None), []. rewrite logged_nil. cbn. auto.
  - rewrite newMarketLoop_turn. cbv zeta.
    assert (Hn : nonce <= nonce + (maxAttempts - Z.of_nat (S remaining)) <= nonce + 2)
      by (unfold maxAttempts; lia).
    pose proof (attemptCalls_attempt w q d nonce _ Hn) as Hcalls.
    destruct (attempt w _) as [tx|e] eqn:Hattempt.
    + do 2 eexists. split; [reflexivity|]. split; [exact Hcalls|]. eauto.
    + destruct (isNonceError e && _) eqn:Hretry.
      * apply andb_true_iff in Hretry as [_ Hmore]. apply Z.ltb_lt in Hmore.
        unfold maxAttempts in Hmore.
        destruct (IH (logged (attemptCalls w q d
                                (nonce + (maxAttempts - Z.of_nat (S remaining)))
                                ++ [EvSleep 1000]) st))
          as (outcome & evs & -> & Hevs & Hout); [lia|].
        rewrite logged_logged. do 2 eexists. split; [reflexivity|].
        split.
        -- rewrite !Forall_app. repeat split; try assumption.
           repeat constructor.
        -- destruct outcome as [[tx|]|e']; try assumption. lia.
      * do 2 eexists. split; [reflexivity|]. split; [exact Hcalls|]. exact I.
Qed.

Lemma creationCall_attempt (requestBody : JsValue) (base : Z) (evs : list Event) :
  let question := requestField requestBody "question" in
  let duration := requestField requestBody "duration" in
  truthy question = true ->
  Forall (attemptCall
            (if truthy (requestField requestBody "isConsortium")
             then JStr (toText question +:+ " [CONSORTIUM]") else question)
            (if truthy duration && negb (isNaN (toNumber duration))
                && numGe (toNumber duration) (Integer 10)
             then toNumber duration else Integer 10)
            base) evs ->
  Forall (creationCall requestBody base) evs.
Proof.
  intros question duration Hq. apply List.Forall_impl. intros ev.
  destruct ev; cbn; try tauto.
  intros (-> & -> & Hn & ->). fold question duration.
  repeat (split; [assumption || reflexivity|]).
  split; [|auto].
  destruct (truthy duration && negb (isNaN (toNumber duration))
            && numGe (toNumber duration) (Integer 10)) eqn:Hvalid; [|reflexivity].
  now apply andb_true_iff in Hvalid as [_ Hge].
Qed.

(** The request up to the confirmed creation. *)
Lemma createOnChain_run (w : World) (st : State) :
  exists outcome evs,
    createOnChain w st = (outcome, logged evs st) /\
    match outcome with
    | Ok (Continue (marketId, question, tx)) =>
        created w marketId question tx /\
        exists requestBody base,
          request_json w = Ok requestBody /\
          getTransactionCount w = Ok base /\
          Forall (creationCall requestBody base) evs
    | Ok (Return r) =>
        evs = [] /\
        (code r = 400 \/ code r = 500) /\
        exists error, body r = ErrorBody (Some error)
    | Throw e =>
        evs = [] \/ evs = [EvNextMarketId] \/
        evs = [EvNextMarketId; EvGetTransactionCount] \/
        exists requestBody base,
          request_json w = Ok requestBody /\
          getTransactionCount w = Ok base /\
          Forall (creationCall requestBody base) evs
    end.
Proof.
  assert (Hthrow : forall e,
            exists outcome evs,
              (Throw e, st) = (outcome, logged evs st) /\
              match outcome with
              | Ok (Continue (marketId, question, tx)) =>
                  created w marketId question tx /\
                  exists requestBody base,
                    request_json w = Ok requestBody /\
                    getTransactionCount w = Ok base /\
                    Forall (creationCall requestBody base) evs
              | Ok (Return r) =>
                  evs = [] /\
                  (code r = 400 \/ code r = 500) /\
                  exists error, body r = ErrorBody (Some error)
              | Throw e =>
                  evs = [] \/ evs = [EvNextMarketId] \/
                  evs = [EvNextMarketId; EvGetTransactionCount] \/
                  exists requestBody base,
                    request_json w = Ok requestBody /\
                    getTransactionCount w = Ok base /\
                    Forall (creationCall requestBody base) evs
              end).
  { intros e. exists (Throw e), []. rewrite logged_nil. auto. }
  unfold createOnChain.
  unfold bind at 1. unfold lift at 1.
  destruct (request_json w) as [requestBody|e] eqn:Hbody; [|apply Hthrow].
  unfold bind at 1. unfold lift at 1.
  destruct (getProp requestBody "question") as [question|e] eqn:Hq; [|apply Hthrow].
  unfold bind at 1. unfold lift at 1.
  destruct (getProp requestBody "duration") as [duration|e] eqn:Hd; [|apply Hthrow].
  unfold bind at 1. unfold lift at 1.
  destruct (getProp requestBody "isConsortium") as [isConsortium|e] eqn:Hc; [|apply Hthrow].
  destruct (truthy question) eqn:Htruthy; cbn [negb].
  2:{ do 2 eexists. split; [unfold ret; rewrite <- (logged_nil st) at 1; reflexivity|].
      cbn. eauto. }
  destruct (Settle.unset (RPC_URL w) || Settle.unset (CRE_ETH_PRIVATE_KEY w)
            || Settle.unset (NEXT_PUBLIC_MARKET_ADDRESS w)).
  { do 2 eexists. split; [unfold ret; rewrite <- (logged_nil st) at 1; reflexivity|].
    cbn. eauto. }
  unfold bind at 1. unfold lift at 1.
  destruct (connect w) as [[]|e]; [|apply Hthrow].
  unfold bind at 1. unfold call at 1.
  destruct (nextMarketId w) as [nextId|e] eqn:Hnext.
  2:{ exists (Throw e), [EvNextMarketId]. split; [reflexivity|]. auto. }
  unfold bind at 1. unfold call at 1.
  destruct (getTransactionCount w) as [base|e] eqn:Hbase.
  2:{ exists (Throw e), [EvNextMarketId; EvGetTransactionCount].
      split; [|auto]. unfold record, state_traced, logged. cbn.
      rewrite <- app_assoc. reflexivity. }
  unfold bind at 1.
  assert (Hfields : requestField requestBody "question" = question /\
                    requestField requestBody "duration" = duration /\
                    requestField requestBody "isConsortium" = isConsortium).
  { unfold requestField. rewrite Hq, Hd, Hc. auto. }
  destruct Hfields as (Fq & Fd & Fc).
  match goal with
  | |- context [newMarketLoop w ?fq ?md base _ ?s] =>
      destruct (newMarketLoop_calls w fq md base (Z.to_nat maxAttempts) s)
        as (outcome & evs & -> & Hevs & Hout); [change (3 <= 3)%nat; lia|]
  end.
  assert (Hcalls : Forall (creationCall requestBody base)
                     ([EvNextMarketId; EvGetTransactionCount] ++ evs)).
  { apply Forall_app. split; [repeat constructor|].
    apply creationCall_attempt; rewrite ?Fq, ?Fd, ?Fc; assumption. }
  assert (Hstate : logged evs (record EvGetTransactionCount (record EvNextMarketId st))
                   = logged ([EvNextMarketId; EvGetTransactionCount] ++ evs) st).
  { unfold record, state_traced, logged. cbn. rewrite <- !app_assoc. reflexivity. }
  rewrite Hstate.
  destruct outcome as [[tx|]|e].
  - do 2 eexists. split; [reflexivity|]. split; [|eauto].
    destruct Hout as (n & Hn & Hattempt).
    exists requestBody, nextId, base, n. rewrite Fq. auto 10.
  - discriminate Hout.
  - do 2 eexists. split; [reflexivity|]. right. right. right. eauto.
Qed.

(** The classification stage. *)
Lemma classification_run (w : World) (marketId : string) (question : JsValue) (st : State) :
  exists oracleSpec evs after,
    classification CLASSIFICATION_PROMPT w marketId question st
      = (Ok oracleSpec, mkState (trace st ++ evs) after) /\
    classified CLASSIFICATION_PROMPT w marketId question oracleSpec evs
      (oracle_specs st) after.
Proof.
  unfold classification, classified. cbv zeta.
  destruct (Settle.unset (GEMINI_API_KEY w)).
  { exists None, [], (oracle_specs st). split; [|auto].
    unfold ret. rewrite app_nil_r. destruct st; reflexivity. }
  fold (classifierPrompt CLASSIFICATION_PROMPT (toText question)).
  unfold classify, try_catch, bind, call, lift, ret, classifierAnswer, storeSpec, modify,
    record, state_traced.
  fold (classifierPrompt CLASSIFICATION_PROMPT (toText question)).
  destruct (generateContent w) as [result|e]; [|do 3 eexists; split; [reflexivity|auto]].
  destruct (Settle.response_text result) as [text|e];
    [|do 3 eexists; split; [reflexivity|auto]].
  destruct (JSON_parse (cleanJson text)) as [parsed|e];
    [|do 3 eexists; split; [reflexivity|auto]].
  destruct (buildSpec w parsed) as [built|e]; [|do 3 eexists; split; [reflexivity|auto]].
  unfold bind, call, record, state_traced.
  destruct (setDoc w) as [[]|e]; cbn [trace oracle_specs]; rewrite <- app_assoc;
    do 3 eexists; (split; [reflexivity|auto]).
Qed.

(** The runs of the handler: it ends early, with an error and the
    collection as it was, or it creates the market and classifies it. *)
Lemma create_run (w : World) (st : State) :
  exists r evs after,
    POST CLASSIFICATION_PROMPT w st = (Ok r, mkState (trace st ++ evs) after) /\
    ((endsEarly w r evs /\ after = oracle_specs st) \/
     exists marketId question tx requestBody base evs1 evs2 oracleSpec,
       created w marketId question tx /\
       request_json w = Ok requestBody /\
       getTransactionCount w = Ok base /\
       Forall (creationCall requestBody base) evs1 /\
       evs = evs1 ++ evs2 /\
       r = mkResponse 200 (SuccessBody marketId (hash tx) (oracleType oracleSpec)) /\
       classified CLASSIFICATION_PROMPT w marketId question oracleSpec evs2
         (oracle_specs st) after).
Proof.
  unfold POST, try_catch, bind.
  destruct (createOnChain_run w st) as (outcome & evs & -> & Hout).
  destruct outcome as [[r|[[marketId question] tx]]|e].
  - destruct Hout as (-> & Hcode & Herror).
    exists r, [], (oracle_specs st). split; [reflexivity|]. left.
    split; [|reflexivity]. destruct Herror as (error & Herror).
    unfold endsEarly. rewrite Herror. eauto 10.
  - destruct Hout as (Hcreated & requestBody & base & Hbody & Hbase & Hcalls).
    destruct (classification_run w marketId question (logged evs st))
      as (oracleSpec & evs2 & after & -> & Hclass).
    exists (mkResponse 200 (SuccessBody marketId (hash tx) (oracleType oracleSpec))),
      (evs ++ evs2), after.
    split; [unfold ret, logged; cbn; rewrite app_assoc; reflexivity|]. right.
    exists marketId, question, tx, requestBody, base, evs, evs2, oracleSpec.
    repeat (split; [assumption || reflexivity|]). exact Hclass.
  - exists (mkResponse 500 (ErrorBody (message e))), evs, (oracle_specs st).
    split; [reflexivity|]. left. split; [|reflexivity].
    unfold endsEarly. cbn. split; [auto|]. split; [eauto|]. split; [discriminate|].
    exact Hout.
Qed.

Lemma classified_calls (w : World) (marketId : string) (question : JsValue)
    (oracleSpec : option OracleSpec) (evs : list Event)
    (before after : gmap string SpecRecord) :
  classified CLASSIFICATION_PROMPT w marketId question oracleSpec evs before after ->
  (forall q d n gasLimit, ~ In (EvNewMarket q d n gasLimit) evs) /\
  (forall prompt,
     In (EvGenerateContent prompt) evs ->
     Settle.unset (GEMINI_API_KEY w) = false /\
     prompt = classifierPrompt CLASSIFICATION_PROMPT (toText question)).
Proof.
  unfold classified. cbv zeta.
  destruct (Settle.unset (GEMINI_API_KEY w)).
  { intros (_ & -> & _). split; [intros q d n g []|intros prompt []]. }
  destruct (classifierAnswer w) as [built|e].
  - intros (-> & _). split.
    + intros q d n g [Hin|[Hin|[]]]; discriminate Hin.
    + intros prompt [Hin|[Hin|[]]]; [|discriminate Hin].
      injection Hin as <-. auto.
  - intros (-> & _). split.
    + intros q d n g [Hin|[]]. discriminate Hin.
    + intros prompt [Hin|[]]. injection Hin as <-. auto.
Qed.

Lemma creationCall_In (requestBody : JsValue) (base : Z) (evs : list Event) :
  Forall (creationCall requestBody base) evs ->
  (forall prompt, ~ In (EvGenerateContent prompt) evs) /\
  (forall q d n gasLimit,
     In (EvNewMarket q d n gasLimit) evs ->
     creationCall requestBody base (EvNewMarket q d n gasLimit)).
Proof.
  intros Hall. rewrite List.Forall_forall in Hall. split.
  - intros prompt Hin. exact (Hall _ Hin).
  - intros q d n g Hin. exact (Hall _ Hin).
Qed.

(** X13.  The creation is sent as validated.  Every [newMarket] call of
    the creation handler carries a truthy question, with the tag
    [ [CONSORTIUM]] appended exactly when the request asks for the
    consortium; the requested duration when it is a number of at least 10,
    and 10 otherwise, so never a duration below 10; a nonce among the
    pending transaction count and the next two; and the gas limit 500000.  The classifier is called only with a
    key and after a confirmed creation, on the question without the tag. *)
Theorem creation_is_sent_as_validated (w : World) (st : State) :
  exists evs,
    trace (snd (POST CLASSIFICATION_PROMPT w st)) = trace st ++ evs /\
    (forall q d n gasLimit,
       In (EvNewMarket q d n gasLimit) evs ->
       exists requestBody base,
         request_json w = Ok requestBody /\
         getTransactionCount w = Ok base /\
         let question := requestField requestBody "question" in
         truthy question = true /\
         q = (if truthy (requestField requestBody "isConsortium")
              then JStr (toText question +:+ " [CONSORTIUM]") else question) /\
         let duration := requestField requestBody "duration" in
         d = (if truthy duration && negb (isNaN (toNumber duration))
                 && numGe (toNumber duration) (Integer 10)
              then toNumber duration else Integer 10) /\
         numGe d (Integer 10) = true /\
         base <= n <= base + 2 /\
         gasLimit = 500000) /\
    (forall prompt,
       In (EvGenerateContent prompt) evs ->
       Settle.unset (GEMINI_API_KEY w) = false /\
       exists marketId question tx,
         created w marketId question tx /\
         prompt = classifierPrompt CLASSIFICATION_PROMPT (toText question)).
Proof.
  destruct (create_run w st) as (r & evs & after & -> & Hrun).
  exists evs. split; [reflexivity|].
  destruct Hrun as [[Hearly _]|Hcreated].
  - destruct Hearly as (_ & _ & _ & [->|[->|[->|Hcalls]]]).
    + split; [intros q d n g []|intros prompt []].
    + split; [intros q d n g [Hin|[]]|intros prompt [Hin|[]]]; discriminate Hin.
    + split; [intros q d n g [Hin|[Hin|[]]]|intros prompt [Hin|[Hin|[]]]];
        discriminate Hin.
    + destruct Hcalls as (requestBody & base & Hbody & Hbase & Hcalls).
      apply creationCall_In in Hcalls as [Hnone Hnew]. split.
      * intros q d n g Hin. exists requestBody, base.
        split; [exact Hbody|]. split; [exact Hbase|]. exact (Hnew q d n g Hin).
      * intros prompt Hin. destruct (Hnone prompt Hin).
  - destruct Hcreated as (marketId & question & tx & requestBody & base & evs1 & evs2
                          & oracleSpec & Hcreated & Hbody & Hbase & Hcalls & -> & _ & Hclass).
    apply creationCall_In in Hcalls as [Hnone Hnew].
    apply classified_calls in Hclass as [Hnot Hprompt]. split.
    + intros q d n g Hin. apply in_app_or in Hin as [Hin|Hin]; [|destruct (Hnot _ _ _ _ Hin)].
      exists requestBody, base.
      split; [exact Hbody|]. split; [exact Hbase|]. exact (Hnew q d n g Hin).
    + intros prompt Hin. apply in_app_or in Hin as [Hin|Hin]; [destruct (Hnone _ Hin)|].
      destruct (Hprompt prompt Hin) as [Hkey ->]. split; [exact Hkey|]. eauto.
Qed.

(** X14.  The answer and the store of a creation.  The handler always
    answers, with status 200, 400 or 500.  An answer other than 200 is an
    error and leaves the collection [oracle_specs] as it was.  An answer
    200 names the market id read from the ledger and the hash of a
    confirmed creation sent with one of the three nonces; its oracle type
    is UNKNOWN exactly when no key is set; the collection changes at most
    at the key of the new market, and there only to the spec the
    classifier built, with the question as it was asked. *)
Theorem creation_answer_and_store (w : World) (st : State) :
  exists r st',
    POST CLASSIFICATION_PROMPT w st = (Ok r, st') /\
    (code r = 200 \/ code r = 400 \/ code r = 500) /\
    (code r <> 200 ->
       oracle_specs st' = oracle_specs st /\ exists error, body r = ErrorBody error) /\
    (code r = 200 ->
       exists marketId question tx type,
         created w marketId question tx /\
         body r = SuccessBody marketId (hash tx) type /\
         (type = "DISCRETE" \/ type = "CONTIGUOUS" \/ type = "UNKNOWN") /\
         (type = "UNKNOWN" <-> Settle.unset (GEMINI_API_KEY w) = true) /\
         (forall k, k <> marketId -> oracle_specs st' !! k = oracle_specs st !! k) /\
         (oracle_specs st' = oracle_specs st \/
          exists built,
            classifierAnswer w = Ok built /\
            setDoc w = Ok tt /\
            type = oracleType (Some built) /\
            oracle_specs st' !! marketId
              = Some (mkSpecRecord marketId question built (now w)))).
Proof.
  destruct (create_run w st) as (r & evs & after & Hrun & Hshape).
  do 2 eexists. split; [exact Hrun|]. cbn [oracle_specs].
  destruct Hshape as [[Hearly ->]|Hcreated].
  - destruct Hearly as (Hcode & Herror & _).
    split; [tauto|]. split; [auto|]. intros H200. lia.
  - destruct Hcreated as (marketId & question & tx & requestBody & base & evs1 & evs2
                          & oracleSpec & Hcreated & _ & _ & _ & _ & -> & Hclass).
    cbn [code body]. split; [auto|]. split; [intros Hne; contradiction|]. intros _.
    exists marketId, question, tx, (oracleType oracleSpec).
    split; [exact Hcreated|]. split; [reflexivity|].
    unfold classified in Hclass. cbv zeta in Hclass.
    assert (Htypes : forall spec,
              (oracleType (Some spec) = "DISCRETE" \/ oracleType (Some spec) = "CONTIGUOUS"
               \/ oracleType (Some spec) = "UNKNOWN") /\
              (oracleType (Some spec) = "UNKNOWN" <-> false = true)).
    { intros [| ]; cbn; split; auto; split; discriminate. }
    destruct (Settle.unset (GEMINI_API_KEY w)).
    { destruct Hclass as (-> & _ & ->). cbn [oracleType].
      split; [auto|]. split; [split; reflexivity|]. auto. }
    destruct (classifierAnswer w) as [built|e].
    + destruct Hclass as (_ & Hclass).
      destruct (setDoc w) as [[]|e]; destruct Hclass as [-> ->].
      * destruct (Htypes built) as [Hone Hunknown].
        split; [exact Hone|]. split; [exact Hunknown|]. split.
        -- intros k Hk. apply lookup_insert_ne. congruence.
        -- right. exists built. repeat split. apply lookup_insert_eq.
      * destruct (Htypes fallbackSpec) as [Hone Hunknown]. auto.
    + destruct Hclass as (_ & -> & ->).
      destruct (Htypes fallbackSpec) as [Hone Hunknown]. auto.
Qed.

End CreateRuns.

(** ** The consortium tag, from creation to settlement *)

Section ConsortiumTag.
Import Settle.
Context `{JsRuntime}.







End ConsortiumTag.


(** ** Admin manual settlement: calls, success and rejections *)

Section Framed.
Context {E : Type}.

Lemma bind_framed {A B} (m : M (list E) A) (k : A -> M (list E) B) (t : list E) :
  framed m ->
  bind m k t =
  match fst (m []) with
  | Ok a => k a (t ++ snd (m []))
  | Throw e => (Throw e, t ++ snd (m []))
  end.
Proof. intros Hm. unfold bind. rewrite (Hm t). destruct (m []) as [[a|e] evs]; reflexivity. Qed.

End Framed.

Section AdminRuns.
Import Admin.
Context `{JsRuntime}.

Lemma getProp_nullish (v : JsValue) (key : string) :
  Discrete.isNullish v = true -> exists e, getProp v key = Throw e.
Proof. destruct v; try discriminate; intros _; eexists; reflexivity. Qed.

Lemma settleByStatus_framed w status marketId code confidence rid :
  framed (settleByStatus w status marketId code confidence rid).
Proof. unfold settleByStatus. framed_auto. Qed.

(** The ledger calls for a status that has a branch. *)
Ltac permitted_calls :=
  repeat (apply List.Forall_cons; [cbn; auto 10|]); apply List.Forall_nil.

Ltac no_sends :=
  intros ? ? [(? & ? & ?)|[(? & ? & ? & ? & ? & ?)|(? & ? & ?)]]; try lia; congruence.

Lemma settleByStatus_run (w : World) (status : Z) (marketId : JsValue) (code : Z)
    (rid : string) :
  (status =? 3) || (status =? 0) || (status =? 1) = true ->
  (exists e calls,
     settleByStatus w status marketId code 10000 rid [] = (Throw e, calls) /\
     calls <> [] /\ Forall (permitted status marketId code rid) calls /\
     forall tx calls', ~ sends w status marketId code rid tx calls') \/
  (exists tx calls,
     settleByStatus w status marketId code 10000 rid [] = (Ok (Some tx), calls) /\
     sends w status marketId code rid tx calls /\
     Forall (permitted status marketId code rid) calls).
Proof.
  intros Hstatus. unfold settleByStatus, sends.
  destruct (Z.eqb_spec status 3) as [->|H3].
  { rewrite bind_call. cbn [app].
    destruct (settleMarketManually w) as [tx|e] eqn:Hmanual.
    - right. exists tx. eexists. split; [reflexivity|]. split; [auto|]. permitted_calls.
    - left. exists e. eexists. split; [reflexivity|]. split; [discriminate|].
      split; [permitted_calls|no_sends]. }
  destruct (Z.eqb_spec status 0) as [->|H0].
  { rewrite bind_call. cbn [app].
    destruct (requestSettlement w) as [reqTx|e] eqn:Hrequest.
    2:{ left. exists e. eexists. split; [reflexivity|]. split; [discriminate|].
        split; [permitted_calls|no_sends]. }
    rewrite bind_call. cbn [app].
    destruct (wait reqTx) as [[]|e] eqn:Hwait.
    2:{ left. exists e. eexists. split; [reflexivity|]. split; [discriminate|].
        split; [permitted_calls|no_sends]. }
    rewrite bind_call. cbn [app].
    destruct (submitReport w) as [tx|e] eqn:Hsubmit.
    - right. exists tx. eexists. split; [reflexivity|]. split; [|permitted_calls].
      right. left. split; [reflexivity|]. exists reqTx. auto.
    - left. exists e. eexists. split; [reflexivity|]. split; [discriminate|].
      split; [permitted_calls|no_sends]. }
  destruct (Z.eqb_spec status 1) as [->|H1]; [|discriminate Hstatus].
  rewrite bind_call. cbn [app].
  destruct (submitReport w) as [tx|e] eqn:Hsubmit.
  - right. exists tx. eexists. split; [reflexivity|]. split; [auto 10|]. permitted_calls.
  - left. exists e. eexists. split; [reflexivity|]. split; [discriminate|].
    split; [permitted_calls|no_sends].
Qed.

Lemma settleByStatus_unknown (w : World) (status : Z) (marketId : JsValue) (code : Z)
    (rid : string) :
  (status =? 3) || (status =? 0) || (status =? 1) = false ->
  settleByStatus w status marketId code 10000 rid [] = (Ok None, []).
Proof.
  intros Hstatus. unfold settleByStatus.
  apply orb_false_iff in Hstatus as [Hstatus H1].
  apply orb_false_iff in Hstatus as [H3 H0].
  rewrite H3, H0, H1. reflexivity.
Qed.

(** The calls after the settling transaction. *)
Ltac trace_eq :=
  unfold record, list_traced; cbn [firstn app]; rewrite <- ?app_assoc; reflexivity.

Lemma recording_run (w : World) (tx : Tx) (rid : string) (override : AdminOverride)
    (answer : Response) (t : list Event) :
  (call (EvWait (hash tx)) (wait tx) ;;;
   call EvSignIn (signInAnonymously w) ;;;
   upsert w settlements rid override ;;;
   upsert w demo rid override ;;;
   ret answer)%js t
  = match recorded w tx with
    | (Ok _, _) => (Ok answer, t ++ recordCalls w tx rid override)
    | (Throw e, made) => (Throw e, t ++ firstn made (recordCalls w tx rid override))
    end.
Proof.
  unfold recorded, recordCalls, written, auditWrite, upsert.
  rewrite bind_call. destruct (wait tx) as [[]|e]; [|trace_eq].
  rewrite bind_call. destruct (signInAnonymously w) as [[]|e];
    [|trace_eq].
  unfold bind at 1. rewrite bind_call.
  destruct (getDocs w settlements) as [[existing|]|e];
    [| |trace_eq].
  - unfold call at 1. destruct (updateDoc w settlements) as [[]|e];
      [|trace_eq].
    unfold bind at 1. rewrite bind_call.
    destruct (getDocs w demo) as [[existing'|]|e];
      [| |trace_eq].
    + unfold call at 1. destruct (updateDoc w demo) as [[]|e];
        trace_eq.
    + unfold call at 1. destruct (setDoc w demo) as [[]|e];
        trace_eq.
  - unfold call at 1. destruct (setDoc w settlements) as [[]|e];
      [|trace_eq].
    unfold bind at 1. rewrite bind_call.
    destruct (getDocs w demo) as [[existing'|]|e];
      [| |trace_eq].
    + unfold call at 1. destruct (updateDoc w demo) as [[]|e];
        trace_eq.
    + unfold call at 1. destruct (setDoc w demo) as [[]|e];
        trace_eq.
Qed.

(** The runs of the handler: the request is answered before any call, or
    it is accepted and the market is read. *)
Lemma admin_run (w : World) :
  exists r evs,
    POST w [] = (Ok r, evs) /\
    ((declined w r /\ evs = []) \/
     exists requestBody,
       request_json w = Ok requestBody /\ accepted requestBody /\ configured w = true /\
       let marketId := requestField requestBody "marketId" in
       match getMarket w with
       | Throw e => r = adminFailure e /\ evs = [EvGetMarket marketId]
       | Ok m =>
           exists evs',
             evs = EvGetMarket marketId :: evs' /\
             settledRun w requestBody (Settle.status m) r evs'
       end).
Proof.
  unfold POST, try_catch.
  rewrite bind_lift.
  destruct (request_json w) as [requestBody|e] eqn:Hbody.
  2:{ exists (adminFailure e), []. split; [reflexivity|]. left. split; [|reflexivity].
      unfold declined, adminFailure. cbn [code body]. split; [auto|]. split; [eauto|]. split.
      - split; [discriminate|]. intros (requestBody & Hb & _). congruence.
      - intros requestBody Hb. congruence. }
  destruct (Discrete.isNullish requestBody) eqn:Hnull.
  { destruct (getProp_nullish requestBody "marketId" Hnull) as [e He].
    rewrite bind_lift, He.
    exists (adminFailure e), []. split; [reflexivity|]. left. split; [|reflexivity].
    unfold declined, adminFailure. cbn [code body]. split; [auto|]. split; [eauto|]. split.
    - split; [discriminate|]. intros (requestBody' & Hb & Hn & _). congruence.
    - intros requestBody' Hb (Hp & _).
      assert (requestBody' = requestBody) as -> by congruence.
      unfold requestField in Hp.
      destruct (getProp_nullish requestBody "adminPassword" Hnull) as [e' He'].
      rewrite He' in Hp. discriminate Hp. }
  destruct (getProp_defined requestBody "marketId" Hnull) as [marketId Hmid].
  destruct (getProp_defined requestBody "outcome" Hnull) as [outcome Hout].
  destruct (getProp_defined requestBody "source" Hnull) as [source Hsrc].
  destruct (getProp_defined requestBody "comments" Hnull) as [comments Hcom].
  destruct (getProp_defined requestBody "adminPassword" Hnull) as [adminPassword Hpw].
  rewrite bind_lift, Hmid, bind_lift, Hout, bind_lift, Hsrc, bind_lift, Hcom, bind_lift, Hpw.
  assert (Fmid : requestField requestBody "marketId" = marketId)
    by (unfold requestField; now rewrite Hmid).
  assert (Fout : requestField requestBody "outcome" = outcome)
    by (unfold requestField; now rewrite Hout).
  assert (Fsrc : requestField requestBody "source" = source)
    by (unfold requestField; now rewrite Hsrc).
  assert (Fcom : requestField requestBody "comments" = comments)
    by (unfold requestField; now rewrite Hcom).
  assert (Fpw : requestField requestBody "adminPassword" = adminPassword)
    by (unfold requestField; now rewrite Hpw).
  destruct (wrongPassword adminPassword) eqn:Hwrong.
  { do 2 eexists. split; [reflexivity|]. left. split; [|reflexivity].
    unfold declined, adminFailure. cbn [code body]. split; [auto|]. split; [eauto|]. split.
    - split; [intros _|reflexivity]. exists requestBody. rewrite Fpw. auto.
    - intros requestBody' Hb (Hp & _). congruence. }
  assert (Hnot401 : forall c : Z,
            c <> 401 ->
            c = 401 <->
            exists requestBody',
              request_json w = Ok requestBody' /\
              Discrete.isNullish requestBody' = false /\
              wrongPassword (requestField requestBody' "adminPassword") = true).
  { intros c Hc. split; [contradiction|].
    intros (requestBody' & Hb & _ & Hp). congruence. }
  destruct (negb (truthy marketId) || negb (truthy outcome) || negb (truthy source))
    eqn:Hmissing.
  { do 2 eexists. split; [reflexivity|]. left. split; [|reflexivity].
    unfold declined, adminFailure. cbn [code body]. split; [auto|]. split; [eauto|].
    split; [apply Hnot401; discriminate|].
    intros requestBody' Hb (_ & Hm & Ho & Hs & _).
    assert (requestBody' = requestBody) as -> by congruence.
    rewrite Fmid in Hm. rewrite Fout in Ho. rewrite Fsrc in Hs.
    rewrite Hm, Ho, Hs in Hmissing. discriminate Hmissing. }
  destruct (isYesOrNo outcome) eqn:Hyn; cbn [negb].
  2:{ do 2 eexists. split; [reflexivity|]. left. split; [|reflexivity].
      unfold declined, adminFailure. cbn [code body]. split; [auto|]. split; [eauto|].
      split; [apply Hnot401; discriminate|].
      intros requestBody' Hb (_ & _ & _ & _ & Hy).
      assert (requestBody' = requestBody) as -> by congruence.
      rewrite Fout in Hy. congruence. }
  assert (Haccepted : accepted requestBody).
  { unfold accepted. rewrite Fpw, Fmid, Fout, Fsrc.
    apply orb_false_iff in Hmissing as [Hmissing Hs].
    apply orb_false_iff in Hmissing as [Hm Ho].
    apply negb_false_iff in Hm, Ho, Hs. auto. }
  subst marketId outcome source comments.
  destruct (Settle.unset (RPC_URL w) || Settle.unset (CRE_ETH_PRIVATE_KEY w)
            || Settle.unset (NEXT_PUBLIC_MARKET_ADDRESS w)) eqn:Henv.
  { do 2 eexists. split; [reflexivity|]. left. split; [|reflexivity].
    unfold declined, adminFailure. cbn [code body]. split; [auto|]. split; [eauto|].
    split; [apply Hnot401; discriminate|].
    intros requestBody' _ _. split; [reflexivity|]. unfold configured. now rewrite Henv. }
  rewrite bind_lift.
  destruct (connect w) as [[]|e] eqn:Hconnect.
  2:{ exists (adminFailure e), []. split; [reflexivity|]. left. split; [|reflexivity].
      unfold declined, adminFailure. cbn [code body]. split; [auto|]. split; [eauto|].
      split; [apply Hnot401; discriminate|].
      intros requestBody' _ _. split; [reflexivity|]. unfold configured.
      rewrite Hconnect. apply andb_false_r. }
  assert (Hconfigured : configured w = true).
  { unfold configured. now rewrite Henv, Hconnect. }
  rewrite bind_call. cbn [app].
  destruct (getMarket w) as [m|e].
  2:{ exists (adminFailure e), [EvGetMarket (requestField requestBody "marketId")]. split; [reflexivity|]. right.
      exists requestBody. auto. }
  cbv zeta. unfold settledRun.
  destruct (Settle.status m =? 2).
  { do 2 eexists. split; [reflexivity|]. right. exists requestBody.
    split; [reflexivity|]. split; [exact Haccepted|]. split; [exact Hconfigured|]. exists []. auto. }
  rewrite (bind_framed _ _ _ (settleByStatus_framed _ _ _ _ _ _)).
  destruct ((Settle.status m =? 3) || (Settle.status m =? 0) || (Settle.status m =? 1))
    eqn:Hstatus; cbn [negb].
  2:{ rewrite (settleByStatus_unknown w _ _ _ _ Hstatus). cbn [fst snd].
      do 2 eexists. split; [reflexivity|]. right. exists requestBody.
      split; [reflexivity|]. split; [exact Haccepted|]. split; [exact Hconfigured|]. exists []. auto. }
  destruct (settleByStatus_run w (Settle.status m) (requestField requestBody "marketId")
              (outcomeEnum (requestField requestBody "outcome"))
              ("admin-" +:+ toText (JNum (Integer (now w 0)))) Hstatus)
    as [(e & calls & -> & Hne & Hcalls)|(tx & calls & -> & Hsends & Hcalls)]; cbn [fst snd].
  { exists (adminFailure e). eexists. split; [reflexivity|]. right. exists requestBody.
    split; [reflexivity|]. split; [exact Haccepted|]. split; [exact Hconfigured|]. exists calls.
    split; [reflexivity|]. left. exists e, calls. auto. }
  rewrite recording_run.
  fold (overrideOf w requestBody tx).
  destruct (recorded w tx) as [[[]|e] made] eqn:Hrec.
  - do 2 eexists. split; [reflexivity|]. right. exists requestBody.
    split; [reflexivity|]. split; [exact Haccepted|]. split; [exact Hconfigured|]. eexists.
    split; [rewrite <- app_assoc; reflexivity|]. right. exists tx, calls.
    split; [exact Hsends|]. cbv zeta. rewrite Hrec. auto.
  - exists (adminFailure e). eexists. split; [reflexivity|]. right. exists requestBody.
    split; [reflexivity|]. split; [exact Haccepted|]. split; [exact Hconfigured|]. eexists.
    split; [rewrite <- app_assoc; reflexivity|]. right. exists tx, calls.
    split; [exact Hsends|]. cbv zeta. rewrite Hrec. auto.
Qed.

Lemma sends_permitted (w : World) (status : Z) (marketId : JsValue) (code : Z)
    (rid : string) (tx : Tx) (calls : list Event) :
  sends w status marketId code rid tx calls ->
  Forall (permitted status marketId code rid) calls.
Proof.
  intros [(-> & _ & ->)|[(-> & reqTx & _ & _ & _ & ->)|(-> & _ & ->)]]; permitted_calls.
Qed.

Lemma sends_functional (w : World) (status : Z) (marketId : JsValue) (code : Z)
    (rid : string) (tx tx' : Tx) (calls calls' : list Event) :
  sends w status marketId code rid tx calls ->
  sends w status marketId code rid tx' calls' ->
  tx' = tx /\ calls' = calls.
Proof.
  intros [(-> & Ha & ->)|[(-> & reqTx & Ha & Hb & Hc & ->)|(-> & Ha & ->)]]
         [(? & Ha' & ->)|[(? & reqTx' & Ha' & Hb' & Hc' & ->)|(? & Ha' & ->)]];
    try lia; split; congruence.
Qed.

Lemma recorded_ok (w : World) (tx : Tx) :
  (exists made, recorded w tx = (Ok tt, made)) <->
  wait tx = Ok tt /\ signInAnonymously w = Ok tt /\
  written w settlements = Ok tt /\ written w demo = Ok tt.
Proof.
  unfold recorded, written.
  destruct (wait tx) as [[]|e1]; [|split; [intros [made Hm]|intros (Ha & _)]; discriminate].
  destruct (signInAnonymously w) as [[]|e2];
    [|split; [intros [made Hm]|intros (_ & Ha & _)]; discriminate].
  destruct (getDocs w settlements) as [snapshot|e3];
    [|split; [intros [made Hm]|intros (_ & _ & Ha & _)]; discriminate].
  destruct (match snapshot with
            | Some _ => updateDoc w settlements
            | None => setDoc w settlements
            end) as [[]|e4];
    [|split; [intros [made Hm]|intros (_ & _ & Ha & _)]; discriminate].
  destruct (getDocs w demo) as [snapshot'|e5];
    [|split; [intros [made Hm]|intros (_ & _ & _ & Ha)]; discriminate].
  split.
  - intros [made Hm]. injection Hm as Hm _. auto.
  - intros (_ & _ & _ & ->). eauto.
Qed.

Lemma recorded_allowed (w : World) (requestBody : JsValue) (m : Settle.Market) (tx : Tx)
    (calls : list Event) :
  request_json w = Ok requestBody ->
  accepted requestBody ->
  getMarket w = Ok m ->
  let rid := "admin-" +:+ toText (JNum (Integer (now w 0))) in
  sends w (Settle.status m) (requestField requestBody "marketId")
    (outcomeEnum (requestField requestBody "outcome")) rid tx calls ->
  Forall (allowed w)
    (firstn (snd (recorded w tx)) (recordCalls w tx rid (overrideOf w requestBody tx))).
Proof.
  intros Hbody Haccepted Hm rid Hsends.
  assert (Hwait : allowed w (EvWait (hash tx))).
  { exists requestBody, m. cbn. auto. }
  assert (Hafter : wait tx = Ok tt ->
            allowed w EvSignIn /\ forall c, allowed w (EvGetDocs c)).
  { intros Hw. split; [|intros c]; exists requestBody, m;
      (repeat (split; [assumption|])); exists tx, calls; auto. }
  assert (Hwrite : wait tx = Ok tt -> signInAnonymously w = Ok tt ->
            forall c, allowed w (auditWrite w c rid (overrideOf w requestBody tx))).
  { intros Hw Hs c. unfold auditWrite.
    destruct (getDocs w c) as [[existing|]|e]; exists requestBody, m;
      (repeat (split; [assumption|])); exists tx, calls; auto. }
  unfold recorded, recordCalls.
  destruct (wait tx) as [[]|e1] eqn:E1; [|cbn; auto].
  destruct (Hafter eq_refl) as [Hsign Hdocs].
  destruct (signInAnonymously w) as [[]|e2] eqn:E2; [|cbn; auto].
  specialize (Hwrite eq_refl eq_refl).
  destruct (getDocs w settlements) as [snapshot|e3]; [|cbn; auto].
  destruct (written w settlements) as [[]|e4]; [|cbn; auto 10].
  destruct (getDocs w demo) as [snapshot'|e5]; cbn; auto 10.
Qed.

(** X16.  The admin handler sends only what the status permits.  Apart
    from the read of the market, every call of the handler is made for a
    request that passed the checks (password, fields, outcome YES or NO).
    A ledger transaction is the one for the status of the market:
    [settleMarketManually] for NeedsManual, [requestSettlement] then
    [submitReport] for Open, [submitReport] for SettlementRequested, with
    the market id and the outcome code of the request, the confidence 10000
    and the response id; so no transaction is sent for a Settled market or
    for an unknown status.  The sign-in and the audit writes come only
    after the settling transaction is confirmed, and each write carries
    the record of that transaction. *)
Theorem admin_sends_only_what_the_status_permits (w : World) :
  Forall (allowed w) (snd (POST w [])).
Proof.
  destruct (admin_run w) as (r & evs & -> & [[_ ->]|Hrun]); cbn [snd]; [constructor|].
  destruct Hrun as (requestBody & Hbody & Haccepted & _ & Hrun). cbv zeta in Hrun.
  destruct (getMarket w) as [m|e] eqn:Hm.
  2:{ destruct Hrun as [_ ->]. repeat constructor. }
  destruct Hrun as (evs' & -> & Hrun). constructor; [exact I|].
  unfold settledRun in Hrun. cbv zeta in Hrun.
  assert (Hpermitted : forall calls,
            Forall (permitted (Settle.status m) (requestField requestBody "marketId")
                      (outcomeEnum (requestField requestBody "outcome"))
                      ("admin-" +:+ toText (JNum (Integer (now w 0))))) calls ->
            Forall (allowed w) calls).
  { intros calls. apply List.Forall_impl. intros ev Hev.
    destruct ev; try exact I; try contradiction; exists requestBody, m; auto. }
  destruct (Settle.status m =? 2); [destruct Hrun as [_ ->]; constructor|].
  destruct (negb _); [destruct Hrun as [_ ->]; constructor|].
  destruct Hrun as [(e & calls & _ & -> & _ & Hcalls & _)|(tx & calls & Hsends & Hrun)].
  { exact (Hpermitted _ Hcalls). }
  pose proof (recorded_allowed w requestBody m tx calls Hbody Haccepted Hm Hsends) as Hrec.
  cbv zeta in Hrec.
  apply sends_permitted, Hpermitted in Hsends.
  destruct (recorded w tx) as [[[]|e] made] eqn:Hrecorded; destruct Hrun as [_ ->];
    apply Forall_app; split; try assumption.
  cbn [snd] in Hrec.
  assert (Hall : made = 6%nat).
  { unfold recorded in Hrecorded.
    destruct (wait tx) as [[]|?]; [|discriminate].
    destruct (signInAnonymously w) as [[]|?]; [|discriminate].
    destruct (getDocs w settlements); [|discriminate].
    destruct (written w settlements); [|discriminate].
    destruct (getDocs w demo); [|discriminate].
    now injection Hrecorded as _ <-. }
  subst made. exact Hrec.
Qed.

(** X17.  The admin handler answers with a success exactly when the
    market is settled and recorded: the request passes the checks, the
    ledger client is set up, the market is read, the transactions for its
    status are sent, the settling one is confirmed, and the sign-in and
    both audit writes succeed.  The answer then carries the hash of the
    settling transaction, the response id and the outcome, and the calls
    are the read, the ledger calls and the six calls of the record.  So a
    failure of the audit sink fails the request although the market is
    settled on the ledger. *)
Theorem admin_succeeds_exactly_when_settled_and_recorded (w : World) :
  exists r evs,
    POST w [] = (Ok r, evs) /\
    (code r = 200 <->
     exists requestBody m tx calls,
       request_json w = Ok requestBody /\ accepted requestBody /\ configured w = true /\
       getMarket w = Ok m /\
       sends w (Settle.status m) (requestField requestBody "marketId")
         (outcomeEnum (requestField requestBody "outcome"))
         ("admin-" +:+ toText (JNum (Integer (now w 0)))) tx calls /\
       wait tx = Ok tt /\ signInAnonymously w = Ok tt /\
       written w settlements = Ok tt /\ written w demo = Ok tt) /\
    (forall requestBody m tx calls,
       code r = 200 ->
       request_json w = Ok requestBody ->
       getMarket w = Ok m ->
       sends w (Settle.status m) (requestField requestBody "marketId")
         (outcomeEnum (requestField requestBody "outcome"))
         ("admin-" +:+ toText (JNum (Integer (now w 0)))) tx calls ->
       let marketId := requestField requestBody "marketId" in
       let outcome := requestField requestBody "outcome" in
       let rid := "admin-" +:+ toText (JNum (Integer (now w 0))) in
       r = mkResponse 200
             (SuccessBody (hash tx) rid outcome
                ("Market #" +:+ toText marketId +:+ " manually settled as "
                   +:+ toText outcome)) /\
       evs = EvGetMarket marketId :: calls
               ++ recordCalls w tx rid (overrideOf w requestBody tx)).
Proof.
  destruct (admin_run w) as (r & evs & Hrun & Hshape).
  exists r, evs. split; [exact Hrun|].
  assert (Hfails : code r <> 200 ->
            ~ (exists requestBody m tx calls,
                 request_json w = Ok requestBody /\ accepted requestBody /\
                 configured w = true /\ getMarket w = Ok m /\
                 sends w (Settle.status m) (requestField requestBody "marketId")
                   (outcomeEnum (requestField requestBody "outcome"))
                   ("admin-" +:+ toText (JNum (Integer (now w 0)))) tx calls /\
                 wait tx = Ok tt /\ signInAnonymously w = Ok tt /\
                 written w settlements = Ok tt /\ written w demo = Ok tt) ->
            (code r = 200 <->
             exists requestBody m tx calls,
               request_json w = Ok requestBody /\ accepted requestBody /\
               configured w = true /\ getMarket w = Ok m /\
               sends w (Settle.status m) (requestField requestBody "marketId")
                 (outcomeEnum (requestField requestBody "outcome"))
                 ("admin-" +:+ toText (JNum (Integer (now w 0)))) tx calls /\
               wait tx = Ok tt /\ signInAnonymously w = Ok tt /\
               written w settlements = Ok tt /\ written w demo = Ok tt) /\
            (forall requestBody m tx calls,
               code r = 200 ->
               request_json w = Ok requestBody ->
               getMarket w = Ok m ->
               sends w (Settle.status m) (requestField requestBody "marketId")
                 (outcomeEnum (requestField requestBody "outcome"))
                 ("admin-" +:+ toText (JNum (Integer (now w 0)))) tx calls ->
               let marketId := requestField requestBody "marketId" in
               let outcome := requestField requestBody "outcome" in
               let rid := "admin-" +:+ toText (JNum (Integer (now w 0))) in
               r = mkResponse 200
                     (SuccessBody (hash tx) rid outcome
                        ("Market #" +:+ toText marketId +:+ " manually settled as "
                           +:+ toText outcome)) /\
               evs = EvGetMarket marketId :: calls
                       ++ recordCalls w tx rid (overrideOf w requestBody tx))).
  { intros Hcode Hnot. split; [split; [contradiction|intros Hyes; destruct (Hnot Hyes)]|].
    intros requestBody m tx calls H200. contradiction. }
  destruct Hshape as [[Hdeclined ->]|Hshape].
  { destruct Hdeclined as (Hcode & _ & _ & Hconf).
    apply Hfails; [lia|].
    intros (requestBody & m & tx & calls & Hbody & Haccepted & Hconfigured & _).
    destruct (Hconf requestBody Hbody Haccepted) as [_ Hno]. congruence. }
  destruct Hshape as (requestBody & Hbody & Haccepted & Hconfigured & Hshape).
  cbv zeta in Hshape.
  destruct (getMarket w) as [m|e] eqn:Hm.
  2:{ destruct Hshape as [-> ->]. apply Hfails; [discriminate|].
      intros (requestBody' & m' & tx & calls & _ & _ & _ & Hm' & _). discriminate Hm'. }
  destruct Hshape as (evs' & -> & Hshape).
  unfold settledRun in Hshape. cbv zeta in Hshape.
  assert (Hsame : forall requestBody' m' tx calls,
            request_json w = Ok requestBody' ->
            Ok m = Ok m' ->
            sends w (Settle.status m') (requestField requestBody' "marketId")
              (outcomeEnum (requestField requestBody' "outcome"))
              ("admin-" +:+ toText (JNum (Integer (now w 0)))) tx calls ->
            sends w (Settle.status m) (requestField requestBody "marketId")
              (outcomeEnum (requestField requestBody "outcome"))
              ("admin-" +:+ toText (JNum (Integer (now w 0)))) tx calls).
  { intros requestBody' m' tx calls Hb [= <-] Hs.
    assert (requestBody' = requestBody) as -> by congruence. exact Hs. }
  destruct (Z.eqb_spec (Settle.status m) 2) as [H2|H2].
  { destruct Hshape as [-> ->]. apply Hfails; [discriminate|].
    intros (requestBody' & m' & tx & calls & Hb & _ & _ & Hm' & Hs & _).
    apply (Hsame _ _ _ _ Hb Hm') in Hs.
    destruct Hs as [(? & _)|[(? & _)|(? & _)]]; lia. }
  destruct (negb _) eqn:Hknown.
  { destruct Hshape as [-> ->]. apply Hfails; [discriminate|].
    intros (requestBody' & m' & tx & calls & Hb & _ & _ & Hm' & Hs & _).
    apply (Hsame _ _ _ _ Hb Hm') in Hs.
    apply negb_true_iff, orb_false_iff in Hknown as [Hknown H1].
    apply orb_false_iff in Hknown as [H3 H0].
    destruct Hs as [(? & _)|[(? & _)|(? & _)]]; lia. }
  destruct Hshape as [(e & calls & -> & _ & _ & _ & Hnone)|(tx & calls & Hsends & Hshape)].
  { apply Hfails; [discriminate|].
    intros (requestBody' & m' & tx & calls' & Hb & _ & _ & Hm' & Hs & _).
    apply (Hsame _ _ _ _ Hb Hm') in Hs. exact (Hnone _ _ Hs). }
  cbv zeta in Hshape.
  destruct (recorded w tx) as [[[]|e] made] eqn:Hrecorded.
  - destruct Hshape as [-> ->]. split.
    + split; [intros _|reflexivity].
      exists requestBody, m, tx, calls.
      repeat (split; [assumption || reflexivity|]).
      apply recorded_ok. eauto.
    + intros requestBody' m' tx' calls' _ Hb Hm' Hs.
      apply (Hsame _ _ _ _ Hb Hm') in Hs.
      destruct (sends_functional _ _ _ _ _ _ _ _ _ Hsends Hs) as [-> ->].
      assert (requestBody' = requestBody) as -> by congruence.
      cbv zeta. auto.
  - destruct Hshape as [-> ->]. apply Hfails; [discriminate|].
    intros (requestBody' & m' & tx' & calls' & Hb & _ & _ & Hm' & Hs & Hok).
    apply (Hsame _ _ _ _ Hb Hm') in Hs.
    destruct (sends_functional _ _ _ _ _ _ _ _ _ Hsends Hs) as [-> ->].
    apply recorded_ok in Hok as [made' Hok]. congruence.
Qed.

(** X18.  A client error of the admin handler changes nothing.  The
    handler answers 200, 400, 401 or 500.  It answers 401 exactly when the
    request is an object with a wrong password, whatever else is wrong
    with it.  With an answer 401 no call was made, and with an answer 400
    at most the market was read: no transaction was sent and nothing was
    written.  A market read with a status other than Open,
    SettlementRequested and NeedsManual, so also a Settled one, is never
    settled again. *)
Theorem admin_client_errors_change_nothing (w : World) :
  exists r evs,
    POST w [] = (Ok r, evs) /\
    (code r = 200 \/ code r = 400 \/ code r = 401 \/ code r = 500) /\
    (code r = 401 <->
     exists requestBody,
       request_json w = Ok requestBody /\
       Discrete.isNullish requestBody = false /\
       wrongPassword (requestField requestBody "adminPassword") = true) /\
    (code r = 401 -> evs = []) /\
    (code r = 400 -> evs = [] \/ exists marketId, evs = [EvGetMarket marketId]) /\
    (forall m,
       getMarket w = Ok m ->
       Settle.status m <> 0 -> Settle.status m <> 1 -> Settle.status m <> 3 ->
       code r <> 200 /\ (evs = [] \/ exists marketId, evs = [EvGetMarket marketId])).
Proof.
  destruct (admin_run w) as (r & evs & Hrun & Hshape).
  exists r, evs. split; [exact Hrun|].
  destruct Hshape as [[Hdeclined ->]|Hshape].
  { destruct Hdeclined as (Hcode & _ & H401 & Hconf).
    split; [tauto|]. split; [exact H401|]. split; [auto|]. split; [auto|].
    intros m _ _ _ _. split; [|auto].
    destruct Hcode as [Hc|[Hc|Hc]]; rewrite Hc; discriminate. }
  destruct Hshape as (requestBody & Hbody & Haccepted & _ & Hshape).
  cbv zeta in Hshape.
  assert (H401 : code r <> 401 ->
            code r = 401 <->
            exists requestBody',
              request_json w = Ok requestBody' /\
              Discrete.isNullish requestBody' = false /\
              wrongPassword (requestField requestBody' "adminPassword") = true).
  { intros Hc. split; [contradiction|].
    intros (requestBody' & Hb & _ & Hp). destruct Haccepted as (Hp' & _). congruence. }
  destruct (getMarket w) as [m|e] eqn:Hm.
  2:{ destruct Hshape as [-> ->]. unfold adminFailure. cbn [code].
      split; [auto|]. split; [apply H401; discriminate|].
      split; [discriminate|]. split; [discriminate|]. intros m Hm'. discriminate Hm'. }
  destruct Hshape as (evs' & -> & Hshape).
  unfold settledRun in Hshape. cbv zeta in Hshape.
  destruct (Z.eqb_spec (Settle.status m) 2) as [H2|H2].
  { destruct Hshape as [-> ->]. cbn [code].
    split; [auto|]. split; [apply H401; discriminate|].
    split; [discriminate|]. split; [eauto|]. intros m' _ _ _ _.
    split; [discriminate|eauto]. }
  destruct (negb _) eqn:Hknown.
  { destruct Hshape as [-> ->]. cbn [code].
    split; [auto|]. split; [apply H401; discriminate|].
    split; [discriminate|]. split; [eauto|]. intros m' _ _ _ _.
    split; [discriminate|eauto]. }
  apply negb_false_iff in Hknown.
  assert (Hstatus : forall m',
            Ok m = Ok m' ->
            Settle.status m' <> 0 -> Settle.status m' <> 1 -> Settle.status m' <> 3 -> False).
  { intros m' [= <-] H0 H1 H3.
    apply orb_true_iff in Hknown as [Hknown|Hknown];
      [apply orb_true_iff in Hknown as [Hknown|Hknown]|]; apply Z.eqb_eq in Hknown; lia. }
  destruct Hshape as [(e & calls & -> & -> & _)|(tx & calls & Hsends & Hshape)].
  { unfold adminFailure. cbn [code].
    split; [auto|]. split; [apply H401; discriminate|].
    split; [discriminate|]. split; [discriminate|].
    intros m' Hm' H0 H1 H3. destruct (Hstatus m' Hm' H0 H1 H3). }
  cbv zeta in Hshape.
  destruct (recorded w tx) as [[[]|e] made]; destruct Hshape as [-> ->];
    unfold adminFailure; cbn [code];
    (split; [auto|]); (split; [apply H401; discriminate|]);
    (split; [discriminate|]); (split; [discriminate|]);
    intros m' Hm' H0 H1 H3; destruct (Hstatus m' Hm' H0 H1 H3).
Qed.

End AdminRuns.

(** ** The source of a stored spec *)

Section TrustedSources.
Import Create.
Context `{JsRuntime}.

Lemma getProp_ok_defined (v : JsValue) (key key' : string) (x : JsValue) :
  getProp v key = Ok x -> exists y, getProp v key' = Ok y.
Proof.
  intros Hx. apply getProp_defined.
  destruct v; try reflexivity; discriminate Hx.
Qed.

(** X19.  The source of a stored spec is the whitelisted one.  For a
    classification of type DISCRETE whose category has an entry in
    [TRUSTED_SOURCES], the spec that the creation handler builds takes the
    name and the endpoint of its source from that entry, whatever the
    classifier's JSON says: the classifier only contributes the
    parameters.  For a category whose entry is [null] (or any falsy
    value) the source is the placeholder with the empty endpoint.  In both
    cases the extraction path and the comparison are never left empty. *)
Theorem stored_source_is_whitelisted (w : World) (parsed category : JsValue) :
  getProp parsed "type" = Ok (JStr "DISCRETE") ->
  getProp parsed "category" = Ok category ->
  (forall name endpoint,
     getProp TRUSTED_SOURCES (toText category) = Ok (sourceObject name endpoint) ->
     exists summary params path comparison timestamp,
       buildSpec w parsed =
         Ok (DISCRETE category summary
               (JObj [("name", JStr name); ("endpoint", JStr endpoint);
                      ("params", JObj params)])
               path comparison timestamp) /\
       truthy summary = true /\ truthy path = true /\ truthy comparison = true) /\
  (forall sourceConfig,
     getProp TRUSTED_SOURCES (toText category) = Ok sourceConfig ->
     truthy sourceConfig = false ->
     exists summary path comparison timestamp,
       buildSpec w parsed =
         Ok (DISCRETE category summary
               (JObj [("name", JStr "Unknown"); ("endpoint", JStr EmptyString);
                      ("params", JObj [])])
               path comparison timestamp) /\
       truthy summary = true /\ truthy path = true /\ truthy comparison = true).
Proof.
  intros Htype Hcategory.
  destruct (getProp_ok_defined parsed "type" "spec" _ Htype) as [spec Hspec].
  assert (Hor : forall a b, truthy b = true -> truthy (orValue a b) = true).
  { intros a b Hb. unfold orValue. destruct (truthy a) eqn:Ha; assumption. }
  split.
  - intros name endpoint Hsource.
    unfold buildSpec. rewrite Htype, Hspec, Hcategory, Hsource. cbn.
    do 5 eexists. split; [reflexivity|].
    repeat split; apply Hor; reflexivity.
  - intros sourceConfig Hsource Hfalsy.
    unfold buildSpec. rewrite Htype, Hspec, Hcategory, Hsource, Hfalsy.
    do 4 eexists. split; [reflexivity|].
    repeat split; apply Hor; reflexivity.
Qed.

End TrustedSources.

Lemma stored_source_is_whitelisted_witness :
  exists summary params path comparison timestamp,
    @Create.buildSpec Samples.runtime Samples.createWorld
      (JObj [("type", JStr "DISCRETE"); ("category", JStr "WEATHER");
             ("spec", JObj [("api_params", JObj [("endpoint", JStr "https://evil.example")])])])
    = Ok (Create.DISCRETE (JStr "WEATHER") summary
            (JObj [("name", JStr "wttr.in"); ("endpoint", JStr "https://wttr.in");
                   ("params", JObj params)])
            path comparison timestamp).
Proof.
  destruct (@stored_source_is_whitelisted Samples.runtime Samples.createWorld
              (JObj [("type", JStr "DISCRETE"); ("category", JStr "WEATHER");
                     ("spec", JObj [("api_params",
                                     JObj [("endpoint", JStr "https://evil.example")])])])
              (JStr "WEATHER") eq_refl eq_refl) as [Htrusted _].
  destruct (Htrusted "wttr.in" "https://wttr.in" eq_refl)
    as (summary & params & path & comparison & timestamp & Hbuilt & _).
  exists summary, params, path, comparison, timestamp. exact Hbuilt.
Defined.

(** ** Market status and the records of the admin handler *)

Section MarketStatusFacts.
Import MarketStatus.
Context `{JsRuntime}.

Lemma orValue_truthy (a b : JsValue) : truthy b = true -> truthy (orValue a b) = true.
Proof. intros Hb. unfold orValue. destruct (truthy a) eqn:Ha; assumption. Qed.

(** The runs of the handler. *)
Lemma GET_run (w : World) :
  exists r evs,
    GET w [] = (Ok r, evs) /\
    match searchParam w with
    | Throw e => r = mkResponse 500 (ErrorBody (message e)) /\ evs = []
    | Ok None => r = mkResponse 400 (ErrorBody (Some "Market ID required")) /\ evs = []
    | Ok (Some id) =>
        if String.eqb id EmptyString then
          r = mkResponse 400 (ErrorBody (Some "Market ID required")) /\ evs = []
        else
          evs = [EvGetDocs id] /\
          match getDocs w with
          | Throw e => r = mkResponse 500 (ErrorBody (message e))
          | Ok [] => r = mkResponse 200 (NoSettlement id)
          | Ok (d :: _) =>
              (exists e, r = mkResponse 500 (ErrorBody (message e)) /\
                         Discrete.isNullish (doc_data d) = true) \/
              (exists s,
                 r = mkResponse 200 (Found id s) /\
                 Discrete.isNullish (doc_data d) = false /\
                 responseId s = doc_id d /\
                 truthy (result s) = true /\
                 truthy (resolutionMethod s) = true /\
                 getProp (doc_data d) "adminSource" = Ok (adminSource s) /\
                 getProp (doc_data d) "adminComments" = Ok (adminComments s) /\
                 getProp (doc_data d) "timestamp" = Ok (timestamp s) /\
                 (exists v, getProp (doc_data d) "isManualSettlement" = Ok v /\
                            isManualSettlement s = orValue v (JBool false)) /\
                 (exists v, getProp (doc_data d) "isFallback" = Ok v /\
                            isFallback s = orValue v (JBool false)) /\
                 (exists v, getProp (doc_data d) "resolutionMethod" = Ok v /\
                            resolutionMethod s = orValue v (JStr "UNKNOWN")) /\
                 (exists p v c,
                    getProp (doc_data d) "parsedGemini" = Ok p /\
                    optProp p "result" = Ok v /\ optProp p "confidence" = Ok c /\
                    result s = orValue v (JStr "UNKNOWN") /\
                    confidence s = orValue c (JNum (Integer 0))))
          end
    end.
Proof.
  unfold GET, try_catch. rewrite bind_lift.
  destruct (searchParam w) as [[id|]|e]; [|do 2 eexists; split; [reflexivity|auto]..].
  destruct (String.eqb id EmptyString); [do 2 eexists; split; [reflexivity|auto]|].
  rewrite bind_call. cbn [app].
  destruct (getDocs w) as [[|d rest]|e]; [do 2 eexists; split; [reflexivity|auto]| |
                                           do 2 eexists; split; [reflexivity|auto]].
  cbv zeta.
  destruct (Discrete.isNullish (doc_data d)) eqn:Hnull.
  { destruct (getProp_nullish (doc_data d) "parsedGemini" Hnull) as [e He].
    rewrite bind_lift, He. do 2 eexists. split; [reflexivity|]. split; [reflexivity|].
    left. eauto. }
  destruct (getProp_defined (doc_data d) "parsedGemini" Hnull) as [p Hp].
  destruct (getProp_defined (doc_data d) "resolutionMethod" Hnull) as [m Hm].
  destruct (getProp_defined (doc_data d) "isFallback" Hnull) as [f Hf].
  destruct (getProp_defined (doc_data d) "isManualSettlement" Hnull) as [ms Hms].
  destruct (getProp_defined (doc_data d) "adminSource" Hnull) as [src Hsrc].
  destruct (getProp_defined (doc_data d) "adminComments" Hnull) as [com Hcom].
  destruct (getProp_defined (doc_data d) "timestamp" Hnull) as [ts Hts].
  assert (Hopt : forall key, exists v, optProp p key = Ok v).
  { intros key. unfold optProp.
    destruct (Discrete.isNullish p) eqn:Hpn.
    - destruct p; try discriminate Hpn; eauto.
    - destruct (getProp_defined p key Hpn) as [v Hv].
      destruct p; try discriminate Hpn; eauto. }
  destruct (Hopt "result") as [v Hv]. destruct (Hopt "confidence") as [c Hc].
  rewrite bind_lift, Hp, bind_lift, Hv, bind_lift, bind_lift, Hc, bind_lift, Hm,
    bind_lift, Hf, bind_lift, Hms, bind_lift, Hsrc, bind_lift, Hcom, bind_lift, Hts.
  do 2 eexists. split; [reflexivity|]. split; [reflexivity|]. right.
  eexists. split; [reflexivity|]. cbn.
  repeat (split; [reflexivity || (apply orValue_truthy; reflexivity) || eauto 10|]).
  eauto 10.
Qed.

(** X20.  The market-status handler always answers, with status 200,
    400 or 500.  It answers 400 exactly when the request names no market
    (the parameter is missing or empty), and then without a query; it
    queries the collection at most once, for the market asked for.  It
    answers that there is no settlement exactly when the query finds no
    document.  A settlement it reports is read from the first document
    found, and its result and resolution method are never empty: they
    default to UNKNOWN. *)
Theorem market_status_answers (w : World) :
  exists r evs,
    GET w [] = (Ok r, evs) /\
    (code r = 200 \/ code r = 400 \/ code r = 500) /\
    (code r = 400 <->
     searchParam w = Ok None \/ searchParam w = Ok (Some EmptyString)) /\
    (code r = 400 -> evs = []) /\
    (evs = [] \/ exists id, asksFor w id /\ evs = [EvGetDocs id]) /\
    (forall id, body r = NoSettlement id <-> asksFor w id /\ getDocs w = Ok []) /\
    (forall id s,
       body r = Found id s ->
       asksFor w id /\ code r = 200 /\
       exists d rest,
         getDocs w = Ok (d :: rest) /\
         responseId s = doc_id d /\
         truthy (result s) = true /\
         truthy (resolutionMethod s) = true).
Proof.
  destruct (GET_run w) as (r & evs & Hrun & Hshape).
  exists r, evs. split; [exact Hrun|]. unfold asksFor.
  destruct (searchParam w) as [[id|]|e].
  - destruct (String.eqb_spec id EmptyString) as [Hempty|Hid].
    + destruct Hshape as [-> ->]. cbn.
      split; [auto|]. split; [split; [intros _; right; now rewrite Hempty|reflexivity]|].
      split; [auto|]. split; [auto|].
      split; [intros id'; split; [discriminate|intros [[[= <-] Hne] _]; congruence]|].
      intros id' s Hb. discriminate Hb.
    + destruct Hshape as [-> Hshape].
      assert (Hnot : forall c : Z,
                c <> 400 ->
                c = 400 <-> Ok (Some id) = Ok None \/ Ok (Some id) = Ok (Some EmptyString)).
      { intros c Hc. split; [contradiction|]. intros [Hn|[= Hn]]; congruence. }
      assert (Hevs : [EvGetDocs id] = [] \/
                     exists id', (Ok (Some id) = Ok (Some id') /\ id' <> EmptyString) /\
                                 [EvGetDocs id] = [EvGetDocs id']) by eauto.
      destruct (getDocs w) as [[|d rest]|e].
      * subst r. cbn. split; [auto|]. split; [apply Hnot; discriminate|].
        split; [discriminate|]. split; [exact Hevs|]. split.
        -- intros id'. split; [intros [= <-]; auto|intros [[[= <-] _] _]; reflexivity].
        -- intros id' s Hb. discriminate Hb.
      * destruct Hshape as [(e & -> & _)|(s & -> & _ & Hid' & Hres & Hmeth & _)]; cbn.
        -- split; [auto|]. split; [apply Hnot; discriminate|].
           split; [discriminate|]. split; [exact Hevs|]. split.
           ++ intros id'. split; [discriminate|intros [_ Hd]; discriminate Hd].
           ++ intros id' s Hb. discriminate Hb.
        -- split; [auto|]. split; [apply Hnot; discriminate|].
           split; [discriminate|]. split; [exact Hevs|]. split.
           ++ intros id'. split; [discriminate|intros [_ Hd]; discriminate Hd].
           ++ intros id' s' [= <- <-]. split; [auto|]. split; [reflexivity|].
              exists d, rest. auto.
      * subst r. cbn. split; [auto|]. split; [apply Hnot; discriminate|].
        split; [discriminate|]. split; [exact Hevs|]. split.
        -- intros id'. split; [discriminate|intros [_ Hd]; discriminate Hd].
        -- intros id' s Hb. discriminate Hb.
  - destruct Hshape as [-> ->]. cbn.
    split; [auto|]. split; [tauto|]. split; [auto|]. split; [auto|].
    split; [intros id'; split; [discriminate|intros [[Hn _] _]; discriminate Hn]|].
    intros id' s Hb. discriminate Hb.
  - destruct Hshape as [-> ->]. cbn.
    split; [auto|]. split; [split; [discriminate|intros [Hn|Hn]; discriminate Hn]|].
    split; [auto|]. split; [auto|].
    split; [intros id'; split; [discriminate|intros [[Hn _] _]; discriminate Hn]|].
    intros id' s Hb. discriminate Hb.
Qed.

Lemma assoc_setField (key key' : string) (v : JsValue) (fields : list (string * JsValue)) :
  assoc key (setField key' v fields) =
  if String.eqb key' key then Some v else assoc key fields.
Proof.
  induction fields as [|[k old] rest IH]; cbn [setField assoc]; [reflexivity|].
  destruct (String.eqb_spec k key') as [->|Hk]; cbn [assoc].
  - destruct (String.eqb key' key); reflexivity.
  - rewrite IH. destruct (String.eqb_spec k key) as [->|Hk']; [|reflexivity].
    destruct (String.eqb_spec key' key) as [->|]; [contradiction|reflexivity].
Qed.

Lemma getProp_object (fields : list (string * JsValue)) (key : string) :
  getProp (JObj fields) key =
  Ok (match assoc key fields with
      | Some x => x
      | None => inherited (JObj fields) key
      end).
Proof. unfold getProp, ownProperty. destruct (assoc key fields); reflexivity. Qed.

(** X21.  What market-status reports for a settlement record that the
    admin handler has created: the admin's outcome as the result, the
    confidence, the method ADMIN, no fallback, a manual settlement, and
    the time of the record.  The admin's source and comments are not
    reported: the record holds them inside [adminOverride], and the
    handler reads them at the top of the record, where the record has no
    such fields. *)
Theorem admin_record_as_reported (w : World) (id marketId question : string)
    (o : Admin.AdminOverride) (time : Z) (rest : list Doc) :
  asksFor w marketId ->
  getDocs w = Ok (mkDoc id (AdminRecords.newSettlement marketId question o time) :: rest) ->
  let record := AdminRecords.newSettlement marketId question o time in
  GET w [] =
    (Ok (mkResponse 200
           (Found marketId
              (mkSettlement id
                 (orValue (Admin.finalResult o) (JStr "UNKNOWN"))
                 (JNum (Integer (Admin.finalConfidence o)))
                 (JStr "ADMIN") (JBool false) (JBool true)
                 (inherited record "adminSource")
                 (inherited record "adminComments")
                 (JNum (Integer time))))),
     [EvGetDocs marketId]) /\
  ownProperty record "adminSource" = None /\
  ownProperty record "adminComments" = None.
Proof.
  intros [Hparam Hid] Hdocs record.
  split; [|split; reflexivity].
  unfold GET, try_catch. rewrite bind_lift, Hparam.
  apply String.eqb_neq in Hid. rewrite Hid.
  rewrite bind_call, Hdocs. cbn [app doc_data doc_id].
  fold record.
  assert (Hconfidence : orValue (JNum (Integer (Admin.finalConfidence o))) (JNum (Integer 0))
                        = JNum (Integer (Admin.finalConfidence o))).
  { unfold orValue. cbn. destruct (Z.eqb_spec (Admin.finalConfidence o) 0) as [->|];
      reflexivity. }
  unfold record, AdminRecords.newSettlement.
  cbn [setFields fold_left app AdminRecords.adminOverrideFields setField fst snd String.eqb
       Ascii.eqb Bool.eqb].
  repeat (progress (rewrite ?bind_lift, ?getProp_object;
                    cbn [assoc String.eqb Ascii.eqb Bool.eqb optProp])).
  rewrite Hconfidence. reflexivity.
Qed.

Lemma getProp_updated (existing : list (string * JsValue)) (o : Admin.AdminOverride)
    (key : string) :
  inherited (AdminRecords.updatedSettlement existing o) key = inherited (JObj existing) key ->
  key <> "isManualSettlement" -> key <> "adminOverride" ->
  getProp (AdminRecords.updatedSettlement existing o) key = getProp (JObj existing) key.
Proof.
  intros Hinherited Hflag Hoverride.
  unfold AdminRecords.updatedSettlement in *.
  unfold AdminRecords.adminOverrideFields, setFields in *. cbn [fold_left fst snd] in *.
  rewrite !getProp_object, !assoc_setField, Hinherited.
  apply not_eq_sym, String.eqb_neq in Hflag, Hoverride.
  rewrite Hflag, Hoverride. reflexivity.
Qed.

Lemma getProp_updated_flag (existing : list (string * JsValue)) (o : Admin.AdminOverride) :
  getProp (AdminRecords.updatedSettlement existing o) "isManualSettlement" = Ok (JBool true).
Proof.
  unfold AdminRecords.updatedSettlement, AdminRecords.adminOverrideFields, setFields.
  cbn [fold_left fst snd]. rewrite getProp_object, !assoc_setField. reflexivity.
Qed.

(** X22.  An admin override of an existing settlement record changes
    nothing of what market-status reports for the market but the flag of
    the manual settlement: the result, the confidence and the method that
    are reported stay those of the record as it was, so a record that said
    INCONCLUSIVE is still reported as INCONCLUSIVE after the admin has
    settled the market. *)
Theorem admin_override_keeps_the_reported_result (w w' : World) (id marketId : string)
    (existing : list (string * JsValue)) (o : Admin.AdminOverride) (rest rest' : list Doc) :
  asksFor w marketId ->
  searchParam w' = searchParam w ->
  getDocs w = Ok (mkDoc id (JObj existing) :: rest) ->
  getDocs w' = Ok (mkDoc id (AdminRecords.updatedSettlement existing o) :: rest') ->
  (forall key,
     inherited (AdminRecords.updatedSettlement existing o) key
     = inherited (JObj existing) key) ->
  exists s,
    GET w [] = (Ok (mkResponse 200 (Found marketId s)), [EvGetDocs marketId]) /\
    GET w' [] =
      (Ok (mkResponse 200
             (Found marketId
                (mkSettlement (responseId s) (result s) (confidence s) (resolutionMethod s)
                   (isFallback s) (JBool true) (adminSource s) (adminComments s)
                   (timestamp s)))),
       [EvGetDocs marketId]).
Proof.
  intros [Hparam Hid] Hparam' Hdocs Hdocs' Hinherited.
  apply String.eqb_neq in Hid.
  assert (Hsame : forall key,
            key <> "isManualSettlement" -> key <> "adminOverride" ->
            getProp (AdminRecords.updatedSettlement existing o) key
            = getProp (JObj existing) key).
  { intros key. apply getProp_updated, Hinherited. }
  destruct (GET_run w) as (r & evs & Hrun & Hshape).
  destruct (GET_run w') as (r' & evs' & Hrun' & Hshape').
  rewrite Hparam', Hparam, Hid, Hdocs' in Hshape'. rewrite Hparam, Hid, Hdocs in Hshape.
  cbn [doc_data doc_id] in Hshape, Hshape'.
  destruct Hshape as [-> [(e & _ & Hnull)|Hfound]]; [discriminate Hnull|].
  destruct Hshape' as [-> [(e & _ & Hnull)|Hfound']]; [discriminate Hnull|].
  destruct Hfound as (s & -> & _ & Hrid & _ & _ & Hsrc & Hcom & Hts & (ms & Hms & Hmanual)
                      & (f & Hf & Hfallback) & (m & Hm & Hmethod)
                      & (p & v & c & Hp & Hv & Hc & Hresult & Hconfidence)).
  destruct Hfound' as (s' & -> & _ & Hrid' & _ & _ & Hsrc' & Hcom' & Hts'
                       & (ms' & Hms' & Hmanual')
                       & (f' & Hf' & Hfallback') & (m' & Hm' & Hmethod')
                       & (p' & v' & c' & Hp' & Hv' & Hc' & Hresult' & Hconfidence')).
  exists s. split; [exact Hrun|]. rewrite Hrun'.
  rewrite Hsame in Hsrc', Hcom', Hts', Hf', Hm', Hp' by discriminate.
  rewrite getProp_updated_flag in Hms'. injection Hms' as <-.
  assert (p' = p) as -> by congruence.
  assert (v' = v) as -> by congruence.
  assert (c' = c) as -> by congruence.
  assert (f' = f) as -> by congruence.
  assert (m' = m) as -> by congruence.
  destruct s, s'. cbn in *. subst.
  repeat f_equal; congruence.
Qed.

End MarketStatusFacts.

Lemma admin_record_as_reported_witness :
  exists s,
    @MarketStatus.GET Samples.runtime
      (MarketStatus.mkWorld (Ok (Some "7"))
         (Ok [MarketStatus.mkDoc "admin-1700000000000"
                (AdminRecords.newSettlement "7" "Will it rain tomorrow?"
                   (Admin.mkOverride (JStr "YES") 10000 (JStr "https://example.org/report")
                      (JStr EmptyString) "0xmanual" 1700000000000)
                   1700000000001)])) []
    = (Ok (MarketStatus.mkResponse 200 (MarketStatus.Found "7" s)),
       [MarketStatus.EvGetDocs "7"]) /\
    MarketStatus.result s = JStr "YES" /\
    MarketStatus.adminSource s = JUndefined.
Proof.
  assert (Hasks : forall docs, asksFor (MarketStatus.mkWorld (Ok (Some "7")) docs) "7")
    by (intros docs; split; [reflexivity|discriminate]).
  destruct (@admin_record_as_reported Samples.runtime
              (MarketStatus.mkWorld (Ok (Some "7"))
                 (Ok [MarketStatus.mkDoc "admin-1700000000000"
                        (AdminRecords.newSettlement "7" "Will it rain tomorrow?"
                           (Admin.mkOverride (JStr "YES") 10000
                              (JStr "https://example.org/report")
                              (JStr EmptyString) "0xmanual" 1700000000000)
                           1700000000001)]))
              "admin-1700000000000" "7" "Will it rain tomorrow?"
              (Admin.mkOverride (JStr "YES") 10000 (JStr "https://example.org/report")
                 (JStr EmptyString) "0xmanual" 1700000000000)
              1700000000001 [] (Hasks _) eq_refl)
    as [Hget _].
  eexists. split; [exact Hget|]. split; reflexivity.
Defined.

Lemma admin_override_keeps_the_reported_result_witness :
  exists s,
    MarketStatus.result s = JStr "INCONCLUSIVE" /\
    MarketStatus.isManualSettlement s = JBool true /\
    @MarketStatus.GET Samples.runtime
      (MarketStatus.mkWorld (Ok (Some "7"))
         (Ok [MarketStatus.mkDoc "gemini-1"
                (AdminRecords.updatedSettlement
                   [("marketId", JStr "7");
                    ("parsedGemini",
                     JObj [("result", JStr "INCONCLUSIVE");
                           ("confidence", JNum (Integer 7000))])]
                   (Admin.mkOverride (JStr "YES") 10000 (JStr "https://example.org/report")
                      (JStr EmptyString) "0xmanual" 1700000000000))])) []
    = (Ok (MarketStatus.mkResponse 200 (MarketStatus.Found "7" s)),
       [MarketStatus.EvGetDocs "7"]).
Proof.
  pose (existing := [("marketId", JStr "7");
                     ("parsedGemini",
                      JObj [("result", JStr "INCONCLUSIVE");
                            ("confidence", JNum (Integer 7000))])]).
  pose (o := Admin.mkOverride (JStr "YES") 10000 (JStr "https://example.org/report")
               (JStr EmptyString) "0xmanual" 1700000000000).
  pose (w := MarketStatus.mkWorld (Ok (Some "7"))
               (Ok [MarketStatus.mkDoc "gemini-1" (JObj existing)])).
  pose (w' := MarketStatus.mkWorld (Ok (Some "7"))
                (Ok [MarketStatus.mkDoc "gemini-1"
                       (AdminRecords.updatedSettlement existing o)])).
  assert (Hasks : asksFor w "7") by (split; [reflexivity|discriminate]).
  destruct (@admin_override_keeps_the_reported_result Samples.runtime w w' "gemini-1" "7"
              existing o [] [] Hasks eq_refl eq_refl eq_refl (fun key => eq_refl))
    as (s & Hbefore & Hafter).
  vm_compute in Hbefore. injection Hbefore as <-.
  eexists. split; [|split; [|exact Hafter]]; reflexivity.
Defined.

(** ** The admin dashboard: order and badges *)

Section DashboardFacts.
Import Dashboard.
Context `{JsRuntime}.

Lemma numGt_integers (x y : Z) : numGt (Integer x) (Integer y) = (y <? x).
Proof. unfold numGt. cbn. now rewrite !Z.mul_1_r. Qed.

Lemma numSub_integers (x y : Z) : numSub (Integer x) (Integer y) = Integer (x - y).
Proof. unfold numSub. cbn. now rewrite !Z.mul_1_r. Qed.

Lemma compareMarkets_run (a b : Market) (ia ib : Z) :
  parseInt (JStr (id a)) = Integer ia ->
  parseInt (JStr (id b)) = Integer ib ->
  compareMarkets a b =
  if isInconclusive a && negb (isInconclusive b) then Integer (-1)
  else if negb (isInconclusive a) && isInconclusive b then Integer 1
  else if isOpen a && negb (isOpen b) then Integer (-1)
  else if negb (isOpen a) && isOpen b then Integer 1
  else Integer (ib - ia).
Proof.
  intros Ha Hb. unfold compareMarkets, isOpen. rewrite Ha, Hb, numSub_integers. reflexivity.
Qed.

(** X23.  The order of the dashboard is consistent.  For markets whose
    ids are numerals, the comparator of the list is negative exactly when
    the first market is listed before the second: an inconclusive market
    before a conclusive one, then an open market before one that is not,
    then the greater id first.  It is positive exactly in the converse
    case, zero exactly for markets of the same group and id, and its
    negative answers are transitive, so the sort has a well-defined
    result. *)
Theorem dashboard_order_is_consistent (a b c : Market) (ia ib ic : Z) :
  parseInt (JStr (id a)) = Integer ia ->
  parseInt (JStr (id b)) = Integer ib ->
  parseInt (JStr (id c)) = Integer ic ->
  (negative (compareMarkets a b) = true <-> listedBefore a b ia ib) /\
  (positive (compareMarkets a b) = true <-> listedBefore b a ib ia) /\
  (compareMarkets a b = Integer 0 <->
   isInconclusive a = isInconclusive b /\ isOpen a = isOpen b /\ ia = ib) /\
  (negative (compareMarkets a b) = true ->
   negative (compareMarkets b c) = true ->
   negative (compareMarkets a c) = true).
Proof.
  intros Ha Hb Hc.
  rewrite (compareMarkets_run a b ia ib Ha Hb), (compareMarkets_run b c ib ic Hb Hc),
    (compareMarkets_run a c ia ic Ha Hc).
  unfold negative, positive, listedBefore.
  destruct (isInconclusive a), (isInconclusive b), (isInconclusive c),
    (isOpen a), (isOpen b), (isOpen c); cbn [andb negb];
    rewrite ?numGt_integers, ?Z.ltb_lt;
    repeat split; intros;
    repeat match goal with
           | Hx : _ \/ _ |- _ => destruct Hx
           | Hx : _ /\ _ |- _ => destruct Hx
           | Hx : Integer _ = Integer _ |- _ => injection Hx as Hx
           end;
    try discriminate; try lia; try (f_equal; lia); auto 6;
    right; (split; [reflexivity|]); right; (split; [reflexivity|lia]).
Qed.

(** X24.  A market whose settlement record said INCONCLUSIVE still
    needs manual settlement on the dashboard after the admin has settled
    it.  The override is merged into the record, market-status goes on
    reporting the result INCONCLUSIVE, and so the dashboard marks the
    market as inconclusive, shows the badge of a manual settlement for it
    whatever the ledger says, also for a Settled market, and lists it
    before every conclusive market. *)
Theorem overridden_inconclusive_still_needs_manual
    (w : MarketStatus.World) (i : Z) (data : MarketData) (docId : string)
    (existing : list (string * JsValue)) (p : JsValue) (o : Admin.AdminOverride)
    (rest : list MarketStatus.Doc) :
  asksFor w (toText (JNum (Integer i))) ->
  MarketStatus.getDocs w
    = Ok (MarketStatus.mkDoc docId (AdminRecords.updatedSettlement existing o) :: rest) ->
  assoc "parsedGemini" existing = Some p ->
  optProp p "result" = Ok (JStr "INCONCLUSIVE") ->
  let market := marketOf i data (fst (MarketStatus.GET w [])) in
  isInconclusive market = true /\
  status market = data_status data /\
  getStatusBadge market = NeedsManual /\
  forall other, isInconclusive other = false -> compareMarkets market other = Integer (-1).
Proof.
  intros [Hparam Hid] Hdocs Hparsed Hresult market.
  apply String.eqb_neq in Hid.
  assert (Hinconclusive : isInconclusive market = true).
  { subst market. unfold marketOf.
    destruct (GET_run w) as (r & evs & -> & Hshape). cbn [fst].
    rewrite Hparam, Hid, Hdocs in Hshape. cbn [MarketStatus.doc_data] in Hshape.
    destruct Hshape as [_ [(e & _ & Hnull)|Hfound]]; [discriminate Hnull|].
    destruct Hfound as (s & -> & _ & _ & _ & _ & _ & _ & _ & _ & _ & _
                        & (p' & v & c & Hp & Hv & _ & Hres & _)).
    unfold AdminRecords.updatedSettlement, AdminRecords.adminOverrideFields, setFields in Hp.
    cbn [fold_left fst snd] in Hp.
    rewrite getProp_object, !assoc_setField in Hp. cbn [String.eqb Ascii.eqb Bool.eqb] in Hp.
    rewrite Hparsed in Hp. injection Hp as <-.
    rewrite Hresult in Hv. injection Hv as <-.
    unfold statusOfMarket. cbn. rewrite Hres. reflexivity. }
  split; [exact Hinconclusive|]. split.
  { subst market. unfold marketOf. destruct (statusOfMarket _). reflexivity. }
  split.
  - unfold getStatusBadge. rewrite Hinconclusive. now rewrite orb_true_r.
  - intros other Hother. unfold compareMarkets. rewrite Hinconclusive, Hother. reflexivity.
Qed.

End DashboardFacts.

Lemma dashboard_order_is_consistent_witness :
  negative
    (@Dashboard.compareMarkets Samples.runtime
       (Dashboard.mkMarket "7" "Will it rain tomorrow?" (Integer 1700000000) (Integer 2)
          (Integer 2) true None)
       (Dashboard.mkMarket "9" "Is the price above $1?" (Integer 1700000000) (Integer 0)
          (Integer 0) false None))
  = true.
Proof.
  destruct (@dashboard_order_is_consistent Samples.runtime
              (Dashboard.mkMarket "7" "Will it rain tomorrow?" (Integer 1700000000)
                 (Integer 2) (Integer 2) true None)
              (Dashboard.mkMarket "9" "Is the price above $1?" (Integer 1700000000)
                 (Integer 0) (Integer 0) false None)
              (Dashboard.mkMarket "9" "Is the price above $1?" (Integer 1700000000)
                 (Integer 0) (Integer 0) false None)
              7 9 9 eq_refl eq_refl eq_refl) as (Hnegative & _).
  apply Hnegative. left. split; reflexivity.
Defined.

Lemma overridden_inconclusive_still_needs_manual_witness :
  Dashboard.getStatusBadge
    (@Dashboard.marketOf Samples.runtime 7
       (Dashboard.mkMarketData "Will it rain tomorrow?" (Integer 1700000000) (Integer 2)
          (Integer 2))
       (fst (@MarketStatus.GET Samples.runtime
               (MarketStatus.mkWorld (Ok (Some "7"))
                  (Ok [MarketStatus.mkDoc "gemini-1"
                         (AdminRecords.updatedSettlement
                            [("marketId", JStr "7");
                             ("parsedGemini",
                              JObj [("result", JStr "INCONCLUSIVE");
                                    ("confidence", JNum (Integer 7000))])]
                            (Admin.mkOverride (JStr "YES") 10000
                               (JStr "https://example.org/report")
                               (JStr EmptyString) "0xmanual" 1700000000000))])) [])))
  = Dashboard.NeedsManual.
Proof.
  pose (existing := [("marketId", JStr "7");
                     ("parsedGemini",
                      JObj [("result", JStr "INCONCLUSIVE");
                            ("confidence", JNum (Integer 7000))])]).
  pose (o := Admin.mkOverride (JStr "YES") 10000 (JStr "https://example.org/report")
               (JStr EmptyString) "0xmanual" 1700000000000).
  pose (w := MarketStatus.mkWorld (Ok (Some "7"))
               (Ok [MarketStatus.mkDoc "gemini-1"
                      (AdminRecords.updatedSettlement existing o)])).
  assert (Hasks : asksFor w (@toText Samples.runtime (JNum (Integer 7))))
    by (split; [reflexivity|discriminate]).
  destruct (@overridden_inconclusive_still_needs_manual Samples.runtime w 7
              (Dashboard.mkMarketData "Will it rain tomorrow?" (Integer 1700000000)
                 (Integer 2) (Integer 2))
              "gemini-1" existing
              (JObj [("result", JStr "INCONCLUSIVE"); ("confidence", JNum (Integer 7000))])
              o [] Hasks eq_refl eq_refl eq_refl)
    as (_ & _ & Hbadge & _).
  exact Hbadge.
Defined.

(** ** The home page and the creation route *)

Section HomeFacts.
Import Create.
Context `{JsRuntime}.
Variable CLASSIFICATION_PROMPT : string.

Lemma chosenDuration_floor (useCustomTime : bool) (settleDate : string) (ms : Z)
    (duration : JsNumber) :
  Home.chosenDuration useCustomTime settleDate (Integer ms) = Some duration ->
  exists seconds, duration = Integer seconds /\ 10 <= seconds.
Proof.
  unfold Home.chosenDuration.
  destruct (useCustomTime && negb (String.eqb settleDate EmptyString)).
  - rewrite numGt_integers. destruct (Z.ltb_spec ms 10000) as [Hsoon|Hlate]; [discriminate|].
    intros [= <-]. exists (ms / 1000). split; [reflexivity|].
    apply Z.div_le_lower_bound; lia.
  - intros [= <-]. exists 10. split; [reflexivity|]. lia.
Qed.

(** X25.  The page and the route agree on the duration.  Whenever the
    home page sends a creation request, for a valid settlement date, the
    duration it has chosen, 10 seconds or the whole seconds up to the
    settlement date, is a whole number of at least 10, and every
    [newMarket] call of the creation handler for this request carries
    exactly this duration: the floor of the route never changes what the
    page counts down.  The question is sent as typed, tagged when the
    consortium is asked for. *)
Theorem page_and_route_agree_on_the_duration
    (w : World) (st : State) (question : string) (useCustomTime : bool)
    (settleDate : string) (ms : Z) (useConsortium : bool) (requestBody : JsValue) :
  Home.handleCreate question useCustomTime settleDate (Integer ms) useConsortium
    = Some requestBody ->
  request_json w = Ok requestBody ->
  exists seconds evs,
    Home.chosenDuration useCustomTime settleDate (Integer ms) = Some (Integer seconds) /\
    10 <= seconds /\
    trace (snd (POST CLASSIFICATION_PROMPT w st)) = trace st ++ evs /\
    forall q d n gasLimit,
      In (EvNewMarket q d n gasLimit) evs ->
      d = Integer seconds /\
      q = (if useConsortium then JStr (toText (JStr question) +:+ " [CONSORTIUM]")
           else JStr question).
Proof.
  unfold Home.handleCreate. intros Hsent Hbody.
  destruct (String.eqb question EmptyString); [discriminate Hsent|].
  destruct (Home.chosenDuration useCustomTime settleDate (Integer ms)) as [duration|] eqn:Hd;
    [|discriminate Hsent].
  destruct (chosenDuration_floor _ _ _ _ Hd) as (seconds & -> & Hseconds).
  injection Hsent as <-. cbn [Home.jsonNumber] in Hbody.
  assert (Hfields :
            requestField (JObj [("question", JStr question);
                                ("duration", JNum (Integer seconds));
                                ("isConsortium", JBool useConsortium)]) "question"
            = JStr question /\
            requestField (JObj [("question", JStr question);
                                ("duration", JNum (Integer seconds));
                                ("isConsortium", JBool useConsortium)]) "duration"
            = JNum (Integer seconds) /\
            requestField (JObj [("question", JStr question);
                                ("duration", JNum (Integer seconds));
                                ("isConsortium", JBool useConsortium)]) "isConsortium"
            = JBool useConsortium).
  { unfold requestField. rewrite !getProp_object. auto. }
  destruct Hfields as (Fq & Fd & Fc).
  assert (Hvalid : truthy (JNum (Integer seconds))
                   && negb (isNaN (toNumber (JNum (Integer seconds))))
                   && numGe (toNumber (JNum (Integer seconds))) (Integer 10) = true).
  { cbn [truthy toNumber isNaN negb]. unfold numGe. rewrite numGt_integers.
    destruct (Z.eqb_spec seconds 0) as [->|_]; [lia|]. cbn [negb andb].
    destruct (Z.ltb_spec 10 seconds) as [_|Hten]; [reflexivity|].
    assert (seconds = 10) as -> by lia. reflexivity. }
  exists seconds.
  destruct (create_run CLASSIFICATION_PROMPT w st) as (r & evs & after & -> & Hrun).
  exists evs. split; [reflexivity|]. split; [exact Hseconds|]. split; [reflexivity|].
  assert (Hcalls : forall requestBody' base evs1 q d n gasLimit,
            request_json w = Ok requestBody' ->
            Forall (creationCall requestBody' base) evs1 ->
            In (EvNewMarket q d n gasLimit) evs1 ->
            d = Integer seconds /\
            q = (if useConsortium then JStr (toText (JStr question) +:+ " [CONSORTIUM]")
                 else JStr question)).
  { intros requestBody' base evs1 q d n g Hb Hall Hin.
    assert (requestBody' = JObj [("question", JStr question);
                                 ("duration", JNum (Integer seconds));
                                 ("isConsortium", JBool useConsortium)]) as -> by congruence.
    apply creationCall_In in Hall as [_ Hnew].
    specialize (Hnew q d n g Hin). cbn [creationCall] in Hnew. cbv zeta in Hnew.
    rewrite Fq, Fd, Fc, Hvalid in Hnew.
    destruct Hnew as (_ & -> & -> & _). split; [reflexivity|].
    destruct useConsortium; reflexivity. }
  destruct Hrun as [[Hearly _]|Hcreated].
  - destruct Hearly as (_ & _ & _ & [->|[->|[->|Hrest]]]).
    + intros q d n g [].
    + intros q d n g [Hin|[]]. discriminate Hin.
    + intros q d n g [Hin|[Hin|[]]]; discriminate Hin.
    + destruct Hrest as (requestBody' & base & Hb & _ & Hall).
      intros q d n g Hin. exact (Hcalls _ _ _ _ _ _ _ Hb Hall Hin).
  - destruct Hcreated as (marketId & question' & tx & requestBody' & base & evs1 & evs2
                          & oracleSpec & _ & Hb & _ & Hall & -> & _ & Hclass).
    apply classified_calls in Hclass as [Hnot _].
    intros q d n g Hin. apply in_app_or in Hin as [Hin|Hin]; [|destruct (Hnot _ _ _ _ Hin)].
    exact (Hcalls _ _ _ _ _ _ _ Hb Hall Hin).
Qed.

End HomeFacts.

Lemma page_and_route_agree_on_the_duration_witness :
  exists evs,
    Create.trace
      (snd (@Create.POST Samples.runtime EmptyString
              (Create.mkWorld
                 (Ok (JObj [("question", JStr "Will it rain tomorrow?");
                            ("duration", JNum (Integer 61));
                            ("isConsortium", JBool false)]))
                 (Some "http://localhost:8545") (Some "0xkey") (Some "0xmarket") None
                 (Ok tt) (Ok 7) (Ok 42)
                 (fun nonce => Ok (Create.mkTx "0xcreate" (Ok tt)))
                 (Throw (mkError (Some "503 Service Unavailable")))
                 "2026-01-01T00:00:00.000Z" 1700000000000 (Ok tt))
              Samples.emptyStore))
    = evs /\
    forall q d n gasLimit,
      In (Create.EvNewMarket q d n gasLimit) evs -> d = Integer 61.
Proof.
  destruct (@page_and_route_agree_on_the_duration Samples.runtime EmptyString
              (Create.mkWorld
                 (Ok (JObj [("question", JStr "Will it rain tomorrow?");
                            ("duration", JNum (Integer 61));
                            ("isConsortium", JBool false)]))
                 (Some "http://localhost:8545") (Some "0xkey") (Some "0xmarket") None
                 (Ok tt) (Ok 7) (Ok 42)
                 (fun nonce => Ok (Create.mkTx "0xcreate" (Ok tt)))
                 (Throw (mkError (Some "503 Service Unavailable")))
                 "2026-01-01T00:00:00.000Z" 1700000000000 (Ok tt))
              Samples.emptyStore "Will it rain tomorrow?" true "2026-01-01T00:01" 61500 false
              (JObj [("question", JStr "Will it rain tomorrow?");
                     ("duration", JNum (Integer 61));
                     ("isConsortium", JBool false)])
              eq_refl eq_refl)
    as (seconds & evs & Hchosen & _ & Htrace & Hcalls).
  vm_compute in Hchosen. injection Hchosen as <-.
  exists evs. split; [exact Htrace|].
  intros q d n gasLimit Hin. apply (Hcalls q d n gasLimit Hin).
Defined.
